(** * go-llm-client: request adaptation, streaming and client cache

    A shallow embedding of the provider adapters (dashscope, generic,
    openai), of the HTTP requester they share and of the client cache of
    package llm, together with the properties the specification states
    about them.

    Conventions of the embedding:
    - a Go [string] is a Rocq [string] (a sequence of bytes);
    - a [*T] that is only tested against [nil] is an [option T];
    - a function that mutates the struct behind a pointer
      ([func(c *ClientConfig)]) is a function from the old struct to the
      new one;
    - a [[]spec.Message] is an address into a heap of backing arrays, so
      that two slices over the same array alias;
    - a call that reads or writes that heap, sends a request, reads the
      response stream or calls the stream callback is a computation in [M],
      which threads a [World] and ends in a [result];
    - what the Go standard library decides ([json.Unmarshal], the HTTP
      stack) is a parameter, the class [GoEnv]; the lock of the client cache
      is not modelled, a call of [GetClient] runs alone. *)

From Stdlib Require Import ZArith Ascii String.
From stdpp Require Import base strings list gmap.

Local Open Scope string_scope.
Local Open Scope list_scope.
Local Open Scope Z_scope.
Local Open Scope nat_scope.

(** ** Strings *)

Definition LF : string := String "010"%char EmptyString.

(** [strings.CutPrefix], [strings.HasPrefix] and [strings.TrimPrefix]; the
    last returns its argument unchanged when the prefix is absent. *)
Fixpoint CutPrefix (s p : string) : option string :=
  match p, s with
  | EmptyString, _ => Some s
  | String a p', String b s' => if Ascii.eqb a b then CutPrefix s' p' else None
  | String _ _, EmptyString => None
  end.

Definition HasPrefix (s p : string) : bool :=
  match CutPrefix s p with Some _ => true | None => false end.

Definition TrimPrefix (s p : string) : string := default s (CutPrefix s p).

Fixpoint string_drop (n : nat) (s : string) : string :=
  match n, s with
  | O, _ => s
  | S n', String _ s' => string_drop n' s'
  | S _, EmptyString => EmptyString
  end.

(** [index_end pat s] is the number of bytes of [s] up to and including the
    first occurrence of [pat]. *)
Fixpoint index_end (pat s : string) : option nat :=
  if HasPrefix s pat then Some (String.length pat)
  else match s with
       | EmptyString => None
       | String _ s' => S <$> index_end pat s'
       end.

(** ** Errors and results *)

(** Every [fmt.Errorf] of the repository, by its format string; errors that
    come from outside (the HTTP stack, the JSON decoder, the scanner, the
    caller's stream callback) are opaque values. *)
Inductive error : Type :=
| Errorf (msg : string)
| ErrorfWrap (msg : string) (cause : error)
| ErrorfStatus (msg : string) (status : Z) (body : string)
| ErrorfName (msg : string) (name : string)
| External (what : string).

(** The outcome of a call: its value, the [error] it returns, or a run-time
    panic (an index out of range). *)
Inductive result (A : Type) : Type :=
| Ok (a : A)
| Err (e : error)
| Panic (msg : string).
Arguments Ok {A} a.
Arguments Err {A} e.
Arguments Panic {A} msg.

(** What a library call returns as [(T, error)]. *)
Inductive returns (A : Type) : Type :=
| Returned (a : A)
| Failed (e : error).
Arguments Returned {A} a.
Arguments Failed {A} e.

Definition is_Ok {A} (r : result A) : bool :=
  match r with Ok _ => true | _ => false end.

Definition is_Panic {A} (r : result A) : bool :=
  match r with Panic _ => true | _ => false end.

(** ** Package spec *)

Module spec.

Definition Role := string.
Definition RoleSystem : Role := "system".
Definition RoleUser : Role := "user".
Definition RoleAssistant : Role := "assistant".

Record Message : Type := mkMessage {
  role : Role;
  Content : string;
  ReasoningContent : string
}.

Definition NewSystemMessage (content : string) : Message :=
  {| role := RoleSystem; Content := content; ReasoningContent := "" |}.
Definition NewUserMessage (content : string) : Message :=
  {| role := RoleUser; Content := content; ReasoningContent := "" |}.
Definition NewAssistantMessage (content : string) : Message :=
  {| role := RoleAssistant; Content := content; ReasoningContent := "" |}.

(** The zero value of [Message]. *)
Definition zeroMessage : Message :=
  {| role := ""; Content := ""; ReasoningContent := "" |}.

Record Response : Type := mkResponse {
  Message_ : Message;
  RawResponse : string
}.

End spec.

(** ** The reasoning-block pattern of the generic provider

    [thinkTagRegex = regexp.MustCompile(`(?s)<think>.*?</think>\n\n`)].
    With [(?s)] the dot matches every byte, newline included, and [.*?]
    prefers the shortest extension, so the match anchored at a position is
    the opening tag followed by everything up to and including the first
    closing tag with its blank line. *)

Module thinkTagRegex.

Definition openTag : string := "<think>".
Definition closeTag : string := "</think>" +:+ LF +:+ LF.

(** Length of the match that starts at the first byte of [s]. *)
Definition match_at (s : string) : option nat :=
  match CutPrefix s openTag with
  | Some rest => (λ n, String.length openTag + n) <$> index_end closeTag rest
  | None => None
  end.

(** [MatchString]: is there a match anywhere in [s]. *)
Fixpoint MatchString (s : string) : bool :=
  match match_at s with
  | Some _ => true
  | None => match s with
            | EmptyString => false
            | String _ s' => MatchString s'
            end
  end.

(** [ReplaceAllString src repl] for a literal [repl]: the leftmost match is
    replaced, and the search resumes after it. [skip] counts the bytes of
    the current match that are still to be passed over. *)
Fixpoint replace_from (skip : nat) (src repl : string) : string :=
  match src with
  | EmptyString => EmptyString
  | String c src' =>
      match skip with
      | S k => replace_from k src' repl
      | O =>
          match match_at src with
          | Some n => repl +:+ replace_from (pred n) src' repl
          | None => String c (replace_from 0 src' repl)
          end
      end
  end.

Definition ReplaceAllString (src repl : string) : string :=
  replace_from 0 src repl.

End thinkTagRegex.

(** ** [strings.TrimSpace]

    White space is what [unicode.IsSpace] accepts; on the UTF-8 bytes of a
    string these are the six ASCII bytes and the encodings of U+0085, U+00A0,
    U+1680, U+2000..U+200A, U+2028, U+2029, U+202F, U+205F and U+3000. No
    encoding is a prefix or a suffix of another, and a byte that does not
    decode is not white space. *)

Definition bytes (l : list nat) : string :=
  string_of_list_ascii (map ascii_of_nat l).

Definition spaceRunes : list string :=
  map bytes
    ([[9]; [10]; [11]; [12]; [13]; [32]; [194; 133]; [194; 160]; [225; 154; 128]]
     ++ map (λ b, [226; 128; b]) (seq 128 11)
     ++ [[226; 128; 168]; [226; 128; 169]; [226; 128; 175]; [226; 129; 159];
         [227; 128; 128]]).

Definition string_rev (s : string) : string :=
  string_of_list_ascii (rev (list_ascii_of_string s)).

(** Byte length of the white-space rune at the head of [s], if there is one;
    [runes] lists the encodings to look for. *)
Fixpoint leading_space (runes : list string) (s : string) : option nat :=
  match runes with
  | [] => None
  | r :: runes' =>
      if HasPrefix s r then Some (String.length r) else leading_space runes' s
  end.

Fixpoint trim_left_from (runes : list string) (skip : nat) (s : string) : string :=
  match s with
  | EmptyString => EmptyString
  | String _ s' =>
      match skip with
      | S k => trim_left_from runes k s'
      | O =>
          match leading_space runes s with
          | Some n => trim_left_from runes (pred n) s'
          | None => s
          end
      end
  end.

Definition TrimLeftSpace (s : string) : string := trim_left_from spaceRunes 0 s.

Definition TrimRightSpace (s : string) : string :=
  string_rev (trim_left_from (map string_rev spaceRunes) 0 (string_rev s)).

Definition TrimSpace (s : string) : string := TrimRightSpace (TrimLeftSpace s).

(** ** Values of type [any] and their JSON encoding *)

(** A [float32] by its IEEE-754 bit pattern. *)
Definition float32 := Z.

(** NaN and the infinities have all eight exponent bits set. *)
Definition float32_finite (f : float32) : bool :=
  negb (Z.land (Z.shiftr f 23) 255 =? 255)%Z.

(** The values the adapters and the options put into a request body. A
    message slice is kept by the address of its backing array in the
    program ([slice := nat]) and by its elements once encoded
    ([slice := list spec.Message]). *)
Inductive value (slice : Type) : Type :=
| VBool (b : bool)
| VString (s : string)
| VInt (n : Z)
| VFloat32 (f : float32)
| VMessages (ms : slice)
| VBoolMap (m : gmap string bool).
Arguments VBool {slice} b.
Arguments VString {slice} s.
Arguments VInt {slice} n.
Arguments VFloat32 {slice} f.
Arguments VMessages {slice} ms.
Arguments VBoolMap {slice} m.

Abbreviation addr := nat.
Abbreviation any := (value addr).
Abbreviation JSON := (value (list spec.Message)).

(** ** The world a call runs in *)

Module bufio.

(** A [bufio.Scanner] over a response body, as the calls on it see it:
    [Scan] either delivers the next line, or reports the end of the input;
    [err] is what [Err] answers at that point. *)
Inductive Scanner : Type :=
| Exhausted (err : option error)
| Line (text : string) (err : option error) (rest : Scanner).

(** The lines [ls], read without error, in front of [sc]. *)
Definition feed (ls : list string) (sc : Scanner) : Scanner :=
  foldr (λ l rest, Line l None rest) sc ls.

End bufio.

Module http.

Record Request : Type := mkRequest {
  Method : string;
  URL : string;
  Header : gmap string string;
  Payload : gmap string JSON
}.

(** A response body is consumed either whole ([io.ReadAll]) or line by line
    (a [bufio.Scanner] on it). *)
Record Body : Type := mkBody {
  ReadAll : string * option error;
  Lines : bufio.Scanner
}.

Record Response : Type := mkResponse {
  StatusCode : Z;
  Body_ : Body
}.

(** The [Do] method of an [http.Client]. *)
Definition Client := Request → returns Response.

End http.

(** The target types of [json.Unmarshal] in the adapters: the anonymous
    struct of the buffered answer, and the chunk of a stream. *)
Record apiResp : Type := mkApiResp {
  Choices : list spec.Message      (* choices[i].message *)
}.

Record dashscopeDelta : Type := mkDelta {
  delta_Content : string;
  delta_Role : string
}.

Record dashscopeChoice : Type := mkChoice {
  Delta : dashscopeDelta;
  FinishReason : option string
}.

Record dashscopeUsage : Type := mkUsage {
  TotalTokens : Z;
  InputTokens : Z;
  OutputTokens : Z
}.

Record dashscopeChunk : Type := mkChunk {
  chunk_Choices : list dashscopeChoice;
  Usage : option dashscopeUsage
}.

(** What the Go standard library decides: whether
    [http.NewRequestWithContext] accepts a URL, what the default HTTP client
    ([&http.Client{Timeout: 90 * time.Second}]) answers, and what
    [json.Unmarshal] makes of a text for each of the two target types. *)
Class GoEnv : Type := {
  NewRequest_error : string → option error;
  DefaultClient : http.Client;
  Unmarshal_apiResp : string → returns apiResp;
  Unmarshal_chunk : string → returns dashscopeChunk
}.

Record World : Type := mkWorld {
  heap : list (list spec.Message);   (* backing arrays of message slices *)
  sent : list http.Request;          (* requests handed to an HTTP client *)
  consumed : list string;            (* lines taken from a response stream *)
  delivered : list string            (* fragments given to the stream callback *)
}.

(** A computation that may change the world and ends in a [result]. *)
Definition M (A : Type) : Type := World → World * result A.

Definition fail {A} (e : error) : M A := λ w, (w, Err e).
Definition panic {A} (msg : string) : M A := λ w, (w, Panic msg).

#[global] Instance M_ret : MRet M := λ A a w, (w, Ok a).

#[global] Instance M_bind : MBind M := λ A B k m w,
  match m w with
  | (w', Ok a) => k a w'
  | (w', Err e) => (w', Err e)
  | (w', Panic msg) => (w', Panic msg)
  end.

Definition lift {A} (r : result A) : M A := λ w, (w, r).
Definition get : M World := λ w, (w, Ok w).
Definition modify (f : World → World) : M unit := λ w, (f w, Ok tt).

Definition set_heap (h : list (list spec.Message)) (w : World) : World :=
  {| heap := h; sent := sent w; consumed := consumed w; delivered := delivered w |}.
Definition log_sent (r : http.Request) (w : World) : World :=
  {| heap := heap w; sent := sent w ++ [r]; consumed := consumed w;
     delivered := delivered w |}.
Definition log_consumed (l : string) (w : World) : World :=
  {| heap := heap w; sent := sent w; consumed := consumed w ++ [l];
     delivered := delivered w |}.
Definition log_delivered (s : string) (w : World) : World :=
  {| heap := heap w; sent := sent w; consumed := consumed w;
     delivered := delivered w ++ [s] |}.

(** Elements of the slice at [a]; the nil slice has none. *)
Definition deref (h : list (list spec.Message)) (a : addr) : list spec.Message :=
  default [] (h !! a).

(** [make([]spec.Message, n)] followed by [copy]: a new backing array. *)
Definition alloc (ms : list spec.Message) : M addr :=
  λ w, (set_heap (heap w ++ [ms]) w, Ok (length (heap w))).

(** ** [json.Marshal] of a request body

    The encoder reads the message slices at the time of the call, and rejects
    a float that is not finite. *)
Definition marshal_value (h : list (list spec.Message)) (v : any) : option JSON :=
  match v with
  | VBool b => Some (VBool b)
  | VString s => Some (VString s)
  | VInt n => Some (VInt n)
  | VFloat32 f => if float32_finite f then Some (VFloat32 f) else None
  | VMessages a => Some (VMessages (deref h a))
  | VBoolMap m => Some (VBoolMap m)
  end.

Definition Marshal (h : list (list spec.Message)) (body : gmap string any)
  : returns (gmap string JSON) :=
  if forallb (λ kv, bool_decide (is_Some (marshal_value h kv.2))) (map_to_list body)
  then Returned (omap (marshal_value h) body)
  else Failed (External "json: unsupported value").

(** [fmt.Errorf(msg, err)] around a failed library call. *)
Definition wrapf {A} (msg : string) (r : returns A) : result A :=
  match r with
  | Returned a => Ok a
  | Failed e => Err (ErrorfWrap msg e)
  end.

(** ** Package requester *)

Module requester.
Section requester.
Context `{GoEnv}.

Record Requester : Type := mkRequester {
  HTTPClient : http.Client
}.

Definition status_ok (code : Z) : bool :=
  negb ((code <? 200)%Z || (300 <=? code)%Z).

(** The part [Post] and [PostStream] share: encode the body, build the
    request, send it. *)
Definition send (r : Requester) (url : string) (headers : gmap string string)
    (requestBody : gmap string any) : M http.Response :=
  w ← get;
  jsonBody ← lift (wrapf "requester: failed to marshal request body: %w"
                     (Marshal (heap w) requestBody));
  match NewRequest_error url with
  | Some e => fail (ErrorfWrap "requester: failed to create request: %w" e)
  | None =>
      let httpReq := {| http.Method := "POST"; http.URL := url;
                        http.Header := headers; http.Payload := jsonBody |} in
      modify (log_sent httpReq);;
      lift (wrapf "requester: request failed: %w" (HTTPClient r httpReq))
  end.

Definition Post (r : Requester) (url : string) (headers : gmap string string)
    (requestBody : gmap string any) : M string :=
  resp ← send r url headers requestBody;
  match http.ReadAll (http.Body_ resp) with
  | (_, Some e) =>
      fail (ErrorfWrap "requester: failed to read response body: %w" e)
  | (rawBody, None) =>
      if status_ok (http.StatusCode resp) then mret rawBody
      else fail (ErrorfStatus "requester: API error (status %d): %s"
                   (http.StatusCode resp) rawBody)
  end.

Definition PostStream (r : Requester) (url : string)
    (headers : gmap string string) (requestBody : gmap string any)
    : M http.Response :=
  resp ← send r url headers requestBody;
  if status_ok (http.StatusCode resp) then mret resp
  else fail (ErrorfStatus "requester: API error (status %d): %s"
               (http.StatusCode resp) (http.ReadAll (http.Body_ resp)).1).

End requester.
End requester.

(** ** Package spec: client and request options *)

Module options.
Section options.
Context `{GoEnv}.

Record ClientConfig : Type := mkClientConfig {
  APIKey : string;
  APIURL : string;
  HTTPClient : http.Client
}.

Definition ClientOption := ClientConfig → ClientConfig.

Definition NewClientConfig : ClientConfig :=
  {| APIKey := ""; APIURL := ""; HTTPClient := DefaultClient |}.

Definition WithAPIKey (key : string) : ClientOption :=
  λ c, {| APIKey := key; APIURL := APIURL c; HTTPClient := HTTPClient c |}.

Definition WithAPIURL (url : string) : ClientOption :=
  λ c, {| APIKey := APIKey c; APIURL := url; HTTPClient := HTTPClient c |}.

Definition WithHTTPClient (client : http.Client) : ClientOption :=
  λ c, {| APIKey := APIKey c; APIURL := APIURL c; HTTPClient := client |}.

(** A stream callback answers a fragment with [nil] or an error; what it
    answers may depend on the fragments it was given before. *)
Definition StreamCallback := list string → string → option error.

(** [StreamCallback_] is the field [config.StreamCallback] that dashscope's
    [Chat] reads and calls as [config.StreamCallback(ctx, delta.Content)]. *)
Record RequestConfig : Type := mkRequestConfig {
  Model : string;
  Temperature : option float32;
  MaxTokens : option Z;
  TopP : option float32;
  Streaming : bool;
  Thinking : option bool;
  Parameters : gmap string any;
  StreamCallback_ : option StreamCallback
}.

Definition Option := RequestConfig → RequestConfig.

Definition NewRequestConfig : RequestConfig :=
  {| Model := ""; Temperature := None; MaxTokens := None; TopP := None;
     Streaming := false; Thinking := None; Parameters := ∅;
     StreamCallback_ := None |}.

Definition WithThinking (enabled : bool) : Option :=
  λ r, {| Model := Model r; Temperature := Temperature r;
          MaxTokens := MaxTokens r; TopP := TopP r; Streaming := Streaming r;
          Thinking := Some enabled; Parameters := Parameters r;
          StreamCallback_ := StreamCallback_ r |}.

Definition WithModel (model : string) : Option :=
  λ r, {| Model := model; Temperature := Temperature r;
          MaxTokens := MaxTokens r; TopP := TopP r; Streaming := Streaming r;
          Thinking := Thinking r; Parameters := Parameters r;
          StreamCallback_ := StreamCallback_ r |}.

Definition WithTemperature (temp : float32) : Option :=
  λ r, {| Model := Model r; Temperature := Some temp;
          MaxTokens := MaxTokens r; TopP := TopP r; Streaming := Streaming r;
          Thinking := Thinking r; Parameters := Parameters r;
          StreamCallback_ := StreamCallback_ r |}.

Definition WithMaxTokens (max : Z) : Option :=
  λ r, {| Model := Model r; Temperature := Temperature r;
          MaxTokens := Some max; TopP := TopP r; Streaming := Streaming r;
          Thinking := Thinking r; Parameters := Parameters r;
          StreamCallback_ := StreamCallback_ r |}.

Definition WithTopP (topP : float32) : Option :=
  λ r, {| Model := Model r; Temperature := Temperature r;
          MaxTokens := MaxTokens r; TopP := Some topP; Streaming := Streaming r;
          Thinking := Thinking r; Parameters := Parameters r;
          StreamCallback_ := StreamCallback_ r |}.

Definition WithStreaming : Option :=
  λ r, {| Model := Model r; Temperature := Temperature r;
          MaxTokens := MaxTokens r; TopP := TopP r; Streaming := true;
          Thinking := Thinking r; Parameters := Parameters r;
          StreamCallback_ := StreamCallback_ r |}.

Definition set_Parameters (ps : gmap string any) (r : RequestConfig)
  : RequestConfig :=
  {| Model := Model r; Temperature := Temperature r;
     MaxTokens := MaxTokens r; TopP := TopP r; Streaming := Streaming r;
     Thinking := Thinking r; Parameters := ps;
     StreamCallback_ := StreamCallback_ r |}.

(** Every entry of [params] is written into the map of the request, over
    the entry of the same key. *)
Definition WithParameters (params : gmap string any) : Option :=
  λ r, set_Parameters (params ∪ Parameters r) r.

Definition WithParameter (key : string) (v : any) : Option :=
  λ r, set_Parameters (<[key := v]> (Parameters r)) r.

(** [for _, opt := range opts { opt(config) }] *)
Definition apply {C} (opts : list (C → C)) (config : C) : C :=
  foldl (λ c opt, opt c) config opts.

End options.
End options.

(** The two headers every adapter sets. *)
Definition bearer_headers (apiKey : string) : gmap string string :=
  <["Authorization" := "Bearer " +:+ apiKey]>
    (<["Content-Type" := "application/json"]> ∅).

(** [requestBody[k] = v] when [o] holds a value, nothing otherwise. *)
Definition set_if {A} (k : string) (f : A → any) (o : option A)
    (body : gmap string any) : gmap string any :=
  match o with
  | Some a => <[k := f a]> body
  | None => body
  end.

(** The non-streaming answer of the two lenient adapters: the first choice
    when there is one, the zero message otherwise. *)
Definition first_choice_or_zero (resp : apiResp) : spec.Message :=
  if (0 <? length (Choices resp))%nat
  then default spec.zeroMessage (Choices resp !! 0%nat)
  else spec.zeroMessage.

(** ** Package dashscope *)

Module dashscope.
Section dashscope.
Context `{GoEnv}.

Record clientImpl : Type := mkClient {
  requester_ : requester.Requester;
  config : options.ClientConfig
}.

Record modelImpl : Type := mkModel {
  client : clientImpl;
  name : string
}.

Definition defaultURL : string :=
  "https://dashscope.aliyuncs.com/compatible-mode/v1/chat/completions".

Definition NewClient (opts : list options.ClientOption) : result clientImpl :=
  let config := options.NewClientConfig in
  let config := options.WithAPIURL defaultURL config in
  let config := options.apply opts config in
  if String.eqb (options.APIKey config) ""
  then Err (Errorf "dashscope: API key is required, use llm.WithAPIKey() option")
  else Ok {| requester_ := {| requester.HTTPClient := options.HTTPClient config |};
             config := config |}.

Definition Model (c : clientImpl) (name : string) : modelImpl :=
  {| client := c; name := name |}.

(** The request body up to the branch on [config.Streaming]. *)
Definition requestBody (m : modelImpl) (messages : addr)
    (config : options.RequestConfig) : gmap string any :=
  let requestBody := options.Parameters config in
  let requestBody :=
    set_if "enable_thinking" VBool (options.Thinking config) requestBody in
  let requestBody := <["model" := VString (name m)]> requestBody in
  let requestBody := <["messages" := VMessages messages]> requestBody in
  set_if "temperature" VFloat32 (options.Temperature config) requestBody.

Definition streamBody (body : gmap string any) : gmap string any :=
  <["stream_options" := VBoolMap {["include_usage" := true]}]>
    (<["stream" := VBool true]> body).

(** [config.StreamCallback(ctx, delta.Content)] *)
Definition invoke (cb : options.StreamCallback) (fragment : string) : M unit :=
  λ w, (log_delivered fragment w,
        match cb (delivered w) fragment with
        | Some e => Err e
        | None => Ok tt
        end).

(** What follows the scan loop: [scanner.Err()], then the aggregated
    response. *)
Definition finish (scanErr : option error) (fullContent role : string)
    : M spec.Response :=
  match scanErr with
  | Some e => fail (ErrorfWrap "dashscope: stream scan error: %w" e)
  | None =>
      mret {| spec.Message_ := {| spec.role := role;
                                  spec.Content := fullContent;
                                  spec.ReasoningContent := "" |};
              spec.RawResponse := "" |}
  end.

(** [for scanner.Scan() { ... }] and what follows it. *)
Fixpoint scanLoop (cb : option options.StreamCallback)
    (scanner : bufio.Scanner) (fullContent role : string) {struct scanner}
    : M spec.Response :=
  match scanner with
  | bufio.Exhausted e => finish e fullContent role
  | bufio.Line line e rest =>
      modify (log_consumed line);;
      if negb (HasPrefix line "data: ")
      then scanLoop cb rest fullContent role
      else
        let dataStr := TrimPrefix line "data: " in
        let dataStr := TrimSpace dataStr in
        if String.eqb dataStr "[DONE]"
        then finish e fullContent role
        else
          match Unmarshal_chunk dataStr with
          | Failed _ => scanLoop cb rest fullContent role
          | Returned chunk =>
              if (0 <? length (chunk_Choices chunk))%nat
              then
                match chunk_Choices chunk !! 0%nat with
                | None => panic "index out of range [0]"
                | Some choice =>
                    let delta := Delta choice in
                    let role :=
                      if negb (String.eqb (delta_Role delta) "")
                      then delta_Role delta else role in
                    if negb (String.eqb (delta_Content delta) "")
                    then
                      let fullContent := fullContent +:+ delta_Content delta in
                      match cb with
                      | Some callback =>
                          invoke callback (delta_Content delta);;
                          scanLoop cb rest fullContent role
                      | None => scanLoop cb rest fullContent role
                      end
                    else scanLoop cb rest fullContent role
                end
              else scanLoop cb rest fullContent role
          end
  end.

Definition parseResponse (rawBody : string) : result spec.Response :=
  match wrapf "dashscope: failed to unmarshal response: %w"
          (Unmarshal_apiResp rawBody) with
  | Ok apiResp =>
      Ok {| spec.Message_ := first_choice_or_zero apiResp;
            spec.RawResponse := rawBody |}
  | Err e => Err e
  | Panic msg => Panic msg
  end.

Definition Chat (m : modelImpl) (messages : addr) (opts : list options.Option)
    : M spec.Response :=
  let config := options.apply opts options.NewRequestConfig in
  let requestBody := requestBody m messages config in
  let headers := bearer_headers (options.APIKey (dashscope.config (client m))) in
  if options.Streaming config
  then
    resp ← requester.PostStream (requester_ (client m))
              (options.APIURL (dashscope.config (client m))) headers (streamBody requestBody);
    scanLoop (options.StreamCallback_ config)
      (http.Lines (http.Body_ resp)) "" "assistant"
  else
    rawBody ← requester.Post (requester_ (client m))
                (options.APIURL (dashscope.config (client m))) headers requestBody;
    lift (parseResponse rawBody).

End dashscope.
End dashscope.

(** ** Package generic *)

Module generic.
Section generic.
Context `{GoEnv}.

Record clientImpl : Type := mkClient {
  requester_ : requester.Requester;
  config : options.ClientConfig
}.

Record modelImpl : Type := mkModel {
  client : clientImpl;
  name : string
}.

Definition NewClient (opts : list options.ClientOption) : result clientImpl :=
  let config := options.NewClientConfig in
  let config := options.apply opts config in
  if String.eqb (options.APIKey config) ""
  then Err (Errorf "generic provider: API key is required, use llm.WithAPIKey()")
  else if String.eqb (options.APIURL config) ""
  then Err (Errorf "generic provider: API URL is required for private deployment, use llm.WithAPIURL()")
  else Ok {| requester_ := {| requester.HTTPClient := options.HTTPClient config |};
             config := config |}.

Definition Model (c : clientImpl) (name : string) : modelImpl :=
  {| client := c; name := name |}.

Definition noThink : string := LF +:+ "/no_think".

Definition addContent (s : string) (msg : spec.Message) : spec.Message :=
  {| spec.role := spec.role msg;
     spec.Content := spec.Content msg +:+ s;
     spec.ReasoningContent := spec.ReasoningContent msg |}.

(** [messages[i].Content += s]: a write into the backing array of
    [messages]. *)
Definition appendContent (messages : addr) (i : nat) (s : string) : M unit :=
  λ w,
    let elems := deref (heap w) messages in
    match elems !! i with
    | Some msg =>
        (set_heap (<[messages := <[i := addContent s msg]> elems]> (heap w)) w,
         Ok tt)
    | None => (w, Panic "index out of range")
    end.

(** [for i, msg := range processedMessages { if msg.Role == spec.RoleSystem
    { messages[i].Content += "\n/no_think"; break } }], from index [i] on. *)
Fixpoint rangeLoop (messages : addr) (i : nat)
    (processedMessages : list spec.Message) : M unit :=
  match processedMessages with
  | [] => mret tt
  | msg :: rest =>
      if String.eqb (spec.role msg) spec.RoleSystem
      then appendContent messages i noThink
      else rangeLoop messages (S i) rest
  end.

Definition requestBody (m : modelImpl) (messages : addr)
    (config : options.RequestConfig) : gmap string any :=
  let requestBody := options.Parameters config in
  let requestBody := <["model" := VString (name m)]> requestBody in
  let requestBody := <["messages" := VMessages messages]> requestBody in
  set_if "temperature" VFloat32 (options.Temperature config) requestBody.

Definition cleanContent (msg : spec.Message) : spec.Message :=
  {| spec.role := spec.role msg;
     spec.Content := thinkTagRegex.ReplaceAllString (spec.Content msg) "";
     spec.ReasoningContent := spec.ReasoningContent msg |}.

Definition parseResponse (rawBody : string) : result spec.Response :=
  match wrapf "generic provider: failed to unmarshal response: %w"
          (Unmarshal_apiResp rawBody) with
  | Ok apiResp =>
      if (length (Choices apiResp) =? 0)%nat
      then Err (Errorf "generic provider: invalid response, no choices found")
      else
        match Choices apiResp !! 0%nat with
        | None => Panic "index out of range [0]"
        | Some responseMessage =>
            Ok {| spec.Message_ := cleanContent responseMessage;
                  spec.RawResponse := rawBody |}
        end
  | Err e => Err e
  | Panic msg => Panic msg
  end.

(** The thinking adaptation: the copy of the messages, and the suffix for
    the first system message when thinking is switched off. *)
Definition adaptThinking (messages : addr) (config : options.RequestConfig)
    : M unit :=
  w ← get;
  processedMessages ← alloc (deref (heap w) messages);
  match options.Thinking config with
  | Some false =>
      w ← get;
      rangeLoop messages 0 (deref (heap w) processedMessages)
  | _ => mret tt
  end.

Definition Chat (m : modelImpl) (messages : addr) (opts : list options.Option)
    : M spec.Response :=
  let config := options.apply opts options.NewRequestConfig in
  adaptThinking messages config;;
  let requestBody := requestBody m messages config in
  let headers := bearer_headers (options.APIKey (generic.config (client m))) in
  rawBody ← requester.Post (requester_ (client m))
              (options.APIURL (generic.config (client m))) headers requestBody;
  lift (parseResponse rawBody).

End generic.
End generic.

(** ** Package openai *)

Module openai.
Section openai.
Context `{GoEnv}.

Record clientImpl : Type := mkClient {
  requester_ : requester.Requester;
  config : options.ClientConfig
}.

Record modelImpl : Type := mkModel {
  client : clientImpl;
  name : string
}.

Definition defaultURL : string := "https://api.openai.com/v1/chat/completions".

Definition NewClient (opts : list options.ClientOption) : result clientImpl :=
  let config := options.NewClientConfig in
  let config := options.WithAPIURL defaultURL config in
  let config := options.apply opts config in
  if String.eqb (options.APIKey config) ""
  then Err (Errorf "openai provider: API key is required, use spec.WithAPIKey()")
  else Ok {| requester_ := {| requester.HTTPClient := options.HTTPClient config |};
             config := config |}.

Definition Model (c : clientImpl) (name : string) : modelImpl :=
  {| client := c; name := name |}.

Definition requestBody (m : modelImpl) (messages : addr)
    (config : options.RequestConfig) : gmap string any :=
  let requestBody := options.Parameters config in
  let requestBody := <["model" := VString (name m)]> requestBody in
  let requestBody := <["messages" := VMessages messages]> requestBody in
  let requestBody :=
    set_if "temperature" VFloat32 (options.Temperature config) requestBody in
  let requestBody :=
    set_if "max_tokens" VInt (options.MaxTokens config) requestBody in
  let requestBody := set_if "top_p" VFloat32 (options.TopP config) requestBody in
  if options.Streaming config
  then <["stream" := VBool true]> requestBody
  else requestBody.

Definition parseResponse (rawBody : string) : result spec.Response :=
  match wrapf "openai provider: failed to unmarshal response: %w"
          (Unmarshal_apiResp rawBody) with
  | Ok apiResp =>
      Ok {| spec.Message_ := first_choice_or_zero apiResp;
            spec.RawResponse := rawBody |}
  | Err e => Err e
  | Panic msg => Panic msg
  end.

Definition Chat (m : modelImpl) (messages : addr) (opts : list options.Option)
    : M spec.Response :=
  let config := options.apply opts options.NewRequestConfig in
  let requestBody := requestBody m messages config in
  let headers := bearer_headers (options.APIKey (openai.config (client m))) in
  rawBody ← requester.Post (requester_ (client m))
              (options.APIURL (openai.config (client m))) headers requestBody;
  lift (parseResponse rawBody).

End openai.
End openai.

(** ** Package llm: the client cache *)

Module llm.
Section llm.
Context `{GoEnv}.

Record Config : Type := mkConfig {
  Provider : string;
  Model : string;
  APIKey : string;
  APIURL : string;
  SystemPrompt : string;
  Thinking : option bool;
  Parameters : option (gmap string any);
  StreamCallback : option options.StreamCallback
}.

(** The implementations of [spec.Client]. *)
Inductive Client : Type :=
| DashscopeClient (c : dashscope.clientImpl)
| GenericClient (c : generic.clientImpl)
| OpenAIClient (c : openai.clientImpl).

(** The package variable [clientCache], and the clients its values point
    to: a client is known by its address in [clients]. *)
Record Cache : Type := mkCache {
  clientCache : gmap string nat;
  clients : list Client
}.

Definition emptyCache : Cache := {| clientCache := ∅; clients := [] |}.

(** [fmt.Sprintf("%s|%s|%s", cfg.Provider, cfg.APIURL, cfg.APIKey)] *)
Definition cacheKey (cfg : Config) : string :=
  Provider cfg +:+ "|" +:+ APIURL cfg +:+ "|" +:+ APIKey cfg.

Definition clientOpts (cfg : Config) : list options.ClientOption :=
  [options.WithAPIKey (APIKey cfg)]
  ++ (if negb (String.eqb (APIURL cfg) "")
      then [options.WithAPIURL (APIURL cfg)] else []).

Definition mapResult {A B} (f : A → B) (r : result A) : result B :=
  match r with
  | Ok a => Ok (f a)
  | Err e => Err e
  | Panic msg => Panic msg
  end.

(** [switch cfg.Provider { ... }] *)
Definition construct (cfg : Config) : result Client :=
  if String.eqb (Provider cfg) "dashscope"
  then mapResult DashscopeClient (dashscope.NewClient (clientOpts cfg))
  else if String.eqb (Provider cfg) "generic"
  then mapResult GenericClient (generic.NewClient (clientOpts cfg))
  else if String.eqb (Provider cfg) "openai"
  then mapResult OpenAIClient (openai.NewClient (clientOpts cfg))
  else Err (ErrorfName "unknown provider: %s" (Provider cfg)).

(** The two look-ups are the one under the read lock and the one under the
    write lock; a call runs alone between them. *)
Definition GetClient (cfg : Config) (st : Cache) : Cache * result nat :=
  let cacheKey := cacheKey cfg in
  match clientCache st !! cacheKey with
  | Some client => (st, Ok client)
  | None =>
      match clientCache st !! cacheKey with
      | Some client => (st, Ok client)
      | None =>
          match construct cfg with
          | Ok newClient =>
              let p := length (clients st) in
              ({| clientCache := <[cacheKey := p]> (clientCache st);
                  clients := clients st ++ [newClient] |}, Ok p)
          | Err e => (st, Err e)
          | Panic msg => (st, Panic msg)
          end
      end
  end.

End llm.
End llm.

(** ** Package llm: the stateless calls

    [ChatMessages], [Chat] and [ChatText] resolve their client through the
    cache at every call: they run on the cache and on the world. *)

Module chat.
Section chat.
Context `{GoEnv}.

(** [spec.WithStreamCallback] is called here and by the stateful client, and
    is defined in none of the source files: the calls take it as a parameter,
    and nothing is assumed of it. *)
Variable WithStreamCallback : options.StreamCallback → options.Option.

(** The implementations of [spec.Model]. *)
Inductive Model : Type :=
| DashscopeModel (m : dashscope.modelImpl)
| GenericModel (m : generic.modelImpl)
| OpenAIModel (m : openai.modelImpl).

(** [client.Model(name)] through the interface [spec.Client]. *)
Definition Client_Model (client : llm.Client) (name : string) : Model :=
  match client with
  | llm.DashscopeClient c => DashscopeModel (dashscope.Model c name)
  | llm.GenericClient c => GenericModel (generic.Model c name)
  | llm.OpenAIClient c => OpenAIModel (openai.Model c name)
  end.

(** [model.Chat(ctx, messages, opts...)] through the interface [spec.Model]. *)
Definition Model_Chat (model : Model) (messages : addr)
    (opts : list options.Option) : M spec.Response :=
  match model with
  | DashscopeModel m => dashscope.Chat m messages opts
  | GenericModel m => generic.Chat m messages opts
  | OpenAIModel m => openai.Chat m messages opts
  end.

(** The options [ChatMessages] and the [invoke] of the stateful client build
    from a configuration, by the same three tests. *)
Definition requestOpts (cfg : llm.Config) : list options.Option :=
  match llm.Parameters cfg with
  | Some params => [options.WithParameters params]
  | None => []
  end
  ++ match llm.Thinking cfg with
     | Some enabled => [options.WithThinking enabled]
     | None => []
     end
  ++ match llm.StreamCallback cfg with
     | Some callback => [WithStreamCallback callback]
     | None => []
     end.

(** The client behind the address [GetClient] returns; the cache holds no
    other addresses than those of its clients. *)
Definition clientAt {A} (st : llm.Cache) (p : nat)
    (k : llm.Client → World → llm.Cache * World * result A) (w : World)
    : llm.Cache * World * result A :=
  match llm.clients st !! p with
  | Some client => k client w
  | None => (st, w, Panic "invalid memory address or nil pointer dereference")
  end.

(** The error of a failed resolution is wrapped by the format
    [failed to get client for provider '%s': %w], with the provider written
    into it. *)
Definition ChatMessages (messages : addr) (cfg : llm.Config) (st : llm.Cache)
    (w : World) : llm.Cache * World * result spec.Response :=
  match llm.GetClient cfg st with
  | (st', Ok p) =>
      clientAt st' p
        (λ client w,
           let model := Client_Model client (llm.Model cfg) in
           let (w', r) := Model_Chat model messages (requestOpts cfg) w in
           (st', w', r)) w
  | (st', Err err) =>
      (st', w,
       Err (ErrorfWrap ("failed to get client for provider '"
                        +:+ llm.Provider cfg +:+ "': %w") err))
  | (st', Panic msg) => (st', w, Panic msg)
  end.

(** The messages of a single turn: the system prompt, when there is one, and
    the prompt of the user. *)
Definition singleTurn (systemPrompt userPrompt : string) : list spec.Message :=
  (if negb (String.eqb systemPrompt "")
   then [spec.NewSystemMessage systemPrompt] else [])
  ++ [spec.NewUserMessage userPrompt].

(** The two [append]s of [Chat] start from the nil slice: the messages are in
    a new backing array. *)
Definition Chat (userPrompt : string) (cfg : llm.Config) (st : llm.Cache)
    (w : World) : llm.Cache * World * result spec.Response :=
  let messages := length (heap w) in
  let w := set_heap (heap w ++ [singleTurn (llm.SystemPrompt cfg) userPrompt]) w in
  ChatMessages messages cfg st w.

Definition ChatText (userPrompt : string) (cfg : llm.Config) (st : llm.Cache)
    (w : World) : llm.Cache * World * result string :=
  match Chat userPrompt cfg st w with
  | (st', w', r) => (st', w', llm.mapResult (λ resp, spec.Content (spec.Message_ resp)) r)
  end.

End chat.
End chat.

(** ** Package client: the stateful client

    The slice [c.history] is kept by an address in the heap, and the array at
    that address holds the elements of the slice. An [append] to the history
    and a reslicing of it change the elements at that address; how much
    capacity Go leaves behind the elements is not modelled, so the model says
    nothing of a slice that [GetHistory] handed out earlier. The slice a call
    passes to the adapter is [c.history] itself: what the adapter writes is
    written into the history. *)

Module client.
Section client.
Context `{GoEnv}.

Variable WithStreamCallback : options.StreamCallback → options.Option.

(** [json.Unmarshal] with a [*[]spec.Message] target, and [json.Marshal] of a
    [[]spec.Message]: decided by the standard library. *)
Variable Unmarshal_messages : string → returns (list spec.Message).
Variable Marshal_messages : list spec.Message → returns string.

Record Client : Type := mkClient {
  config : llm.Config;
  history : addr;
  client : llm.Client
}.

Definition systemHistory (cfg : llm.Config) : list spec.Message :=
  if negb (String.eqb (llm.SystemPrompt cfg) "")
  then [spec.NewSystemMessage (llm.SystemPrompt cfg)] else [].

Definition New (cfg : llm.Config) (st : llm.Cache) (w : World)
    : llm.Cache * World * result Client :=
  match llm.GetClient cfg st with
  | (st', Ok p) =>
      chat.clientAt st' p
        (λ providerClient w,
           (st', set_heap (heap w ++ [systemHistory cfg]) w,
            Ok {| config := cfg; history := length (heap w);
                  client := providerClient |})) w
  | (st', Err err) => (st', w, Err err)
  | (st', Panic msg) => (st', w, Panic msg)
  end.

Definition invoke (c : Client) (messages : addr) (tempConfig : option llm.Config)
    : M spec.Response :=
  let cfg := match tempConfig with
             | Some temp => temp
             | None => config c
             end in
  let opts := chat.requestOpts WithStreamCallback cfg in
  let model := chat.Client_Model (client c) (llm.Model cfg) in
  chat.Model_Chat model messages opts.

(** [c.history = append(c.history, msg)] *)
Definition appendHistory (c : Client) (msg : spec.Message) : M unit :=
  modify (λ w, set_heap (<[history c := deref (heap w) (history c) ++ [msg]]>
                           (heap w)) w).

(** [c.history = c.history[:len(c.history)-1]] *)
Definition dropLast (c : Client) : M unit :=
  λ w,
    let elems := deref (heap w) (history c) in
    if (0 <? length elems)%nat
    then (set_heap (<[history c := take (length elems - 1) elems]> (heap w)) w,
          Ok tt)
    else (w, Panic "slice bounds out of range [:-1]").

(** What [Send] and [SendStream] do with the answer of [invoke]. *)
Definition record (c : Client) (call : M spec.Response) : M spec.Response :=
  λ w,
    match call w with
    | (w', Ok resp) => (appendHistory c (spec.Message_ resp);; mret resp) w'
    | (w', Err err) => (dropLast c;; fail err) w'
    | (w', Panic msg) => (w', Panic msg)
    end.

Definition Send (c : Client) (userPrompt : string) : M spec.Response :=
  appendHistory c (spec.NewUserMessage userPrompt);;
  record c (invoke c (history c) None).

(** [tempConfig := c.config; tempConfig.StreamCallback = callback] *)
Definition withCallback (cfg : llm.Config)
    (callback : option options.StreamCallback) : llm.Config :=
  {| llm.Provider := llm.Provider cfg; llm.Model := llm.Model cfg;
     llm.APIKey := llm.APIKey cfg; llm.APIURL := llm.APIURL cfg;
     llm.SystemPrompt := llm.SystemPrompt cfg; llm.Thinking := llm.Thinking cfg;
     llm.Parameters := llm.Parameters cfg; llm.StreamCallback := callback |}.

Definition SendStream (c : Client) (userPrompt : string)
    (callback : option options.StreamCallback) : M spec.Response :=
  appendHistory c (spec.NewUserMessage userPrompt);;
  let tempConfig := withCallback (config c) callback in
  record c (invoke c (history c) (Some tempConfig)).

Definition SendStreamNoHistory (c : Client) (userPrompt : string)
    (callback : option options.StreamCallback) : M spec.Response :=
  messages ← alloc (chat.singleTurn (llm.SystemPrompt (config c)) userPrompt);
  let tempConfig := withCallback (config c) callback in
  invoke c messages (Some tempConfig).

(** [make] and [copy] give a new array of the length of the history, so the
    [append] that follows allocates once more. *)
Definition SendNoHistory (c : Client) (userPrompt : string) : M spec.Response :=
  w ← get;
  let elems := deref (heap w) (history c) in
  copied ← (if (0 <? length elems)%nat
            then alloc elems;; mret elems
            else mret []);
  messages ← alloc (copied ++ [spec.NewUserMessage userPrompt]);
  invoke c messages None.

Definition SendText (c : Client) (userPrompt : string) : M string :=
  λ w,
    match Send c userPrompt w with
    | (w', Ok resp) => (w', Ok (spec.Content (spec.Message_ resp)))
    | (w', Err _) => (w', Ok "对话错误，请联系管理员")
    | (w', Panic msg) => (w', Panic msg)
    end.

(** [c.history = c.history[:0]], and the system prompt again. *)
Definition ResetHistory (c : Client) : M unit :=
  modify (λ w, set_heap (<[history c := systemHistory (config c)]> (heap w)) w).

(** The three values [SendByMemory] returns: the memory with the answer, if
    there is one, or with the error. *)
Definition SendByMemory (c : Client) (userPrompt memoryJSON : string)
    : M (string * returns spec.Response) :=
  match (if String.eqb memoryJSON "" then Returned []
         else Unmarshal_messages memoryJSON) with
  | Failed err =>
      mret (memoryJSON, Failed (ErrorfWrap "failed to parse memory json: %w" err))
  | Returned decoded =>
      let messages :=
        if ((length decoded =? 0)%nat
            && negb (String.eqb (llm.SystemPrompt (config c)) ""))%bool
        then decoded ++ [spec.NewSystemMessage (llm.SystemPrompt (config c))]
        else decoded in
      λ w,
        let messages := messages ++ [spec.NewUserMessage userPrompt] in
        let (w, messages) := (set_heap (heap w ++ [messages]) w, length (heap w)) in
        match invoke c messages None w with
        | (w', Ok resp) =>
            match Marshal_messages (deref (heap w') messages
                                    ++ [spec.Message_ resp]) with
            | Returned newMemory => (w', Ok (newMemory, Returned resp))
            | Failed err =>
                (w', Ok (memoryJSON,
                         Failed (ErrorfWrap "failed to marshal new memory: %w" err)))
            end
        | (w', Err err) => (w', Ok (memoryJSON, Failed err))
        | (w', Panic msg) => (w', Panic msg)
        end
  end.

End client.
End client.


(** ** The stream as the scan loop reads it *)

Section stream.
Context `{GoEnv}.

(** How the loop of dashscope's [Chat] takes a line: it passes over a line
    without the data prefix, stops at the terminal marker, passes over a
    payload the decoder rejects, and processes a decoded chunk. *)
Inductive LineKind : Type :=
| NonData
| Done
| Malformed
| Chunk (c : dashscopeChunk).

Definition classify (line : string) : LineKind :=
  if HasPrefix line "data: "
  then
    if String.eqb (TrimSpace (TrimPrefix line "data: ")) "[DONE]"
    then Done
    else match Unmarshal_chunk (TrimSpace (TrimPrefix line "data: ")) with
         | Returned c => Chunk c
         | Failed _ => Malformed
         end
  else NonData.

(** The content fragment of a chunk: the content of the delta of its first
    choice, when there is one and it is not empty. *)
Definition fragment (c : dashscopeChunk) : option string :=
  match chunk_Choices c with
  | choice :: _ =>
      if String.eqb (delta_Content (Delta choice)) "" then None
      else Some (delta_Content (Delta choice))
  | [] => None
  end.

Definition fragments (cs : list dashscopeChunk) : list string := omap fragment cs.

Definition concat_strings (l : list string) : string :=
  foldr String.append EmptyString l.

(** The running role after a chunk. *)
Definition chunk_role (role : string) (c : dashscopeChunk) : string :=
  match chunk_Choices c with
  | choice :: _ =>
      if String.eqb (delta_Role (Delta choice)) "" then role
      else delta_Role (Delta choice)
  | [] => role
  end.

(** [Carries lines cs]: the lines are lines of the chunks [cs], in their
    order, among lines without the data prefix and lines with a malformed
    payload; none of them is the terminal marker. *)
Inductive Carries : list string → list dashscopeChunk → Prop :=
| Carries_nil : Carries [] []
| Carries_non_data line lines cs :
    classify line = NonData → Carries lines cs → Carries (line :: lines) cs
| Carries_malformed line lines cs :
    classify line = Malformed → Carries lines cs → Carries (line :: lines) cs
| Carries_chunk line c lines cs :
    classify line = Chunk c → Carries lines cs → Carries (line :: lines) (c :: cs).

(** The callback, if there is one, answers [nil] to each of the fragments
    [frs] when they are given to it in order after the fragments [hist]. *)
Definition accepts (cb : option options.StreamCallback) (hist frs : list string)
  : Prop :=
  ∀ callback, cb = Some callback →
  ∀ k x, frs !! k = Some x → callback (hist ++ take k frs) x = None.

(** The fragments a call delivers: all of them to a callback, none without. *)
Definition given (cb : option options.StreamCallback) (frs : list string)
  : list string :=
  match cb with Some _ => frs | None => [] end.

End stream.

(** [reads sc lines sc']: [Scan] delivers [lines] from [sc], which is then
    [sc']. *)
Inductive reads : bufio.Scanner → list string → bufio.Scanner → Prop :=
| reads_nil sc : reads sc [] sc
| reads_cons line e sc lines sc' :
    reads sc lines sc' → reads (bufio.Line line e sc) (line :: lines) sc'.

(** ** A sample environment

    A decoder by table, an HTTP client with a fixed answer, and the stream of
    the two-fragment scenario. *)

Definition dq : string := String "034"%char EmptyString.

Definition quoted (s : string) : string := dq +:+ s +:+ dq.

(** The text [{"choices":[{"delta":{"content":"..."}}]}]. *)
Definition chunkText (content : string) : string :=
  "{" +:+ quoted "choices" +:+ ":[{" +:+ quoted "delta" +:+ ":{"
  +:+ quoted "content" +:+ ":" +:+ quoted content +:+ "}}]}".

Definition contentChunk (content : string) : dashscopeChunk :=
  {| chunk_Choices := [{| Delta := {| delta_Content := content; delta_Role := "" |};
                          FinishReason := None |}];
     Usage := None |}.

(** The text [{"choices":[],"usage":{"total_tokens":3}}]. *)
Definition usageText : string :=
  "{" +:+ quoted "choices" +:+ ":[]," +:+ quoted "usage" +:+ ":{"
  +:+ quoted "total_tokens" +:+ ":3}}".

Definition usageChunk : dashscopeChunk :=
  {| chunk_Choices := [];
     Usage := Some {| TotalTokens := 3; InputTokens := 0; OutputTokens := 0 |} |}.

Definition table_lookup {A} (table : list (string * A)) (text : string) : returns A :=
  match list_find (λ kv, String.eqb kv.1 text = true) table with
  | Some (_, (_, a)) => Returned a
  | None => Failed (External "json: cannot decode")
  end.

Definition thinkingAnswer : string :=
  "<think>reasoning</think>" +:+ LF +:+ LF +:+ "Final answer".

Definition sampleStream : list string :=
  ["data: " +:+ chunkText "Hel"; ": keep-alive"; "data: {";
   "data: " +:+ chunkText "lo"; "data: " +:+ usageText; "data: [DONE]"].

Definition sampleResponse : http.Response :=
  {| http.StatusCode := 200;
     http.Body_ := {| http.ReadAll := ("answer", None);
                      http.Lines := bufio.feed sampleStream (bufio.Exhausted None) |} |}.

Definition sampleClient : http.Client := λ _, Returned sampleResponse.

Definition emptyClient : http.Client :=
  λ _, Returned {| http.StatusCode := 200;
                   http.Body_ := {| http.ReadAll := ("no choices", None);
                                    http.Lines := bufio.Exhausted None |} |}.

Definition sampleEnv : GoEnv :=
  {| NewRequest_error := λ _, None;
     DefaultClient := sampleClient;
     Unmarshal_apiResp :=
       table_lookup
         [("answer", {| Choices := [spec.NewAssistantMessage thinkingAnswer] |});
          ("no choices", {| Choices := [] |})];
     Unmarshal_chunk :=
       table_lookup
         [(chunkText "Hel", contentChunk "Hel"); (chunkText "lo", contentChunk "lo");
          (usageText, usageChunk)] |}.

Definition sampleMessages : list spec.Message :=
  [spec.NewSystemMessage "You are a helpful assistant."; spec.NewUserMessage "hi"].

Definition sampleWorld : World :=
  {| heap := [sampleMessages]; sent := []; consumed := []; delivered := [] |}.

Definition sampleConfig (client : http.Client) : options.ClientConfig :=
  {| options.APIKey := "sk-test"; options.APIURL := "http://localhost/v1/chat";
     options.HTTPClient := client |}.

Definition sampleDashscope (client : http.Client) : dashscope.modelImpl :=
  dashscope.Model
    {| dashscope.requester_ := {| requester.HTTPClient := client |};
       dashscope.config := sampleConfig client |} "qwen-plus".

Definition sampleGeneric (client : http.Client) : generic.modelImpl :=
  generic.Model
    {| generic.requester_ := {| requester.HTTPClient := client |};
       generic.config := sampleConfig client |} "/mnt/Qwen3-30B-A3B/".

Definition sampleOpenAI (client : http.Client) : openai.modelImpl :=
  openai.Model
    {| openai.requester_ := {| requester.HTTPClient := client |};
       openai.config := sampleConfig client |} "gpt-4o".

(** An option that switches streaming on and sets the callback. *)
Definition streamingWith (cb : option options.StreamCallback) : options.Option :=
  λ r, {| options.Model := options.Model r;
          options.Temperature := options.Temperature r;
          options.MaxTokens := options.MaxTokens r;
          options.TopP := options.TopP r;
          options.Streaming := true;
          options.Thinking := options.Thinking r;
          options.Parameters := options.Parameters r;
          options.StreamCallback_ := cb |}.

Definition acceptAll : options.StreamCallback := λ _ _, None.

(** A configuration by its three coordinates. *)
Definition triple (provider url key : string) : llm.Config :=
  {| llm.Provider := provider; llm.Model := "model"; llm.APIKey := key;
     llm.APIURL := url; llm.SystemPrompt := ""; llm.Thinking := None;
     llm.Parameters := None; llm.StreamCallback := None |}.

(** A callback that refuses the fragment [bad]. *)
Definition refusing (bad : string) : options.StreamCallback :=
  λ _ fragment,
    if String.eqb fragment bad then Some (External "stop") else None.

(** ** Notions the properties are stated with *)

(** The request [Post] and [PostStream] build for a body that encodes. *)
Definition postRequest (url : string) (headers : gmap string string)
    (payload : gmap string JSON) : http.Request :=
  {| http.Method := "POST"; http.URL := url; http.Header := headers;
     http.Payload := payload |}.

Section calls.
Context `{GoEnv}.

(** The POST of a call of [Chat], for each adapter: what [Chat] does up to
    and including its call of the requester. *)
Definition dashscope_Post (m : dashscope.modelImpl) (messages : addr)
    (opts : list options.Option) : M string :=
  requester.Post (dashscope.requester_ (dashscope.client m))
    (options.APIURL (dashscope.config (dashscope.client m)))
    (bearer_headers (options.APIKey (dashscope.config (dashscope.client m))))
    (dashscope.requestBody m messages (options.apply opts options.NewRequestConfig)).

Definition dashscope_PostStream (m : dashscope.modelImpl) (messages : addr)
    (opts : list options.Option) : M http.Response :=
  requester.PostStream (dashscope.requester_ (dashscope.client m))
    (options.APIURL (dashscope.config (dashscope.client m)))
    (bearer_headers (options.APIKey (dashscope.config (dashscope.client m))))
    (dashscope.streamBody
       (dashscope.requestBody m messages
          (options.apply opts options.NewRequestConfig))).

Definition generic_Post (m : generic.modelImpl) (messages : addr)
    (opts : list options.Option) : M string :=
  generic.adaptThinking messages (options.apply opts options.NewRequestConfig);;
  requester.Post (generic.requester_ (generic.client m))
    (options.APIURL (generic.config (generic.client m)))
    (bearer_headers (options.APIKey (generic.config (generic.client m))))
    (generic.requestBody m messages (options.apply opts options.NewRequestConfig)).

Definition openai_Post (m : openai.modelImpl) (messages : addr)
    (opts : list options.Option) : M string :=
  requester.Post (openai.requester_ (openai.client m))
    (options.APIURL (openai.config (openai.client m)))
    (bearer_headers (options.APIKey (openai.config (openai.client m))))
    (openai.requestBody m messages (options.apply opts options.NewRequestConfig)).

End calls.

Section cache_notions.
Context `{GoEnv}.

(** Every address in the cache is the address of a client, and no two keys
    share one. *)
Definition cache_wf (st : llm.Cache) : Prop :=
  (∀ k p, llm.clientCache st !! k = Some p → p < length (llm.clients st))
  ∧ (∀ k1 k2 p,
       llm.clientCache st !! k1 = Some p → llm.clientCache st !! k2 = Some p →
       k1 = k2).

(** [later st st']: [st'] is [st] after some calls of [GetClient]. *)
Inductive later : llm.Cache → llm.Cache → Prop :=
| later_refl st : later st st
| later_step cfg st st' : later (llm.GetClient cfg st).1 st' → later st st'.

End cache_notions.

(** The world after [lines] more lines were taken from the stream and the
    fragments [frs] more were given to the callback. *)
Definition advance (lines frs : list string) (w : World) : World :=
  {| heap := heap w; sent := sent w; consumed := consumed w ++ lines;
     delivered := delivered w ++ frs |}.

(** The requests handed to an HTTP client between [w] and [w']. *)
Definition requests (w w' : World) : list http.Request :=
  drop (length (sent w)) (sent w').

(** A request to [url] that is authorised by [key], names [model], and carries
    the messages [ms]. *)
Definition carries (url key model : string) (ms : list spec.Message)
    (req : http.Request) : Prop :=
  http.Method req = "POST"
  ∧ http.URL req = url
  ∧ http.Header req = bearer_headers key
  ∧ http.Payload req !! "model" = Some (VString model)
  ∧ http.Payload req !! "messages" = Some (VMessages ms).

(** The field [k] of a request is the entry [k] of the extra parameters of
    the call, encoded, and is absent when there is no such entry. *)
Definition passes (h : list (list spec.Message)) (params : gmap string any)
    (k : string) (req : http.Request) : Prop :=
  http.Payload req !! k = params !! k ≫= marshal_value h.

(** The configuration a client was constructed with. *)
Definition clientConfig `{GoEnv} (client : llm.Client) : options.ClientConfig :=
  match client with
  | llm.DashscopeClient c => dashscope.config c
  | llm.GenericClient c => generic.config c
  | llm.OpenAIClient c => openai.config c
  end.

(** The two adapters that write no message. *)
Definition keepsMessages `{GoEnv} (client : llm.Client) : bool :=
  match client with
  | llm.GenericClient _ => false
  | _ => true
  end.

(** The messages [l] with the marker appended to the first message of role
    system, if there is one. *)
Fixpoint markFirstSystem (l : list spec.Message) : list spec.Message :=
  match l with
  | [] => []
  | msg :: rest =>
      if String.eqb (spec.role msg) spec.RoleSystem
      then generic.addContent generic.noThink msg :: rest
      else msg :: markFirstSystem rest
  end.

(** What a slice that held [l] holds after it was passed to Chat with the
    options [opts]: generic with thinking switched off marks the first system
    message. *)
Definition written `{GoEnv} (client : llm.Client) (opts : list options.Option)
    (l : list spec.Message) : list spec.Message :=
  match client with
  | llm.GenericClient _ =>
      match options.Thinking (options.apply opts options.NewRequestConfig) with
      | Some false => markFirstSystem l
      | _ => l
      end
  | _ => l
  end.

(** [messages] is a slice that was made after [w] and holds [l] in [w1];
    nothing else happened between the two worlds. *)
Definition fresh_slice (w w1 : World) (messages : addr) (l : list spec.Message)
  : Prop :=
  sent w1 = sent w
  ∧ heap w1 !! messages = Some l
  ∧ length (heap w) ≤ messages
  ∧ ∀ a, a < length (heap w) → heap w1 !! a = heap w !! a.

(** The history after a turn that started from [kept]: with the prompt and
    the answer when there is an answer, as it was otherwise. *)
Definition turn (kept : list spec.Message) (userPrompt : string)
    (r : result spec.Response) : list spec.Message :=
  match r with
  | Ok resp => kept ++ [spec.NewUserMessage userPrompt; spec.Message_ resp]
  | _ => kept
  end.

(** A call that ran from [w] sent at most one request, and sent one if it
    returned a value. *)
Definition sends_once {A} (w : World) (run : World * result A) : Prop :=
  sent run.1 = sent w ++ requests w run.1
  ∧ length (requests w run.1) ≤ 1
  ∧ (is_Ok run.2 = true → length (requests w run.1) = 1).

(** The world after [k] calls of [call], one after the other, whatever they
    returned. *)
Definition calls {A} (k : nat) (call : M A) (w : World) : World :=
  Nat.iter k (λ w, (call w).1) w.

(** An HTTP client that answers every request with status 500 and the body
    [server error]. *)
Definition serverError : http.Client :=
  λ _, Returned {| http.StatusCode := 500;
                   http.Body_ := {| http.ReadAll := ("server error", None);
                                    http.Lines := bufio.Exhausted None |} |}.

(** A stream that breaks after the line of the second fragment. *)
Definition brokenResponse : http.Response :=
  {| http.StatusCode := 200;
     http.Body_ :=
       {| http.ReadAll := ("", Some (External "unexpected EOF"));
          http.Lines := bufio.feed (take 4 sampleStream)
                          (bufio.Exhausted (Some (External "unexpected EOF"))) |} |}.

Definition brokenClient : http.Client := λ _, Returned brokenResponse.

(** A stand-in for [spec.WithStreamCallback]: streaming with the callback. *)
Definition sampleWithStreamCallback (cb : options.StreamCallback) : options.Option :=
  streamingWith (Some cb).

(** A configuration with a system prompt, for each provider, and a stateful
    client whose history is the slice at address 0. *)
Definition sampleLLMConfig (provider : string) (thinking : option bool)
    : llm.Config :=
  {| llm.Provider := provider; llm.Model := "qwen-plus"; llm.APIKey := "sk-test";
     llm.APIURL := "http://localhost/v1/chat";
     llm.SystemPrompt := "You are a helpful assistant."; llm.Thinking := thinking;
     llm.Parameters := None; llm.StreamCallback := None |}.

Definition sampleStateful (provider : string) (thinking : option bool)
    (adapter : llm.Client) : client.Client :=
  {| client.config := sampleLLMConfig provider thinking; client.history := 0;
     client.client := adapter |}.

Definition sampleGenericClient (client : http.Client) : llm.Client :=
  llm.GenericClient (generic.client (sampleGeneric client)).

(** A codec for memories by table: one memory that decodes, and an encoder
    that writes the number of messages. *)
Definition sampleUnmarshal : string → returns (list spec.Message) :=
  table_lookup [("[system,hi,answer]",
                 [spec.NewSystemMessage "You are a helpful assistant.";
                  spec.NewUserMessage "hi"; spec.NewAssistantMessage "answer"])].

Definition sampleMarshal (l : list spec.Message) : returns string :=
  Returned (concat_strings (replicate (length l) "m")).

(** The bit pattern of a quiet NaN. *)
Definition NaN : float32 := 2143289344%Z.

(** Unfolds the plumbing of [M]. *)
Ltac run :=
  unfold mbind, mret, M_bind, M_ret, get, lift, modify, fail, panic in *.

(** A string is none of those of a list of strings. *)
Ltac not_listed :=
  let Hin := fresh "Hin" in
  intros Hin;
  repeat (apply elem_of_cons in Hin as [Hin|Hin]; [discriminate|]);
  by apply elem_of_nil in Hin.

(** Looks a key up in the body an adapter builds. *)
Ltac lookup_body :=
  unfold dashscope.streamBody, dashscope.requestBody, generic.requestBody,
    openai.requestBody, set_if;
  repeat match goal with
         | |- context [match ?o with Some _ => _ | None => _ end] => destruct o
         | |- context [if ?b then _ else _] => destruct b
         end;
  repeat (rewrite lookup_insert_ne by done);
  rewrite ?lookup_insert_eq; done.


(** * Properties *)

(** ** The string functions on concrete inputs *)

Example TrimSpace_done :
  TrimSpace (" [DONE]" +:+ bytes [13; 194; 160; 9]) = "[DONE]".
Proof. reflexivity. Qed.

Example TrimSpace_inner : TrimSpace "  a b  " = "a b".
Proof. reflexivity. Qed.

Example TrimPrefix_data : TrimPrefix "data: [DONE]" "data: " = "[DONE]".
Proof. reflexivity. Qed.

Example TrimPrefix_absent : TrimPrefix "event: ping" "data: " = "event: ping".
Proof. reflexivity. Qed.

Example cleanup_final_answer :
  thinkTagRegex.ReplaceAllString thinkingAnswer "" = "Final answer".
Proof. reflexivity. Qed.

(** The closing tag counts only with its blank line, and the shortest block
    is the one removed. *)
Example cleanup_needs_blank_line :
  thinkTagRegex.ReplaceAllString ("<think>a</think>" +:+ LF +:+ "b") ""
  = "<think>a</think>" +:+ LF +:+ "b".
Proof. reflexivity. Qed.

Example cleanup_two_blocks :
  thinkTagRegex.ReplaceAllString
    ("<think>a</think>" +:+ LF +:+ LF +:+ "x<think>b</think>" +:+ LF +:+ LF +:+ "y") ""
  = "xy".
Proof. reflexivity. Qed.

Example classify_sampleStream :
  classify (H := sampleEnv) <$> sampleStream
  = [Chunk (contentChunk "Hel"); NonData; Malformed; Chunk (contentChunk "lo");
     Chunk usageChunk; Done].
Proof. reflexivity. Qed.

(** ** Appending strings *)

Lemma append_nil_l (s : string) : "" +:+ s = s.
Proof. reflexivity. Qed.

Lemma append_cons (x : ascii) (a b : string) :
  String x a +:+ b = String x (a +:+ b).
Proof. reflexivity. Qed.

Lemma string_append_assoc (a b c : string) : (a +:+ b) +:+ c = a +:+ (b +:+ c).
Proof. induction a as [|x a IH]; [done|]. by rewrite !append_cons, IH. Qed.

Lemma string_append_nil_r (a : string) : a +:+ "" = a.
Proof. induction a as [|x a IH]; [done|]. by rewrite append_cons, IH. Qed.

Lemma length_append (a b : string) :
  String.length (a +:+ b) = String.length a + String.length b.
Proof. induction a as [|x a IH]; [done|]. rewrite append_cons. simpl. by rewrite IH. Qed.

(** ** The reasoning-block cleanup *)

Section cleanup.

Import thinkTagRegex.

Lemma string_drop_nil (n : nat) : string_drop n EmptyString = EmptyString.
Proof. by destruct n. Qed.

Lemma replace_from_skip (k : nat) (src repl : string) :
  replace_from k src repl = replace_from 0 (string_drop k src) repl.
Proof.
  revert k. induction src as [|c src IH]; intros k.
  - by rewrite string_drop_nil.
  - destruct k as [|k]; [done|]. simpl. apply IH.
Qed.

Lemma match_at_pos (s : string) (n : nat) : match_at s = Some n → 0 < n.
Proof.
  unfold match_at. destruct (CutPrefix s openTag) as [rest|]; [|done].
  destruct (index_end closeTag rest); simpl; [|done].
  intros [= <-]. lia.
Qed.

Lemma match_at_nil : match_at EmptyString = None.
Proof. reflexivity. Qed.

(** The search resumes right after a match. *)
Lemma ReplaceAllString_match (s repl : string) (n : nat) :
  match_at s = Some n →
  ReplaceAllString s repl = repl +:+ ReplaceAllString (string_drop n s) repl.
Proof.
  intros Hm. pose proof (match_at_pos _ _ Hm) as Hn.
  destruct s as [|c s]; [by rewrite match_at_nil in Hm|].
  unfold ReplaceAllString. cbn [replace_from]. rewrite Hm.
  rewrite replace_from_skip. destruct n; [lia|]. done.
Qed.

Lemma ReplaceAllString_no_match (c : ascii) (s repl : string) :
  match_at (String c s) = None →
  ReplaceAllString (String c s) repl = String c (ReplaceAllString s repl).
Proof.
  intros Hm. unfold ReplaceAllString. cbn [replace_from]. by rewrite Hm.
Qed.

Lemma replace_from_length (k : nat) (s : string) :
  String.length (replace_from k s "") ≤ String.length s.
Proof.
  revert k. induction s as [|c s IH]; intros k; [done|].
  cbn [replace_from]. destruct k as [|k].
  - destruct (match_at (String c s)).
    + rewrite append_nil_l. simpl. specialize (IH (pred n)). lia.
    + simpl. specialize (IH 0). lia.
  - simpl. specialize (IH k). lia.
Qed.

(** A pass over a text that holds a block returns a shorter text. *)
Lemma ReplaceAllString_shrinks (s : string) :
  MatchString s = true →
  String.length (ReplaceAllString s "") < String.length s.
Proof.
  unfold ReplaceAllString. induction s as [|c s IH]; [done|].
  cbn [MatchString replace_from].
  destruct (match_at (String c s)) as [n|].
  - intros _. rewrite append_nil_l. simpl.
    pose proof (replace_from_length (pred n) s). lia.
  - intros Hs. simpl. specialize (IH Hs). lia.
Qed.

Lemma ReplaceAllString_clean (s : string) :
  MatchString s = false → ReplaceAllString s "" = s.
Proof.
  induction s as [|c s IH]; [done|].
  cbn [MatchString]. destruct (match_at (String c s)) eqn:Hm; [done|].
  intros Hs. rewrite ReplaceAllString_no_match by done. by rewrite IH.
Qed.

Lemma ReplaceAllString_fixed (s : string) :
  ReplaceAllString s "" = s → MatchString s = false.
Proof.
  intros Heq. destruct (MatchString s) eqn:Hs; [|done].
  apply ReplaceAllString_shrinks in Hs. rewrite Heq in Hs. lia.
Qed.

(** C2 (as amended): content that holds no reasoning block is left unchanged
    by the cleanup, and cleaning a text twice gives the same as cleaning it
    once exactly when the text cleaned once holds no reasoning block. *)
Theorem cleanup_idempotent_iff_clean (s : string) :
  (MatchString s = false → ReplaceAllString s "" = s) ∧
  (ReplaceAllString (ReplaceAllString s "") "" = ReplaceAllString s ""
   ↔ MatchString (ReplaceAllString s "") = false).
Proof.
  split; [apply ReplaceAllString_clean|].
  split; [apply ReplaceAllString_fixed | apply ReplaceAllString_clean].
Qed.

(** C2 (as stated) fails: around a removed block the two halves of an opening
    tag meet, and the second pass removes the block they open. *)
Lemma cleanup_not_idempotent :
  let s := "<thi<think>x</think>" +:+ LF +:+ LF +:+ "nk>y</think>" +:+ LF +:+ LF in
  ReplaceAllString s "" = "<think>y</think>" +:+ LF +:+ LF ∧
  ReplaceAllString (ReplaceAllString s "") "" = "" ∧
  ReplaceAllString (ReplaceAllString s "") "" ≠ ReplaceAllString s "".
Proof. repeat split; [reflexivity..|discriminate]. Qed.

(** *** The answer of the expected shape: one block, then the text *)

Lemma CutPrefix_app (x p y rest : string) :
  CutPrefix x p = Some rest → CutPrefix (x +:+ y) p = Some (rest +:+ y).
Proof.
  revert x. induction p as [|a p IH]; intros x.
  - destruct x; simpl; intros [= <-]; [by destruct y|by rewrite append_cons].
  - destruct x as [|b x]; [done|]. rewrite append_cons. simpl.
    destruct (Ascii.eqb a b); [apply IH|done].
Qed.

(** A prefix that fails on a byte, not for want of bytes, fails whatever
    follows. *)
Lemma CutPrefix_app_None (x p y : string) :
  CutPrefix x p = None → String.length p ≤ String.length x →
  CutPrefix (x +:+ y) p = None.
Proof.
  revert x. induction p as [|a p IH]; intros x; [by destruct x|].
  destruct x as [|b x]; [simpl; lia|]. rewrite append_cons. simpl.
  destruct (Ascii.eqb a b); [|done]. intros Hc Hl. apply IH; [done|lia].
Qed.

Lemma CutPrefix_length (x p rest : string) :
  CutPrefix x p = Some rest → String.length p ≤ String.length x.
Proof.
  revert x. induction p as [|a p IH]; intros x; [simpl; lia|].
  destruct x as [|b x]; [done|]. simpl.
  destruct (Ascii.eqb a b); [|done]. intros Hc%IH. lia.
Qed.

Lemma HasPrefix_app (x p y : string) :
  HasPrefix x p = true → HasPrefix (x +:+ y) p = true.
Proof.
  unfold HasPrefix. destruct (CutPrefix x p) as [rest|] eqn:Hc; [|done].
  by rewrite (CutPrefix_app _ _ y _ Hc).
Qed.

Lemma HasPrefix_app_false (x p y : string) :
  HasPrefix x p = false → String.length p ≤ String.length x →
  HasPrefix (x +:+ y) p = false.
Proof.
  unfold HasPrefix. destruct (CutPrefix x p) as [rest|] eqn:Hc; [done|].
  intros _ Hl. by rewrite CutPrefix_app_None.
Qed.

Lemma HasPrefix_length (x p : string) :
  HasPrefix x p = true → String.length p ≤ String.length x.
Proof.
  unfold HasPrefix. destruct (CutPrefix x p) as [rest|] eqn:Hc; [|done].
  intros _. by apply CutPrefix_length in Hc.
Qed.

Lemma index_end_cons (pat : string) (c : ascii) (x : string) :
  index_end pat (String c x)
  = if HasPrefix (String c x) pat then Some (String.length pat)
    else S <$> index_end pat x.
Proof. reflexivity. Qed.

Lemma index_end_nil (pat : string) :
  index_end pat ""
  = if HasPrefix "" pat then Some (String.length pat) else None.
Proof. reflexivity. Qed.

Lemma index_end_bounds (pat x : string) (n : nat) :
  index_end pat x = Some n → String.length pat ≤ n ≤ String.length x.
Proof.
  revert n. induction x as [|c x IH]; intros n.
  - rewrite index_end_nil. destruct (HasPrefix "" pat) eqn:Hp; [|done].
    intros [= <-]. apply HasPrefix_length in Hp. lia.
  - rewrite index_end_cons. destruct (HasPrefix (String c x) pat) eqn:Hp.
    + intros [= <-]. apply HasPrefix_length in Hp. lia.
    + destruct (index_end pat x) as [k|]; [|done]. simpl.
      intros [= <-]. specialize (IH k eq_refl). simpl. lia.
Qed.

(** The first occurrence of a pattern in a text is its first occurrence in
    every extension of the text. *)
Lemma index_end_app (pat x y : string) (n : nat) :
  index_end pat x = Some n → index_end pat (x +:+ y) = Some n.
Proof.
  revert n. induction x as [|c x IH]; intros n.
  - rewrite index_end_nil. destruct (HasPrefix "" pat) eqn:Hp; [|done].
    intros [= <-]. rewrite append_nil_l.
    apply (HasPrefix_app _ _ y) in Hp. rewrite append_nil_l in Hp.
    destruct y; [by rewrite index_end_nil, Hp|by rewrite index_end_cons, Hp].
  - rewrite append_cons, !index_end_cons.
    destruct (HasPrefix (String c x) pat) eqn:Hp.
    + intros [= <-]. apply (HasPrefix_app _ _ y) in Hp.
      rewrite append_cons in Hp. by rewrite Hp.
    + destruct (index_end pat x) as [k|] eqn:Hk; [|done]. simpl.
      intros [= <-]. apply index_end_bounds in Hk as Hb.
      apply (HasPrefix_app_false _ _ y) in Hp; [|simpl; lia].
      rewrite append_cons in Hp. by rewrite Hp, (IH k).
Qed.

Lemma string_drop_app (x y : string) :
  string_drop (String.length x) (x +:+ y) = y.
Proof. induction x as [|c x IH]; [by destruct y|]. by rewrite append_cons. Qed.

(** X6: an answer that is one reasoning block followed by a text without any
    block is cleaned to that text, and cleaning the result again changes
    nothing. The first hypothesis says that the block ends at the first
    closing tag with its blank line. *)
Theorem cleanup_single_block (reasoning answer : string) :
  index_end closeTag (reasoning +:+ closeTag)
  = Some (String.length reasoning + String.length closeTag) →
  MatchString answer = false →
  ReplaceAllString (openTag +:+ reasoning +:+ closeTag +:+ answer) "" = answer
  ∧ ReplaceAllString
      (ReplaceAllString (openTag +:+ reasoning +:+ closeTag +:+ answer) "") ""
    = answer.
Proof.
  intros Hclose Hclean.
  assert (ReplaceAllString (openTag +:+ reasoning +:+ closeTag +:+ answer) ""
          = answer) as Hone.
  { rewrite (ReplaceAllString_match _ _
               (String.length openTag
                + (String.length reasoning + String.length closeTag))).
    - rewrite append_nil_l.
      replace (string_drop _ _) with answer; [by apply ReplaceAllString_clean|].
      rewrite <- (string_append_assoc reasoning), <- string_append_assoc.
      rewrite <- !length_append. by rewrite string_drop_app.
    - unfold match_at.
      rewrite (CutPrefix_app openTag openTag _ "") by done.
      rewrite append_nil_l, <- string_append_assoc.
      by rewrite (index_end_app _ _ _ _ Hclose). }
  split; [done|]. rewrite Hone. by apply ReplaceAllString_clean.
Qed.

End cleanup.

Lemma cleanup_single_block_witness :
  thinkTagRegex.ReplaceAllString thinkingAnswer "" = "Final answer"
  ∧ thinkTagRegex.ReplaceAllString
      (thinkTagRegex.ReplaceAllString thinkingAnswer "") "" = "Final answer".
Proof.
  apply (cleanup_single_block "reasoning" "Final answer"); reflexivity.
Defined.

(** ** The requester *)

Section requester_facts.
Context `{GoEnv}.

(** A call either stops before it sends anything, with an error, or sends the
    one request that carries the encoded body. *)
Lemma send_cases (r : requester.Requester) (url : string)
    (headers : gmap string string) (body : gmap string any) (w : World) :
  (∃ e, requester.send r url headers body w = (w, Err e)) ∨
  (∃ payload res,
      Marshal (heap w) body = Returned payload ∧
      requester.send r url headers body w
      = (log_sent (postRequest url headers payload) w, res) ∧
      is_Panic res = false).
Proof.
  unfold requester.send. run.
  destruct (Marshal (heap w) body) as [payload|e] eqn:Hm; simpl.
  - destruct (NewRequest_error url) as [e|]; simpl; [by eauto|].
    right. exists payload. eexists. split; [done|]. split; [done|].
    by destruct (requester.HTTPClient r _).
  - by eauto.
Qed.

Lemma Post_cases (r : requester.Requester) (url : string)
    (headers : gmap string string) (body : gmap string any) (w : World) :
  (∃ e, requester.Post r url headers body w = (w, Err e)) ∨
  (∃ payload res,
      Marshal (heap w) body = Returned payload ∧
      requester.Post r url headers body w
      = (log_sent (postRequest url headers payload) w, res) ∧
      is_Panic res = false).
Proof.
  unfold requester.Post. run.
  destruct (send_cases r url headers body w) as [[e ->]|(p & res & Hm & -> & Hp)];
    [by eauto|].
  right. exists p. destruct res as [resp|e|msg]; [|by eauto|done].
  destruct (http.ReadAll (http.Body_ resp)) as [raw [e|]]; [by eauto|].
  destruct (requester.status_ok _); by eauto.
Qed.

Lemma PostStream_cases (r : requester.Requester) (url : string)
    (headers : gmap string string) (body : gmap string any) (w : World) :
  (∃ e, requester.PostStream r url headers body w = (w, Err e)) ∨
  (∃ payload res,
      Marshal (heap w) body = Returned payload ∧
      requester.PostStream r url headers body w
      = (log_sent (postRequest url headers payload) w, res) ∧
      is_Panic res = false).
Proof.
  unfold requester.PostStream. run.
  destruct (send_cases r url headers body w) as [[e ->]|(p & res & Hm & -> & Hp)];
    [by eauto|].
  right. exists p. destruct res as [resp|e|msg]; [|by eauto|done].
  destruct (requester.status_ok _); by eauto.
Qed.

(** A call that returns a value has sent its request. *)
Lemma Post_Ok (r : requester.Requester) (url : string)
    (headers : gmap string string) (body : gmap string any) (w : World)
    (rawBody : string) :
  (requester.Post r url headers body w).2 = Ok rawBody →
  ∃ payload,
    Marshal (heap w) body = Returned payload ∧
    requester.Post r url headers body w
    = (log_sent (postRequest url headers payload) w, Ok rawBody).
Proof.
  intros Hok.
  destruct (Post_cases r url headers body w) as [[e He]|(p & res & Hm & He & _)];
    rewrite He in Hok; simpl in Hok; [done|].
  subst res. eauto.
Qed.

Lemma PostStream_Ok (r : requester.Requester) (url : string)
    (headers : gmap string string) (body : gmap string any) (w : World)
    (resp : http.Response) :
  (requester.PostStream r url headers body w).2 = Ok resp →
  ∃ payload,
    Marshal (heap w) body = Returned payload ∧
    requester.PostStream r url headers body w
    = (log_sent (postRequest url headers payload) w, Ok resp).
Proof.
  intros Hok.
  destruct (PostStream_cases r url headers body w)
    as [[e He]|(p & res & Hm & He & _)];
    rewrite He in Hok; simpl in Hok; [done|].
  subst res. eauto.
Qed.

(** The encoder keeps every field, and reads a message slice from the heap. *)
Lemma Marshal_lookup (h : list (list spec.Message)) (body : gmap string any)
    (payload : gmap string JSON) (k : string) :
  Marshal h body = Returned payload →
  payload !! k = body !! k ≫= marshal_value h.
Proof.
  unfold Marshal. destruct (forallb _ _); [|done].
  intros [= <-]. apply lookup_omap.
Qed.

End requester_facts.

(** ** The scan loop of dashscope *)

Section scan_loop.
Context `{GoEnv}.

Lemma advance_log_consumed (line : string) (w : World) :
  log_consumed line w = advance [line] [] w.
Proof. unfold log_consumed, advance. by rewrite app_nil_r. Qed.

Lemma advance_log_delivered (x : string) (w : World) :
  log_delivered x w = advance [] [x] w.
Proof. unfold log_delivered, advance. by rewrite app_nil_r. Qed.

Lemma advance_advance (l1 l2 f1 f2 : list string) (w : World) :
  advance l2 f2 (advance l1 f1 w) = advance (l1 ++ l2) (f1 ++ f2) w.
Proof. unfold advance. simpl. by rewrite !(assoc_L (++)). Qed.

Lemma advance_nil (w : World) : advance [] [] w = w.
Proof. destruct w. unfold advance. simpl. by rewrite !app_nil_r. Qed.

(** One turn of the loop, by the kind of the line. *)
Lemma scanLoop_non_data cb line e rest fc role w :
  classify line = NonData →
  dashscope.scanLoop cb (bufio.Line line e rest) fc role w
  = dashscope.scanLoop cb rest fc role (log_consumed line w).
Proof.
  unfold classify. intros Hk. cbn [dashscope.scanLoop]. run. simpl.
  destruct (HasPrefix line "data: "); [|done].
  destruct (String.eqb _ _); [done|]. by destruct (Unmarshal_chunk _).
Qed.

Lemma scanLoop_malformed cb line e rest fc role w :
  classify line = Malformed →
  dashscope.scanLoop cb (bufio.Line line e rest) fc role w
  = dashscope.scanLoop cb rest fc role (log_consumed line w).
Proof.
  unfold classify. intros Hk. cbn [dashscope.scanLoop]. run. simpl.
  destruct (HasPrefix line "data: "); [|done].
  destruct (String.eqb _ _); [done|]. by destruct (Unmarshal_chunk _).
Qed.

Lemma scanLoop_done cb line e rest fc role w :
  classify line = Done →
  dashscope.scanLoop cb (bufio.Line line e rest) fc role w
  = dashscope.finish e fc role (log_consumed line w).
Proof.
  unfold classify. intros Hk. cbn [dashscope.scanLoop]. run. simpl.
  destruct (HasPrefix line "data: "); [|done].
  destruct (String.eqb _ _); [done|]. by destruct (Unmarshal_chunk _).
Qed.

Lemma scanLoop_chunk cb line e rest fc role w c :
  classify line = Chunk c →
  dashscope.scanLoop cb (bufio.Line line e rest) fc role w
  = match fragment c with
    | None =>
        dashscope.scanLoop cb rest fc (chunk_role role c) (log_consumed line w)
    | Some x =>
        match cb with
        | None =>
            dashscope.scanLoop cb rest (fc +:+ x) (chunk_role role c)
              (log_consumed line w)
        | Some callback =>
            match callback (delivered w) x with
            | None =>
                dashscope.scanLoop cb rest (fc +:+ x) (chunk_role role c)
                  (log_delivered x (log_consumed line w))
            | Some err => (log_delivered x (log_consumed line w), Err err)
            end
        end
    end.
Proof.
  unfold classify. intros Hk. cbn [dashscope.scanLoop]. run. simpl.
  destruct (HasPrefix line "data: "); [|done].
  destruct (String.eqb _ _); [done|].
  destruct (Unmarshal_chunk _) as [c'|]; [|done].
  injection Hk as ->. unfold fragment, chunk_role.
  destruct (chunk_Choices c) as [|choice choices]; [done|]. simpl.
  destruct (String.eqb (delta_Role (Delta choice)) ""); simpl;
    (destruct (String.eqb (delta_Content (Delta choice)) ""); simpl; [done|];
     destruct cb as [callback|]; [|done];
     unfold dashscope.invoke; simpl; by destruct (callback (delivered w) _)).
Qed.

Lemma fragments_cons (c : dashscopeChunk) (cs : list dashscopeChunk) :
  fragments (c :: cs)
  = match fragment c with
    | Some x => x :: fragments cs
    | None => fragments cs
    end.
Proof. reflexivity. Qed.

Lemma given_nil cb : given cb [] = [].
Proof. by destruct cb. Qed.

Lemma accepts_tail callback hist x frs :
  accepts (Some callback) hist (x :: frs) →
  callback hist x = None ∧ accepts (Some callback) (hist ++ [x]) frs.
Proof.
  intros Hacc. split.
  - specialize (Hacc callback eq_refl 0 x eq_refl).
    by rewrite take_0, app_nil_r in Hacc.
  - intros ? [= <-] k y Hk.
    specialize (Hacc callback eq_refl (S k) y Hk).
    by rewrite <- (assoc_L (++)).
Qed.

(** The loop over the lines of chunks: the fragments are appended to the
    content and given to the callback in the order of the chunks, nothing
    else is. *)
Lemma scanLoop_carries cb sc lines sc' :
  reads sc lines sc' →
  ∀ cs fc role w,
    Carries lines cs →
    accepts cb (delivered w) (fragments cs) →
    dashscope.scanLoop cb sc fc role w
    = dashscope.scanLoop cb sc' (fc +:+ concat_strings (fragments cs))
        (foldl chunk_role role cs) (advance lines (given cb (fragments cs)) w).
Proof.
  induction 1 as [sc|line e sc lines sc' Hreads IH]; intros cs fc role w Hc Hacc.
  - inversion Hc; subst. simpl. by rewrite given_nil, advance_nil, string_append_nil_r.
  - inversion Hc as [|? ? ? Hk Hc'|? ? ? Hk Hc'|? c ? cs' Hk Hc']; subst.
    + rewrite scanLoop_non_data by done. rewrite (IH cs) by done.
      by rewrite advance_log_consumed, advance_advance.
    + rewrite scanLoop_malformed by done. rewrite (IH cs) by done.
      by rewrite advance_log_consumed, advance_advance.
    + rewrite (scanLoop_chunk _ _ _ _ _ _ _ c) by done.
      rewrite fragments_cons in *. cbn [foldl].
      destruct (fragment c) as [x|].
      * destruct cb as [callback|].
        -- apply accepts_tail in Hacc as [-> Hacc].
           rewrite (IH cs') by done. cbn [given concat_strings foldr].
           rewrite string_append_assoc.
           by rewrite advance_log_consumed, advance_log_delivered,
             !advance_advance.
        -- rewrite (IH cs') by done. cbn [given concat_strings foldr].
           rewrite string_append_assoc.
           by rewrite advance_log_consumed, advance_advance.
      * rewrite (IH cs') by done.
        by rewrite advance_log_consumed, advance_advance.
Qed.

(** The loop never indexes an empty list of choices. *)
Lemma scanLoop_no_panic cb sc fc role w :
  is_Panic (dashscope.scanLoop cb sc fc role w).2 = false.
Proof.
  revert fc role w. induction sc as [e|line e sc IH]; intros fc role w.
  - simpl. unfold dashscope.finish. run. by destruct e.
  - destruct (classify line) as [| | |c] eqn:Hk.
    + by rewrite scanLoop_non_data.
    + rewrite scanLoop_done by done. unfold dashscope.finish. run. by destruct e.
    + by rewrite scanLoop_malformed.
    + rewrite (scanLoop_chunk _ _ _ _ _ _ _ c) by done.
      destruct (fragment c); [|done]. destruct cb as [callback|]; [|done].
      by destruct (callback _ _).
Qed.

(** The loop changes neither the heap nor the requests sent. *)
Lemma scanLoop_frame cb sc fc role w :
  heap (dashscope.scanLoop cb sc fc role w).1 = heap w ∧
  sent (dashscope.scanLoop cb sc fc role w).1 = sent w.
Proof.
  revert fc role w. induction sc as [e|line e sc IH]; intros fc role w.
  - simpl. unfold dashscope.finish. run. by destruct e.
  - destruct (classify line) as [| | |c] eqn:Hk.
    + rewrite scanLoop_non_data by done. by destruct (IH fc role (log_consumed line w)) as [-> ->].
    + rewrite scanLoop_done by done. unfold dashscope.finish. run. by destruct e.
    + rewrite scanLoop_malformed by done. by destruct (IH fc role (log_consumed line w)) as [-> ->].
    + rewrite (scanLoop_chunk _ _ _ _ _ _ _ c) by done.
      destruct (fragment c) as [x|];
        [|by destruct (IH fc (chunk_role role c) (log_consumed line w)) as [-> ->]].
      destruct cb as [callback|];
        [|by destruct (IH (fc +:+ x) (chunk_role role c) (log_consumed line w))
              as [-> ->]].
      destruct (callback _ _); [done|].
      by destruct (IH (fc +:+ x) (chunk_role role c)
                     (log_delivered x (log_consumed line w))) as [-> ->].
Qed.

End scan_loop.

(** ** Streaming calls of dashscope *)

Section streaming.
Context `{GoEnv}.

Lemma dashscope_Chat_streaming m messages opts w resp :
  options.Streaming (options.apply opts options.NewRequestConfig) = true →
  (dashscope_PostStream m messages opts w).2 = Ok resp →
  dashscope.Chat m messages opts w
  = dashscope.scanLoop
      (options.StreamCallback_ (options.apply opts options.NewRequestConfig))
      (http.Lines (http.Body_ resp)) "" "assistant"
      (dashscope_PostStream m messages opts w).1
  ∧ consumed (dashscope_PostStream m messages opts w).1 = consumed w
  ∧ delivered (dashscope_PostStream m messages opts w).1 = delivered w.
Proof.
  intros Hs Hp. unfold dashscope.Chat. rewrite Hs.
  unfold dashscope_PostStream in *.
  apply PostStream_Ok in Hp as (payload & _ & Hp).
  run. by rewrite Hp.
Qed.

Lemma finish_Ok fc role w :
  dashscope.finish None fc role w
  = (w, Ok {| spec.Message_ := {| spec.role := role; spec.Content := fc;
                                  spec.ReasoningContent := "" |};
              spec.RawResponse := "" |}).
Proof. reflexivity. Qed.

(** C4: a streaming call of dashscope's Chat that is fed the lines of the
    chunks [cs], among lines without the data prefix and malformed lines, and
    then the terminal marker: the callback is given the content fragments of
    the chunks in their order, the content of the result is their
    concatenation, the other lines are passed over, and the loop ends at the
    marker whatever follows it. *)
Theorem stream_fragments_in_order (m : dashscope.modelImpl) (messages : addr)
    (opts : list options.Option) (w : World) (resp : http.Response)
    (lines : list string) (done : string) (rest : bufio.Scanner)
    (cs : list dashscopeChunk) :
  let config := options.apply opts options.NewRequestConfig in
  options.Streaming config = true →
  (dashscope_PostStream m messages opts w).2 = Ok resp →
  reads (http.Lines (http.Body_ resp)) lines (bufio.Line done None rest) →
  Carries lines cs →
  classify done = Done →
  accepts (options.StreamCallback_ config) (delivered w) (fragments cs) →
  (dashscope.Chat m messages opts w).2
  = Ok {| spec.Message_ :=
            {| spec.role := foldl chunk_role "assistant" cs;
               spec.Content := concat_strings (fragments cs);
               spec.ReasoningContent := "" |};
          spec.RawResponse := "" |}
  ∧ delivered (dashscope.Chat m messages opts w).1
    = delivered w ++ given (options.StreamCallback_ config) (fragments cs)
  ∧ consumed (dashscope.Chat m messages opts w).1 = consumed w ++ lines ++ [done].
Proof.
  intros config Hs Hp Hreads Hc Hdone Hacc.
  destruct (dashscope_Chat_streaming m messages opts w resp Hs Hp)
    as (-> & Hcons & Hdel).
  fold config. rewrite (scanLoop_carries _ _ _ _ Hreads cs) by by rewrite ?Hdel.
  rewrite scanLoop_done by done. rewrite finish_Ok. cbn [fst snd].
  rewrite advance_log_consumed, advance_advance. cbn [consumed delivered advance].
  rewrite Hcons, Hdel, app_nil_r, append_nil_l. by rewrite (assoc_L (++)).
Qed.

(** C9: when the callback answers a delivered fragment with an error, the
    call returns that error at once: the line of that fragment is the last
    line read, the fragment is the last one given to the callback, and there
    is no result. *)
Theorem sink_error_aborts (m : dashscope.modelImpl) (messages : addr)
    (opts : list options.Option) (w : World) (resp : http.Response)
    (lines : list string) (line : string) (e : option error)
    (rest : bufio.Scanner) (cs : list dashscopeChunk) (c : dashscopeChunk)
    (x : string) (callback : options.StreamCallback) (err : error) :
  let config := options.apply opts options.NewRequestConfig in
  options.Streaming config = true →
  options.StreamCallback_ config = Some callback →
  (dashscope_PostStream m messages opts w).2 = Ok resp →
  reads (http.Lines (http.Body_ resp)) lines (bufio.Line line e rest) →
  Carries lines cs →
  accepts (Some callback) (delivered w) (fragments cs) →
  classify line = Chunk c →
  fragment c = Some x →
  callback (delivered w ++ fragments cs) x = Some err →
  (dashscope.Chat m messages opts w).2 = Err err
  ∧ delivered (dashscope.Chat m messages opts w).1
    = delivered w ++ fragments cs ++ [x]
  ∧ consumed (dashscope.Chat m messages opts w).1 = consumed w ++ lines ++ [line].
Proof.
  intros config Hs Hcb Hp Hreads Hc Hacc Hk Hx Herr.
  destruct (dashscope_Chat_streaming m messages opts w resp Hs Hp)
    as (-> & Hcons & Hdel).
  fold config. rewrite Hcb.
  rewrite (scanLoop_carries _ _ _ _ Hreads cs) by by rewrite ?Hdel.
  rewrite (scanLoop_chunk _ _ _ _ _ _ _ c) by done. rewrite Hx.
  cbn [given delivered advance]. rewrite Hdel, Herr. cbn [fst snd].
  rewrite advance_log_consumed, advance_log_delivered, !advance_advance.
  cbn [consumed delivered advance].
  rewrite Hcons, Hdel, !app_nil_r. cbn [app]. by rewrite !(assoc_L (++)).
Qed.

Lemma dashscope_Chat_no_panic m messages opts w :
  is_Panic (dashscope.Chat m messages opts w).2 = false.
Proof.
  unfold dashscope.Chat.
  destruct (options.Streaming _); run.
  - destruct (PostStream_cases (dashscope.requester_ (dashscope.client m))
                (options.APIURL (dashscope.config (dashscope.client m)))
                (bearer_headers
                   (options.APIKey (dashscope.config (dashscope.client m))))
                (dashscope.streamBody
                   (dashscope.requestBody m messages
                      (options.apply opts options.NewRequestConfig))) w)
      as [[e ->]|(p & res & _ & -> & Hp)]; [done|].
    destruct res; [apply scanLoop_no_panic|done..].
  - destruct (Post_cases (dashscope.requester_ (dashscope.client m))
                (options.APIURL (dashscope.config (dashscope.client m)))
                (bearer_headers
                   (options.APIKey (dashscope.config (dashscope.client m))))
                (dashscope.requestBody m messages
                   (options.apply opts options.NewRequestConfig)) w)
      as [[e ->]|(p & res & _ & -> & Hp)]; [done|].
    destruct res as [raw| |]; [|done..]. unfold dashscope.parseResponse.
    by destruct (Unmarshal_apiResp raw).
Qed.

(** C10: a decoded chunk without choices is passed over: the loop goes on
    with the next line, the content, the role and the fragments given to the
    callback are as before, and no call of Chat ends in a panic. *)
Theorem empty_choices_chunk_skipped (cb : option options.StreamCallback)
    (line : string) (e : option error) (rest : bufio.Scanner)
    (fc role : string) (w : World) (c : dashscopeChunk) :
  classify line = Chunk c →
  chunk_Choices c = [] →
  dashscope.scanLoop cb (bufio.Line line e rest) fc role w
  = dashscope.scanLoop cb rest fc role (log_consumed line w)
  ∧ delivered (log_consumed line w) = delivered w
  ∧ ∀ m messages opts w', is_Panic (dashscope.Chat m messages opts w').2 = false.
Proof.
  intros Hk Hc. split; [|split; [done|apply dashscope_Chat_no_panic]].
  rewrite (scanLoop_chunk _ _ _ _ _ _ _ c) by done.
  unfold fragment, chunk_role. by rewrite Hc.
Qed.

End streaming.

(** ** The two-fragment scenario *)

Lemma sample_Carries :
  Carries (H := sampleEnv) (take 5 sampleStream)
    [contentChunk "Hel"; contentChunk "lo"; usageChunk].
Proof.
  apply Carries_chunk; [reflexivity|].
  apply Carries_non_data; [reflexivity|].
  apply Carries_malformed; [reflexivity|].
  apply Carries_chunk; [reflexivity|].
  apply Carries_chunk; [reflexivity|].
  apply Carries_nil.
Defined.

Lemma sample_reads (n : nat) (sc : bufio.Scanner) (lines : list string) :
  reads (bufio.feed lines sc) (take n lines) (bufio.feed (drop n lines) sc).
Proof.
  revert n. induction lines as [|l lines IH]; intros [|n]; simpl;
    try apply reads_nil.
  apply reads_cons, IH.
Defined.

Lemma stream_fragments_in_order_witness :
  let run := dashscope.Chat (H := sampleEnv) (sampleDashscope sampleClient) 0
               [streamingWith (Some acceptAll)] sampleWorld in
  run.2 = Ok {| spec.Message_ := {| spec.role := "assistant";
                                    spec.Content := "Hello";
                                    spec.ReasoningContent := "" |};
                spec.RawResponse := "" |}
  ∧ delivered run.1 = ["Hel"; "lo"]
  ∧ consumed run.1 = sampleStream.
Proof.
  apply (stream_fragments_in_order (H := sampleEnv) (sampleDashscope sampleClient) 0
           [streamingWith (Some acceptAll)] sampleWorld sampleResponse
           (take 5 sampleStream) "data: [DONE]" (bufio.Exhausted None)
           [contentChunk "Hel"; contentChunk "lo"; usageChunk]).
  - reflexivity.
  - vm_compute. reflexivity.
  - apply (sample_reads 5).
  - apply sample_Carries.
  - reflexivity.
  - intros callback [= <-] k x _. reflexivity.
Defined.

Lemma sink_error_aborts_witness :
  let run := dashscope.Chat (H := sampleEnv) (sampleDashscope sampleClient) 0
               [streamingWith (Some (refusing "lo"))] sampleWorld in
  run.2 = Err (External "stop")
  ∧ delivered run.1 = ["Hel"; "lo"]
  ∧ consumed run.1 = take 4 sampleStream.
Proof.
  apply (sink_error_aborts (H := sampleEnv) (sampleDashscope sampleClient) 0
           [streamingWith (Some (refusing "lo"))] sampleWorld sampleResponse
           (take 3 sampleStream) ("data: " +:+ chunkText "lo") None
           (bufio.feed (drop 4 sampleStream) (bufio.Exhausted None))
           [contentChunk "Hel"] (contentChunk "lo") "lo" (refusing "lo")
           (External "stop")).
  - reflexivity.
  - reflexivity.
  - vm_compute. reflexivity.
  - apply (sample_reads 3).
  - apply Carries_chunk; [reflexivity|].
    apply Carries_non_data; [reflexivity|].
    apply Carries_malformed; [reflexivity|].
    apply Carries_nil.
  - intros callback [= <-] [|k] x [= <-]. reflexivity.
  - reflexivity.
  - reflexivity.
  - reflexivity.
Defined.

Lemma empty_choices_chunk_skipped_witness :
  dashscope.scanLoop (H := sampleEnv) (Some acceptAll)
    (bufio.Line ("data: " +:+ usageText) None
       (bufio.Line "data: [DONE]" None (bufio.Exhausted None)))
    "Hello" "assistant" sampleWorld
  = dashscope.scanLoop (H := sampleEnv) (Some acceptAll)
      (bufio.Line "data: [DONE]" None (bufio.Exhausted None))
      "Hello" "assistant" (log_consumed ("data: " +:+ usageText) sampleWorld).
Proof.
  apply (empty_choices_chunk_skipped (H := sampleEnv) (Some acceptAll)
           ("data: " +:+ usageText) None
           (bufio.Line "data: [DONE]" None (bufio.Exhausted None))
           "Hello" "assistant" sampleWorld usageChunk); reflexivity.
Defined.

(** ** The thinking field of dashscope *)

Section thinking_field.
Context `{GoEnv}.

(** The body a call of dashscope's Chat hands to the requester. *)
Lemma dashscope_Chat_sent m messages opts w :
  let config := options.apply opts options.NewRequestConfig in
  let body := if options.Streaming config
              then dashscope.streamBody (dashscope.requestBody m messages config)
              else dashscope.requestBody m messages config in
  sent (dashscope.Chat m messages opts w).1 = sent w ∨
  ∃ payload,
    Marshal (heap w) body = Returned payload ∧
    sent (dashscope.Chat m messages opts w).1
    = sent w ++ [postRequest
                   (options.APIURL (dashscope.config (dashscope.client m)))
                   (bearer_headers
                      (options.APIKey (dashscope.config (dashscope.client m))))
                   payload].
Proof.
  intros config body. unfold dashscope.Chat. fold config. subst body.
  destruct (options.Streaming config); run.
  - destruct (PostStream_cases (dashscope.requester_ (dashscope.client m))
                (options.APIURL (dashscope.config (dashscope.client m)))
                (bearer_headers
                   (options.APIKey (dashscope.config (dashscope.client m))))
                (dashscope.streamBody (dashscope.requestBody m messages config)) w)
      as [[e ->]|(p & res & Hm & -> & Hp)]; [by left|].
    right. exists p. split; [done|].
    destruct res as [resp| |]; [|done..].
    match goal with
    | |- sent (dashscope.scanLoop ?cb ?sc ?fc ?role ?w').1 = _ =>
        by destruct (scanLoop_frame cb sc fc role w') as [_ ->]
    end.
  - destruct (Post_cases (dashscope.requester_ (dashscope.client m))
                (options.APIURL (dashscope.config (dashscope.client m)))
                (bearer_headers
                   (options.APIKey (dashscope.config (dashscope.client m))))
                (dashscope.requestBody m messages config) w)
      as [[e ->]|(p & res & Hm & -> & Hp)]; [by left|].
    right. exists p. split; [done|]. by destruct res.
Qed.

Lemma requestBody_enable_thinking m messages config :
  dashscope.requestBody m messages config !! "enable_thinking"
  = match options.Thinking config with
    | Some b => Some (VBool b)
    | None => options.Parameters config !! "enable_thinking"
    end.
Proof.
  unfold dashscope.requestBody, set_if.
  destruct (options.Temperature config), (options.Thinking config);
    repeat (rewrite lookup_insert_ne by done);
    by rewrite ?lookup_insert_eq.
Qed.

Lemma streamBody_enable_thinking body :
  dashscope.streamBody body !! "enable_thinking" = body !! "enable_thinking".
Proof. unfold dashscope.streamBody. by rewrite !lookup_insert_ne by done. Qed.

(** C7 (as amended): in the request a call of dashscope's Chat sends, the
    field enable_thinking is the thinking option when the option is set, to
    true or to false; when the option is unset the adapter adds no such field,
    so that the request has it exactly when the extra parameters of the call
    have it, and lacks it when they do not. *)
Theorem thinking_field_on_the_wire (m : dashscope.modelImpl) (messages : addr)
    (opts : list options.Option) (w : World) (req : http.Request) :
  let config := options.apply opts options.NewRequestConfig in
  sent (dashscope.Chat m messages opts w).1 = sent w ++ [req] →
  http.Payload req !! "enable_thinking"
  = match options.Thinking config with
    | Some b => Some (VBool b)
    | None =>
        options.Parameters config !! "enable_thinking" ≫= marshal_value (heap w)
    end
  ∧ (options.Thinking config = None →
     options.Parameters config !! "enable_thinking" = None →
     http.Payload req !! "enable_thinking" = None).
Proof.
  intros config Hsent.
  assert (http.Payload req !! "enable_thinking"
          = match options.Thinking config with
            | Some b => Some (VBool b)
            | None => options.Parameters config !! "enable_thinking"
                      ≫= marshal_value (heap w)
            end) as Hreq.
  { destruct (dashscope_Chat_sent m messages opts w) as [Hs|(p & Hm & Hs)];
      rewrite Hs in Hsent.
    - apply (f_equal length) in Hsent. rewrite length_app in Hsent.
      simpl in Hsent. lia.
    - apply app_inv_head in Hsent as [= <-]. cbn [postRequest http.Payload].
      rewrite (Marshal_lookup _ _ _ _ Hm). fold config.
      destruct (options.Streaming config);
        rewrite ?streamBody_enable_thinking, requestBody_enable_thinking;
        by destruct (options.Thinking config). }
  split; [done|]. intros Ht Hp. by rewrite Hreq, Ht, Hp.
Qed.

End thinking_field.

Lemma thinking_field_on_the_wire_witness :
  ∃ req,
    sent (dashscope.Chat (H := sampleEnv) (sampleDashscope sampleClient) 0
            [options.WithThinking false] sampleWorld).1 = [req]
    ∧ http.Payload req !! "enable_thinking" = Some (VBool false).
Proof.
  eexists. split; [vm_compute; reflexivity|].
  apply (thinking_field_on_the_wire (H := sampleEnv) (sampleDashscope sampleClient)
           0 [options.WithThinking false] sampleWorld).
  vm_compute. reflexivity.
Defined.

(** C7 (as stated) fails when the thinking option is unset and the extra
    parameters of the call name the field: the request carries it. *)
Lemma thinking_unset_field_sent :
  let opts := [options.WithParameter "enable_thinking" (VBool true)] in
  options.Thinking (options.apply opts options.NewRequestConfig) = None
  ∧ (λ req, http.Payload req !! "enable_thinking")
      <$> sent (dashscope.Chat (H := sampleEnv) (sampleDashscope sampleClient) 0
                  opts sampleWorld).1
    = [Some (VBool true)].
Proof. split; [reflexivity|]. vm_compute. reflexivity. Qed.

(** ** The thinking adaptation of generic *)

Section generic_facts.
Context `{GoEnv}.

Lemma rangeLoop_no_system messages i l w :
  Forall (λ msg, spec.role msg ≠ spec.RoleSystem) l →
  generic.rangeLoop messages i l w = (w, Ok tt).
Proof.
  intros Hl. revert i. induction Hl as [|msg l Hmsg _ IH]; intros i; [done|].
  cbn [generic.rangeLoop]. apply String.eqb_neq in Hmsg. rewrite Hmsg. apply IH.
Qed.

(** The loop stops at the first message of role system, and writes through
    the slice of the caller at the index of that message. *)
Lemma rangeLoop_first_system messages i pre sys post w :
  Forall (λ msg, spec.role msg ≠ spec.RoleSystem) pre →
  spec.role sys = spec.RoleSystem →
  generic.rangeLoop messages i (pre ++ sys :: post) w
  = generic.appendContent messages (i + length pre) generic.noThink w.
Proof.
  intros Hpre Hsys. revert i.
  induction Hpre as [|msg pre Hmsg _ IH]; intros i.
  - cbn [app generic.rangeLoop length]. rewrite Hsys, Nat.add_0_r.
    by rewrite String.eqb_refl.
  - cbn [app generic.rangeLoop length]. apply String.eqb_neq in Hmsg.
    rewrite Hmsg, IH. f_equal. lia.
Qed.

Lemma adaptThinking_other messages config w :
  options.Thinking config ≠ Some false →
  generic.adaptThinking messages config w
  = (set_heap (heap w ++ [deref (heap w) messages]) w, Ok tt).
Proof.
  intros Ht. unfold generic.adaptThinking, alloc. run.
  by destruct (options.Thinking config) as [[]|].
Qed.

Lemma deref_alloc (h : list (list spec.Message)) (ms : list spec.Message) :
  deref (h ++ [ms]) (length h) = ms.
Proof. unfold deref. by rewrite list_lookup_middle. Qed.

Lemma adaptThinking_no_think messages config w pre sys post :
  options.Thinking config = Some false →
  heap w !! messages = Some (pre ++ sys :: post) →
  Forall (λ msg, spec.role msg ≠ spec.RoleSystem) pre →
  spec.role sys = spec.RoleSystem →
  generic.adaptThinking messages config w
  = (set_heap (<[messages := pre ++ generic.addContent generic.noThink sys :: post]>
                 (heap w) ++ [pre ++ sys :: post]) w, Ok tt).
Proof.
  intros Ht Hm Hpre Hsys. unfold generic.adaptThinking, alloc. run.
  rewrite Ht. cbn [heap set_heap].
  pose proof (lookup_lt_Some _ _ _ Hm) as Hlt.
  assert (deref (heap w) messages = pre ++ sys :: post) as Hd.
  { unfold deref. by rewrite Hm. }
  rewrite Hd, deref_alloc, rangeLoop_first_system by done.
  unfold generic.appendContent. cbn [heap set_heap Nat.add].
  assert (deref (heap w ++ [pre ++ sys :: post]) messages = pre ++ sys :: post)
    as ->.
  { unfold deref. rewrite lookup_app_l by done. by rewrite Hm. }
  rewrite list_lookup_middle by done.
  rewrite insert_app_l by done.
  replace (<[length pre:=generic.addContent generic.noThink sys]> (pre ++ sys :: post))
    with (pre ++ generic.addContent generic.noThink sys :: post); [done|].
  rewrite insert_app_r_alt by done. by rewrite Nat.sub_diag.
Qed.

Lemma generic_Chat_after_Post m messages opts w rawBody :
  (generic_Post m messages opts w).2 = Ok rawBody →
  generic.Chat m messages opts w
  = ((generic_Post m messages opts w).1, generic.parseResponse rawBody).
Proof.
  unfold generic.Chat, generic_Post. run.
  destruct (generic.adaptThinking _ _ w) as [w1 [[]|e|msg]]; [|done..].
  destruct (requester.Post _ _ _ _ w1) as [w2 [raw|e|msg]]; [|done..].
  by intros [= ->].
Qed.

Lemma dashscope_Chat_after_Post m messages opts w rawBody :
  options.Streaming (options.apply opts options.NewRequestConfig) = false →
  (dashscope_Post m messages opts w).2 = Ok rawBody →
  dashscope.Chat m messages opts w
  = ((dashscope_Post m messages opts w).1, dashscope.parseResponse rawBody).
Proof.
  intros Hs. unfold dashscope.Chat, dashscope_Post. rewrite Hs. run.
  destruct (requester.Post _ _ _ _ w) as [w2 [raw|e|msg]]; [|done..].
  by intros [= ->].
Qed.

Lemma openai_Chat_after_Post m messages opts w rawBody :
  (openai_Post m messages opts w).2 = Ok rawBody →
  openai.Chat m messages opts w
  = ((openai_Post m messages opts w).1, openai.parseResponse rawBody).
Proof.
  unfold openai.Chat, openai_Post. run.
  destruct (requester.Post _ _ _ _ w) as [w2 [raw|e|msg]]; [|done..].
  by intros [= ->].
Qed.

(** C5: an answer that decodes to no choice at all is an error for generic,
    and the zero message, with the raw answer, for dashscope (not streaming)
    and for openai. *)
Theorem zero_choices_per_adapter (rawBody : string) (messages : addr)
    (opts : list options.Option) (w : World) (g : generic.modelImpl)
    (d : dashscope.modelImpl) (o : openai.modelImpl) :
  Unmarshal_apiResp rawBody = Returned {| Choices := [] |} →
  ((generic_Post g messages opts w).2 = Ok rawBody →
   (generic.Chat g messages opts w).2
   = Err (Errorf "generic provider: invalid response, no choices found"))
  ∧ (options.Streaming (options.apply opts options.NewRequestConfig) = false →
     (dashscope_Post d messages opts w).2 = Ok rawBody →
     (dashscope.Chat d messages opts w).2
     = Ok {| spec.Message_ := spec.zeroMessage; spec.RawResponse := rawBody |})
  ∧ ((openai_Post o messages opts w).2 = Ok rawBody →
     (openai.Chat o messages opts w).2
     = Ok {| spec.Message_ := spec.zeroMessage; spec.RawResponse := rawBody |}).
Proof.
  intros Hu. split; [|split].
  - intros Hp. rewrite (generic_Chat_after_Post _ _ _ _ _ Hp).
    unfold generic.parseResponse. by rewrite Hu.
  - intros Hs Hp. rewrite (dashscope_Chat_after_Post _ _ _ _ _ Hs Hp).
    unfold dashscope.parseResponse. by rewrite Hu.
  - intros Hp. rewrite (openai_Chat_after_Post _ _ _ _ _ Hp).
    unfold openai.parseResponse. by rewrite Hu.
Qed.

Lemma generic_requestBody_messages m messages config :
  generic.requestBody m messages config !! "messages" = Some (VMessages messages).
Proof.
  unfold generic.requestBody, set_if.
  destruct (options.Temperature config);
    repeat (rewrite lookup_insert_ne by done); by rewrite lookup_insert_eq.
Qed.

(** C3: with thinking switched off and a message list whose first message of
    role system has the content "You are a helpful assistant.", the request
    generic's Chat sends carries that message with the content
    "You are a helpful assistant.\n/no_think", and an answer whose first
    choice has the content "<think>reasoning</think>\n\nFinal answer" is
    returned with the content "Final answer". *)
Theorem no_think_suffix_and_cleanup (m : generic.modelImpl) (messages : addr)
    (opts : list options.Option) (w : World) (pre post : list spec.Message)
    (sys : spec.Message) (rawBody : string) (choice : spec.Message)
    (choices : list spec.Message) :
  options.Thinking (options.apply opts options.NewRequestConfig) = Some false →
  heap w !! messages = Some (pre ++ sys :: post) →
  Forall (λ msg, spec.role msg ≠ spec.RoleSystem) pre →
  spec.role sys = spec.RoleSystem →
  spec.Content sys = "You are a helpful assistant." →
  (generic_Post m messages opts w).2 = Ok rawBody →
  Unmarshal_apiResp rawBody = Returned {| Choices := choice :: choices |} →
  spec.Content choice = "<think>reasoning</think>" +:+ LF +:+ LF +:+ "Final answer" →
  (∃ req,
      sent (generic.Chat m messages opts w).1 = sent w ++ [req]
      ∧ http.Payload req !! "messages"
        = Some (VMessages
                  (pre ++ {| spec.role := spec.role sys;
                             spec.Content := "You are a helpful assistant."
                                             +:+ LF +:+ "/no_think";
                             spec.ReasoningContent := spec.ReasoningContent sys |}
                       :: post)))
  ∧ (generic.Chat m messages opts w).2
    = Ok {| spec.Message_ := {| spec.role := spec.role choice;
                                spec.Content := "Final answer";
                                spec.ReasoningContent := spec.ReasoningContent choice |};
            spec.RawResponse := rawBody |}.
Proof.
  intros Ht Hm Hpre Hsys Hcontent Hp Hu Hchoice.
  rewrite (generic_Chat_after_Post _ _ _ _ _ Hp). cbn [fst snd].
  unfold generic_Post in *. run.
  rewrite (adaptThinking_no_think _ _ _ pre sys post) in * by done.
  apply Post_Ok in Hp as (payload & Hmar & ->). split.
  - eexists. split; [reflexivity|]. cbn [postRequest http.Payload].
    rewrite (Marshal_lookup _ _ _ _ Hmar), generic_requestBody_messages.
    cbn [mbind option_bind marshal_value heap set_heap].
    pose proof (lookup_lt_Some _ _ _ Hm) as Hlt.
    unfold deref. rewrite lookup_app_l by by rewrite length_insert.
    rewrite list_lookup_insert_eq by done. cbn [default].
    unfold generic.addContent, generic.noThink. by rewrite Hcontent.
  - unfold generic.parseResponse. rewrite Hu. cbn [wrapf Choices length Nat.eqb].
    cbn [lookup list_lookup]. unfold generic.cleanContent. by rewrite Hchoice.
Qed.

(** The heap after a call of generic's Chat is the heap after its thinking
    adaptation: the requester and the decoder write nothing. *)
Lemma generic_Chat_heap m messages opts w :
  heap (generic.Chat m messages opts w).1
  = heap (generic.adaptThinking messages
            (options.apply opts options.NewRequestConfig) w).1.
Proof.
  unfold generic.Chat. run.
  destruct (generic.adaptThinking _ _ w) as [w1 [[]|e|msg]]; [|done..].
  cbn [fst].
  match goal with
  | |- context [requester.Post ?r ?u ?h ?b w1] =>
      destruct (Post_cases r u h b w1) as [[e ->]|(p & res & _ & -> & _)]
  end; [done|]. by destruct res.
Qed.

End generic_facts.

Lemma zero_choices_per_adapter_witness :
  (generic.Chat (H := sampleEnv) (sampleGeneric emptyClient) 0 [] sampleWorld).2
  = Err (Errorf "generic provider: invalid response, no choices found")
  ∧ (dashscope.Chat (H := sampleEnv) (sampleDashscope emptyClient) 0 []
       sampleWorld).2
    = Ok {| spec.Message_ := spec.zeroMessage; spec.RawResponse := "no choices" |}
  ∧ (openai.Chat (H := sampleEnv) (sampleOpenAI emptyClient) 0 [] sampleWorld).2
    = Ok {| spec.Message_ := spec.zeroMessage; spec.RawResponse := "no choices" |}.
Proof.
  destruct (zero_choices_per_adapter (H := sampleEnv) "no choices" 0 []
              sampleWorld (sampleGeneric emptyClient)
              (sampleDashscope emptyClient) (sampleOpenAI emptyClient) eq_refl)
    as (Hg & Hd & Ho).
  split; [|split].
  - apply Hg. vm_compute. reflexivity.
  - apply Hd; [reflexivity|]. vm_compute. reflexivity.
  - apply Ho. vm_compute. reflexivity.
Defined.

Lemma no_think_suffix_and_cleanup_witness :
  let run := generic.Chat (H := sampleEnv) (sampleGeneric sampleClient) 0
               [options.WithThinking false] sampleWorld in
  (∃ req,
      sent run.1 = sent sampleWorld ++ [req]
      ∧ http.Payload req !! "messages"
        = Some (VMessages
                  [spec.NewSystemMessage
                     ("You are a helpful assistant." +:+ LF +:+ "/no_think");
                   spec.NewUserMessage "hi"]))
  ∧ run.2 = Ok {| spec.Message_ := spec.NewAssistantMessage "Final answer";
                  spec.RawResponse := "answer" |}.
Proof.
  apply (no_think_suffix_and_cleanup (H := sampleEnv) (sampleGeneric sampleClient)
           0 [options.WithThinking false] sampleWorld []
           [spec.NewUserMessage "hi"]
           (spec.NewSystemMessage "You are a helpful assistant.") "answer"
           (spec.NewAssistantMessage thinkingAnswer) []).
  - reflexivity.
  - reflexivity.
  - constructor.
  - reflexivity.
  - reflexivity.
  - vm_compute. reflexivity.
  - reflexivity.
  - reflexivity.
Defined.

(** ** The messages of the caller *)

Section caller_messages.
Context `{GoEnv}.

(** C1, at the input where it fails: thinking switched off, and a system
    message in the list. When generic's Chat returns, the first message of the
    slice of the caller ends in the marker: the loop reads the copy and writes
    through [messages]. *)
Theorem generic_Chat_writes_caller_messages (m : generic.modelImpl) :
  deref (heap sampleWorld) 0
  = [spec.NewSystemMessage "You are a helpful assistant."; spec.NewUserMessage "hi"]
  ∧ deref (heap (generic.Chat m 0 [options.WithThinking false] sampleWorld).1) 0
    = [spec.NewSystemMessage ("You are a helpful assistant." +:+ LF +:+ "/no_think");
       spec.NewUserMessage "hi"].
Proof. split; [reflexivity|]. by rewrite generic_Chat_heap. Qed.

(** What does hold: the copy is never written, the other adapters write no
    message at all, and generic leaves the messages of the caller as they are
    unless thinking is switched off. *)
Lemma generic_Chat_keeps_messages m messages opts w :
  options.Thinking (options.apply opts options.NewRequestConfig) ≠ Some false →
  messages < length (heap w) →
  deref (heap (generic.Chat m messages opts w).1) messages
  = deref (heap w) messages.
Proof.
  intros Ht Hlt. rewrite generic_Chat_heap, adaptThinking_other by done.
  unfold deref. cbn [fst heap set_heap]. by rewrite lookup_app_l.
Qed.

Lemma generic_Chat_keeps_without_system m messages opts w :
  Forall (λ msg, spec.role msg ≠ spec.RoleSystem) (deref (heap w) messages) →
  messages < length (heap w) →
  deref (heap (generic.Chat m messages opts w).1) messages
  = deref (heap w) messages.
Proof.
  intros Hsys Hlt.
  destruct (decide (options.Thinking (options.apply opts options.NewRequestConfig)
                    = Some false)) as [Ht|Ht];
    [|by apply generic_Chat_keeps_messages].
  rewrite generic_Chat_heap.
  unfold generic.adaptThinking, alloc. run. rewrite Ht. cbn [heap set_heap].
  rewrite deref_alloc, rangeLoop_no_system by done.
  unfold deref. cbn [fst heap set_heap]. by rewrite lookup_app_l.
Qed.

Lemma dashscope_Chat_heap m messages opts w :
  heap (dashscope.Chat m messages opts w).1 = heap w.
Proof.
  unfold dashscope.Chat. destruct (options.Streaming _); run.
  - match goal with
    | |- context [requester.PostStream ?r ?u ?h ?b w] =>
        destruct (PostStream_cases r u h b w) as [[e ->]|(p & res & _ & -> & _)]
    end; [done|].
    destruct res as [resp| |]; [|done..].
    match goal with
    | |- heap (dashscope.scanLoop ?cb ?sc ?fc ?role ?w').1 = _ =>
        by destruct (scanLoop_frame cb sc fc role w') as [-> _]
    end.
  - match goal with
    | |- context [requester.Post ?r ?u ?h ?b w] =>
        destruct (Post_cases r u h b w) as [[e ->]|(p & res & _ & -> & _)]
    end; [done|]. by destruct res.
Qed.

Lemma openai_Chat_heap m messages opts w :
  heap (openai.Chat m messages opts w).1 = heap w.
Proof.
  unfold openai.Chat. run.
  match goal with
  | |- context [requester.Post ?r ?u ?h ?b w] =>
      destruct (Post_cases r u h b w) as [[e ->]|(p & res & _ & -> & _)]
  end; [done|]. by destruct res.
Qed.

End caller_messages.

(** ** Construction of a client *)

Section construction.
Context `{GoEnv}.

(** C6: for each of the three providers, construction succeeds when the API
    key is not empty (and, for generic, the URL is not empty either), and
    fails with the error of the missing key when the key is empty; generic
    fails as well when the URL is empty. The key and the URL are those of the
    configuration after the options of the caller. *)
Theorem NewClient_requires_key (opts : list options.ClientOption) :
  let d := options.apply opts
             (options.WithAPIURL dashscope.defaultURL options.NewClientConfig) in
  let o := options.apply opts
             (options.WithAPIURL openai.defaultURL options.NewClientConfig) in
  let g := options.apply opts options.NewClientConfig in
  (options.APIKey d ≠ "" →
   dashscope.NewClient opts
   = Ok {| dashscope.requester_ :=
             {| requester.HTTPClient := options.HTTPClient d |};
           dashscope.config := d |})
  ∧ (options.APIKey o ≠ "" →
     openai.NewClient opts
     = Ok {| openai.requester_ :=
               {| requester.HTTPClient := options.HTTPClient o |};
             openai.config := o |})
  ∧ (options.APIKey g ≠ "" → options.APIURL g ≠ "" →
     generic.NewClient opts
     = Ok {| generic.requester_ :=
               {| requester.HTTPClient := options.HTTPClient g |};
             generic.config := g |})
  ∧ (options.APIKey d = "" →
     dashscope.NewClient opts
     = Err (Errorf "dashscope: API key is required, use llm.WithAPIKey() option"))
  ∧ (options.APIKey o = "" →
     openai.NewClient opts
     = Err (Errorf "openai provider: API key is required, use spec.WithAPIKey()"))
  ∧ (options.APIKey g = "" →
     generic.NewClient opts
     = Err (Errorf "generic provider: API key is required, use llm.WithAPIKey()"))
  ∧ (options.APIKey g ≠ "" → options.APIURL g = "" →
     generic.NewClient opts
     = Err (Errorf "generic provider: API URL is required for private deployment, use llm.WithAPIURL()")).
Proof.
  intros d o g.
  unfold dashscope.NewClient, openai.NewClient, generic.NewClient.
  fold d o g.
  repeat split.
  - intros Hk%String.eqb_neq. by rewrite Hk.
  - intros Hk%String.eqb_neq. by rewrite Hk.
  - intros Hk%String.eqb_neq Hu%String.eqb_neq. by rewrite Hk, Hu.
  - intros ->. done.
  - intros ->. done.
  - intros ->. done.
  - intros Hk%String.eqb_neq ->. by rewrite Hk.
Qed.

(** The configuration the cache builds a client from has the key and, when
    it is not empty, the URL of the call. *)
Lemma clientOpts_apply cfg c :
  options.apply (llm.clientOpts cfg) c
  = {| options.APIKey := llm.APIKey cfg;
       options.APIURL := if String.eqb (llm.APIURL cfg) ""
                         then options.APIURL c else llm.APIURL cfg;
       options.HTTPClient := options.HTTPClient c |}.
Proof.
  unfold llm.clientOpts. by destruct (String.eqb (llm.APIURL cfg) "").
Qed.

(** Through the cache: a known provider with a key (and, for generic, a
    URL) is constructed; without a key none is. *)
Lemma construct_known_provider cfg :
  llm.Provider cfg ∈ ["dashscope"; "generic"; "openai"] →
  (llm.APIKey cfg = "" → is_Ok (llm.construct cfg) = false)
  ∧ (llm.APIKey cfg ≠ "" →
     is_Ok (llm.construct cfg)
     = negb (String.eqb (llm.Provider cfg) "generic"
             && String.eqb (llm.APIURL cfg) "")).
Proof.
  intros Hp. unfold llm.construct.
  unfold dashscope.NewClient, generic.NewClient, openai.NewClient.
  rewrite !clientOpts_apply. cbn [options.APIKey options.APIURL].
  set_unfold.
  destruct cfg as [prov model key url ? ? ? ?]. simpl in *.
  destruct Hp as [->|[->|[->|[]]]]; simpl;
    (split; [by intros ->|intros Hk%String.eqb_neq; rewrite Hk]); try done.
  by destruct (String.eqb url "") eqn:Hu; simpl; rewrite ?Hu.
Qed.

End construction.

(** ** The client cache *)

Section cache.
Context `{GoEnv}.

Lemma GetClient_hit cfg st p :
  llm.clientCache st !! llm.cacheKey cfg = Some p →
  llm.GetClient cfg st = (st, Ok p).
Proof. intros Hc. unfold llm.GetClient. by rewrite Hc. Qed.

Lemma GetClient_miss cfg st :
  llm.clientCache st !! llm.cacheKey cfg = None →
  llm.GetClient cfg st
  = match llm.construct cfg with
    | Ok newClient =>
        ({| llm.clientCache :=
              <[llm.cacheKey cfg := length (llm.clients st)]> (llm.clientCache st);
            llm.clients := llm.clients st ++ [newClient] |},
         Ok (length (llm.clients st)))
    | Err e => (st, Err e)
    | Panic msg => (st, Panic msg)
    end.
Proof. intros Hc. unfold llm.GetClient. by rewrite Hc. Qed.

Lemma cache_wf_empty : cache_wf llm.emptyCache.
Proof. split; intros *; cbn [llm.emptyCache llm.clientCache]; by rewrite lookup_empty. Qed.

Lemma GetClient_wf cfg st : cache_wf st → cache_wf (llm.GetClient cfg st).1.
Proof.
  intros [Hlt Hinj].
  destruct (llm.clientCache st !! llm.cacheKey cfg) as [p|] eqn:Hc.
  - by rewrite (GetClient_hit _ _ p).
  - rewrite GetClient_miss by done.
    destruct (llm.construct cfg) as [c|e|msg]; [|done..].
    split; cbn [fst llm.clientCache llm.clients].
    + intros k p. rewrite length_app. cbn [length].
      rewrite lookup_insert. case_decide.
      * intros [= <-]. lia.
      * intros Hk%Hlt. lia.
    + intros k1 k2 p. rewrite !lookup_insert.
      repeat case_decide; subst; try done.
      * intros [= <-] Hk%Hlt. lia.
      * intros Hk%Hlt [= <-]. lia.
      * apply Hinj.
Qed.

(** An entry of the cache is never replaced. *)
Lemma GetClient_keeps cfg st k p :
  llm.clientCache st !! k = Some p →
  llm.clientCache (llm.GetClient cfg st).1 !! k = Some p.
Proof.
  intros Hk.
  destruct (llm.clientCache st !! llm.cacheKey cfg) as [q|] eqn:Hc.
  - by rewrite (GetClient_hit _ _ q).
  - rewrite GetClient_miss by done.
    destruct (llm.construct cfg) as [c|e|msg]; [|done..].
    cbn [fst llm.clientCache]. rewrite lookup_insert_ne; [done|].
    intros <-. by rewrite Hc in Hk.
Qed.

Lemma later_wf st st' : later st st' → cache_wf st → cache_wf st'.
Proof. induction 1; eauto using GetClient_wf. Qed.

Lemma later_keeps st st' k p :
  later st st' → llm.clientCache st !! k = Some p →
  llm.clientCache st' !! k = Some p.
Proof. induction 1; eauto using GetClient_keeps. Qed.

(** A resolution that succeeds leaves its client in the cache, under the key
    of its triple. *)
Lemma GetClient_Ok_cached cfg st p :
  (llm.GetClient cfg st).2 = Ok p →
  llm.clientCache (llm.GetClient cfg st).1 !! llm.cacheKey cfg = Some p.
Proof.
  destruct (llm.clientCache st !! llm.cacheKey cfg) as [q|] eqn:Hc.
  - rewrite (GetClient_hit _ _ q) by done. by intros [= <-].
  - rewrite GetClient_miss by done.
    destruct (llm.construct cfg) as [c|e|msg]; [|done..].
    intros [= <-]. cbn [fst llm.clientCache]. by rewrite lookup_insert_eq.
Qed.

(** Two resolutions with one key give one client. *)
Lemma same_key_same_client cfg cfg' st st' p :
  (llm.GetClient cfg st).2 = Ok p →
  later (llm.GetClient cfg st).1 st' →
  llm.cacheKey cfg' = llm.cacheKey cfg →
  llm.GetClient cfg' st' = (st', Ok p).
Proof.
  intros Hp Hl Hk. apply GetClient_hit. rewrite Hk.
  eauto using later_keeps, GetClient_Ok_cached.
Qed.

(** Two resolutions with two keys give two clients. *)
Lemma distinct_keys_distinct_clients cfg cfg' st st' p p' :
  cache_wf st →
  (llm.GetClient cfg st).2 = Ok p →
  later (llm.GetClient cfg st).1 st' →
  (llm.GetClient cfg' st').2 = Ok p' →
  llm.cacheKey cfg ≠ llm.cacheKey cfg' →
  p ≠ p'.
Proof.
  intros Hwf Hp Hl Hp' Hk <-.
  assert (cache_wf (llm.GetClient cfg' st').1) as [_ Hinj]
    by eauto using later_wf, GetClient_wf.
  apply Hk, (Hinj _ _ p); [|by apply GetClient_Ok_cached].
  eauto using GetClient_keeps, later_keeps, GetClient_Ok_cached.
Qed.

Lemma append_inj_r (a b t : string) : a +:+ t = b +:+ t → a = b.
Proof.
  revert b. induction a as [|x a IH]; intros [|y b] Heq; [done|..].
  - apply (f_equal String.length) in Heq.
    rewrite append_nil_l, append_cons in Heq. simpl in Heq.
    rewrite length_append in Heq. lia.
  - apply (f_equal String.length) in Heq.
    rewrite append_nil_l, append_cons in Heq. simpl in Heq.
    rewrite length_append in Heq. lia.
  - rewrite !append_cons in Heq. injection Heq as -> Heq. f_equal. by apply IH.
Qed.

(** Two triples that differ in one coordinate only have two keys. *)
Lemma cacheKey_one_coordinate cfg cfg' :
  llm.cacheKey cfg = llm.cacheKey cfg' →
  (llm.APIURL cfg = llm.APIURL cfg' → llm.APIKey cfg = llm.APIKey cfg' →
   llm.Provider cfg = llm.Provider cfg')
  ∧ (llm.Provider cfg = llm.Provider cfg' → llm.APIKey cfg = llm.APIKey cfg' →
     llm.APIURL cfg = llm.APIURL cfg')
  ∧ (llm.Provider cfg = llm.Provider cfg' → llm.APIURL cfg = llm.APIURL cfg' →
     llm.APIKey cfg = llm.APIKey cfg').
Proof.
  unfold llm.cacheKey. intros Heq. repeat split.
  - intros Hu Hk. rewrite Hu, Hk in Heq. by apply append_inj_r in Heq.
  - intros Hp Hk. rewrite Hp, Hk in Heq.
    apply (inj (String.append _)), (inj (String.append _)) in Heq.
    by apply append_inj_r in Heq.
  - intros Hp Hu. rewrite Hp, Hu in Heq.
    by do 4 apply (inj (String.append _)) in Heq.
Qed.

(** An unknown provider whose key is not in the cache is refused, and the
    cache stays as it is. *)
Lemma unknown_provider_miss cfg st :
  llm.Provider cfg ∉ ["dashscope"; "generic"; "openai"] →
  llm.clientCache st !! llm.cacheKey cfg = None →
  llm.GetClient cfg st
  = (st, Err (ErrorfName "unknown provider: %s" (llm.Provider cfg))).
Proof.
  intros Hp Hc. rewrite GetClient_miss by done. unfold llm.construct.
  destruct (String.eqb_spec (llm.Provider cfg) "dashscope") as [Heq|_];
    [rewrite Heq in Hp; set_solver|].
  destruct (String.eqb_spec (llm.Provider cfg) "generic") as [Heq|_];
    [rewrite Heq in Hp; set_solver|].
  destruct (String.eqb_spec (llm.Provider cfg) "openai") as [Heq|_];
    [rewrite Heq in Hp; set_solver|].
  done.
Qed.

(** C8, at the input where it fails: the key of a triple is its three
    coordinates joined by a bar, so the triple of the unknown provider
    "dashscope|x" with the URL "y" has the key of the dashscope triple with the
    URL "x|y". Once the latter is in the cache the former is resolved to its
    client, although no client can be constructed for it. *)
Theorem GetClient_unknown_provider_hit :
  let known := triple "dashscope" "x|y" "z" in
  let unknown := triple "dashscope|x" "y" "z" in
  let st := (llm.GetClient known llm.emptyCache).1 in
  (llm.GetClient known llm.emptyCache).2 = Ok 0
  ∧ llm.construct unknown = Err (ErrorfName "unknown provider: %s" "dashscope|x")
  ∧ llm.GetClient unknown st = (st, Ok 0).
Proof.
  intros known unknown st. split; [reflexivity|]. split; [reflexivity|].
  apply GetClient_hit. vm_compute. reflexivity.
Qed.

End cache.

(** ** What the cache and the adapters do guarantee *)

Section guarantees.
Context `{GoEnv}.

(** X1: two resolutions with the same provider, URL and key return the same
    client, whatever was resolved in between. *)
Theorem cache_same_triple_same_client (cfg cfg' : llm.Config)
    (st st' : llm.Cache) (p : nat) :
  (llm.GetClient cfg st).2 = Ok p →
  later (llm.GetClient cfg st).1 st' →
  llm.Provider cfg' = llm.Provider cfg →
  llm.APIURL cfg' = llm.APIURL cfg →
  llm.APIKey cfg' = llm.APIKey cfg →
  llm.GetClient cfg' st' = (st', Ok p).
Proof.
  intros Hp Hl Hprov Hurl Hkey.
  apply (same_key_same_client cfg cfg' st st' p); [done..|].
  unfold llm.cacheKey. by rewrite Hprov, Hurl, Hkey.
Qed.

(** X2: two successful resolutions whose triples differ in exactly one of
    provider, URL and key return two clients. *)
Theorem cache_one_coordinate_distinct_clients (cfg cfg' : llm.Config)
    (st st' : llm.Cache) (p p' : nat) :
  cache_wf st →
  (llm.GetClient cfg st).2 = Ok p →
  later (llm.GetClient cfg st).1 st' →
  (llm.GetClient cfg' st').2 = Ok p' →
  (llm.Provider cfg ≠ llm.Provider cfg' ∧ llm.APIURL cfg = llm.APIURL cfg'
   ∧ llm.APIKey cfg = llm.APIKey cfg')
  ∨ (llm.Provider cfg = llm.Provider cfg' ∧ llm.APIURL cfg ≠ llm.APIURL cfg'
     ∧ llm.APIKey cfg = llm.APIKey cfg')
  ∨ (llm.Provider cfg = llm.Provider cfg' ∧ llm.APIURL cfg = llm.APIURL cfg'
     ∧ llm.APIKey cfg ≠ llm.APIKey cfg') →
  p ≠ p'.
Proof.
  intros Hwf Hp Hl Hp' Hdiff.
  apply (distinct_keys_distinct_clients cfg cfg' st st'); [done..|].
  intros (Hprov & Hurl & Hkey)%cacheKey_one_coordinate.
  destruct Hdiff as [(? & ? & ?)|[(? & ? & ?)|(? & ? & ?)]]; auto.
Qed.

(** X3: a resolution with a provider that is none of dashscope, generic and
    openai, and whose key is not in the cache, fails with the error of the
    unknown provider and leaves the cache as it is. *)
Theorem cache_unknown_provider_refused (cfg : llm.Config) (st : llm.Cache) :
  llm.Provider cfg ∉ ["dashscope"; "generic"; "openai"] →
  llm.clientCache st !! llm.cacheKey cfg = None →
  llm.GetClient cfg st
  = (st, Err (ErrorfName "unknown provider: %s" (llm.Provider cfg))).
Proof. apply unknown_provider_miss. Qed.

(** X4: dashscope's Chat and openai's Chat write no message: the heap of
    message arrays is the same before and after a call. *)
Theorem dashscope_openai_keep_messages (d : dashscope.modelImpl)
    (o : openai.modelImpl) (messages : addr) (opts : list options.Option)
    (w : World) :
  heap (dashscope.Chat d messages opts w).1 = heap w
  ∧ heap (openai.Chat o messages opts w).1 = heap w.
Proof. split; [apply dashscope_Chat_heap|apply openai_Chat_heap]. Qed.

(** X5: generic's Chat leaves the messages of the caller as they are when
    thinking is not switched off, and when no message has the role system. *)
Theorem generic_keeps_messages_unless_no_think (m : generic.modelImpl)
    (messages : addr) (opts : list options.Option) (w : World) :
  messages < length (heap w) →
  options.Thinking (options.apply opts options.NewRequestConfig) ≠ Some false
  ∨ Forall (λ msg, spec.role msg ≠ spec.RoleSystem) (deref (heap w) messages) →
  deref (heap (generic.Chat m messages opts w).1) messages
  = deref (heap w) messages.
Proof.
  intros Hlt [Ht|Hsys];
    [by apply generic_Chat_keeps_messages
    |by apply generic_Chat_keeps_without_system].
Qed.

End guarantees.

Lemma cache_same_triple_same_client_witness :
  let cfg := triple "dashscope" "" "sk-1" in
  let st := (llm.GetClient (H := sampleEnv) cfg llm.emptyCache).1 in
  llm.GetClient (H := sampleEnv) cfg st = (st, Ok 0).
Proof.
  apply (cache_same_triple_same_client (H := sampleEnv)
           (triple "dashscope" "" "sk-1") (triple "dashscope" "" "sk-1")
           llm.emptyCache
           (llm.GetClient (H := sampleEnv) (triple "dashscope" "" "sk-1")
              llm.emptyCache).1 0);
    [reflexivity|apply later_refl|reflexivity..].
Defined.

Lemma cache_one_coordinate_distinct_clients_witness :
  let cfg := triple "dashscope" "" "sk-1" in
  let cfg' := triple "dashscope" "" "sk-2" in
  let st := (llm.GetClient (H := sampleEnv) cfg llm.emptyCache).1 in
  (llm.GetClient (H := sampleEnv) cfg llm.emptyCache).2 = Ok 0
  ∧ (llm.GetClient (H := sampleEnv) cfg' st).2 = Ok 1
  ∧ 0 ≠ 1.
Proof.
  split; [reflexivity|]. split; [vm_compute; reflexivity|].
  apply (cache_one_coordinate_distinct_clients (H := sampleEnv)
           (triple "dashscope" "" "sk-1") (triple "dashscope" "" "sk-2")
           llm.emptyCache
           (llm.GetClient (H := sampleEnv) (triple "dashscope" "" "sk-1")
              llm.emptyCache).1 0 1).
  - apply cache_wf_empty.
  - reflexivity.
  - apply later_refl.
  - vm_compute. reflexivity.
  - right. right. repeat split. discriminate.
Defined.

Lemma cache_unknown_provider_refused_witness :
  llm.GetClient (H := sampleEnv) (triple "claude" "" "sk-1") llm.emptyCache
  = (llm.emptyCache, Err (ErrorfName "unknown provider: %s" "claude")).
Proof.
  apply (cache_unknown_provider_refused (H := sampleEnv)
           (triple "claude" "" "sk-1") llm.emptyCache); [|reflexivity].
  intros Hin. repeat (apply elem_of_cons in Hin as [Hin|Hin]; [discriminate|]).
  by apply elem_of_nil in Hin.
Defined.

Lemma generic_keeps_messages_unless_no_think_witness :
  deref (heap (generic.Chat (H := sampleEnv) (sampleGeneric sampleClient) 0
                 [options.WithThinking true] sampleWorld).1) 0
  = sampleMessages.
Proof.
  apply (generic_keeps_messages_unless_no_think (H := sampleEnv)
           (sampleGeneric sampleClient) 0 [options.WithThinking true] sampleWorld).
  - simpl. lia.
  - left. discriminate.
Defined.

(** ** What the requester guarantees *)

Section requester_guarantees.
Context `{GoEnv}.

Lemma status_ok_range (code : Z) :
  requester.status_ok code = true ↔ (200 ≤ code < 300)%Z.
Proof.
  unfold requester.status_ok.
  destruct (Z.ltb_spec code 200), (Z.leb_spec 300 code); simpl; split;
    (done || lia).
Qed.

(** X7: Post returns a body exactly when the request body encodes, the URL
    makes a request, the HTTP client answers, the answer is read to its end
    without error and its status is one of 200..299; the body returned is the
    body of the answer. *)
Theorem Post_returns_body_iff (r : requester.Requester) (url : string)
    (headers : gmap string string) (body : gmap string any) (w : World)
    (raw : string) :
  (requester.Post r url headers body w).2 = Ok raw
  ↔ ∃ payload resp,
      Marshal (heap w) body = Returned payload
      ∧ NewRequest_error url = None
      ∧ requester.HTTPClient r (postRequest url headers payload) = Returned resp
      ∧ http.ReadAll (http.Body_ resp) = (raw, None)
      ∧ (200 ≤ http.StatusCode resp < 300)%Z.
Proof.
  unfold requester.Post, requester.send, postRequest. run. split.
  - destruct (Marshal (heap w) body) as [payload|e]; [|done]. simpl.
    destruct (NewRequest_error url); [done|]. simpl.
    destruct (requester.HTTPClient r _) as [resp|e] eqn:Hdo; [|done]. simpl.
    destruct (http.ReadAll (http.Body_ resp)) as [raw' [e|]] eqn:Hread; [done|].
    destruct (requester.status_ok _) eqn:Hstatus; [|done].
    intros [= ->]. exists payload, resp. by rewrite <- status_ok_range.
  - intros (payload & resp & -> & -> & Hdo & Hread & Hstatus%status_ok_range).
    simpl. rewrite Hdo. simpl. by rewrite Hread, Hstatus.
Qed.

(** X8: an answer whose status is outside 200..299 is an error that carries
    the status and the body of the answer, after the one request was sent.
    PostStream reads the body for the error and disregards a failure to read
    it; Post has read the body before it looks at the status, and reports a
    failure to read it instead. *)
Theorem status_outside_2xx_is_error (r : requester.Requester) (url : string)
    (headers : gmap string string) (body : gmap string any) (w : World)
    (payload : gmap string JSON) (resp : http.Response) :
  Marshal (heap w) body = Returned payload →
  NewRequest_error url = None →
  requester.HTTPClient r (postRequest url headers payload) = Returned resp →
  ¬ (200 ≤ http.StatusCode resp < 300)%Z →
  requester.PostStream r url headers body w
  = (log_sent (postRequest url headers payload) w,
     Err (ErrorfStatus "requester: API error (status %d): %s"
            (http.StatusCode resp) (http.ReadAll (http.Body_ resp)).1))
  ∧ requester.Post r url headers body w
    = (log_sent (postRequest url headers payload) w,
       Err match (http.ReadAll (http.Body_ resp)).2 with
           | Some e => ErrorfWrap "requester: failed to read response body: %w" e
           | None =>
               ErrorfStatus "requester: API error (status %d): %s"
                 (http.StatusCode resp) (http.ReadAll (http.Body_ resp)).1
           end).
Proof.
  intros Hm Hurl Hdo Hstatus.
  assert (requester.status_ok (http.StatusCode resp) = false) as Hno.
  { destruct (requester.status_ok _) eqn:Hs; [|done].
    by apply status_ok_range in Hs. }
  unfold requester.PostStream, requester.Post, requester.send, postRequest in *.
  run. rewrite Hm. simpl. rewrite Hurl. simpl. rewrite Hdo. simpl.
  rewrite Hno. split; [done|].
  by destruct (http.ReadAll (http.Body_ resp)) as [raw [e|]].
Qed.

(** The encoder accepts a body only if it accepts each of its values. *)
Lemma Marshal_value (h : list (list spec.Message)) (body : gmap string any)
    (payload : gmap string JSON) (k : string) (v : any) :
  Marshal h body = Returned payload →
  body !! k = Some v →
  ∃ j, marshal_value h v = Some j ∧ payload !! k = Some j.
Proof.
  intros Hm Hk. pose proof (Marshal_lookup _ _ _ k Hm) as Hp.
  rewrite Hk in Hp. simpl in Hp.
  unfold Marshal in Hm. destruct (forallb _ _) eqn:Hall; [|done].
  apply Is_true_true, forallb_True in Hall.
  rewrite Forall_forall in Hall.
  specialize (Hall (k, v)). rewrite elem_of_map_to_list in Hall.
  apply Hall, bool_decide_unpack in Hk as [j Hj]. simpl in Hj.
  exists j. by rewrite Hp, Hj.
Qed.

Lemma Marshal_fails (h : list (list spec.Message)) (body : gmap string any)
    (k : string) (v : any) :
  body !! k = Some v →
  marshal_value h v = None →
  Marshal h body = Failed (External "json: unsupported value").
Proof.
  intros Hk Hv. destruct (Marshal h body) as [payload|e] eqn:Hm.
  - destruct (Marshal_value _ _ _ _ _ Hm Hk) as (j & Hj & _). congruence.
  - unfold Marshal in *. by destruct (forallb _ _).
Qed.

End requester_guarantees.

Lemma status_outside_2xx_is_error_witness :
  (requester.Post (H := sampleEnv) {| requester.HTTPClient := serverError |}
     "http://localhost/v1/chat" ∅ ∅ sampleWorld).2
  = Err (ErrorfStatus "requester: API error (status %d): %s" 500 "server error").
Proof.
  pose proof (status_outside_2xx_is_error (H := sampleEnv)
                {| requester.HTTPClient := serverError |}
                "http://localhost/v1/chat" ∅ ∅ sampleWorld ∅
                {| http.StatusCode := 500;
                   http.Body_ := {| http.ReadAll := ("server error", None);
                                    http.Lines := bufio.Exhausted None |} |}
                eq_refl eq_refl eq_refl) as Hthm.
  destruct Hthm as [_ Hpost]; [simpl; lia|].
  rewrite Hpost. reflexivity.
Defined.

(** ** The request of a call *)

Section wire.
Context `{GoEnv}.

Lemma requests_none (w w' : World) : sent w' = sent w → requests w w' = [].
Proof. intros Hs. unfold requests. rewrite Hs. apply drop_all. Qed.

Lemma requests_one (w w' : World) (req : http.Request) :
  sent w' = sent w ++ [req] → requests w w' = [req].
Proof. intros Hs. unfold requests. rewrite Hs. apply drop_app_length. Qed.

Lemma rangeLoop_frame messages l i w :
  sent (generic.rangeLoop messages i l w).1 = sent w
  ∧ consumed (generic.rangeLoop messages i l w).1 = consumed w
  ∧ delivered (generic.rangeLoop messages i l w).1 = delivered w.
Proof.
  revert i. induction l as [|msg l IH]; intros i; [done|].
  cbn [generic.rangeLoop]. destruct (String.eqb _ _); [|apply IH].
  unfold generic.appendContent. by destruct (_ !! i).
Qed.

(** The thinking adaptation writes messages and nothing else. *)
Lemma adaptThinking_frame messages config w :
  sent (generic.adaptThinking messages config w).1 = sent w
  ∧ consumed (generic.adaptThinking messages config w).1 = consumed w
  ∧ delivered (generic.adaptThinking messages config w).1 = delivered w.
Proof.
  unfold generic.adaptThinking, alloc. run.
  destruct (options.Thinking config) as [[]|]; [done| |done].
  match goal with
  | |- context [generic.rangeLoop ?m ?i ?l ?w'] =>
      destruct (rangeLoop_frame m l i w') as (-> & -> & ->)
  end. done.
Qed.

(** A call of Chat either stops before it sends anything, without a result,
    or sends the one request that carries its encoded body. *)
Lemma dashscope_Chat_request m messages opts w :
  let config := options.apply opts options.NewRequestConfig in
  let body := if options.Streaming config
              then dashscope.streamBody (dashscope.requestBody m messages config)
              else dashscope.requestBody m messages config in
  (is_Ok (dashscope.Chat m messages opts w).2 = false
   ∧ sent (dashscope.Chat m messages opts w).1 = sent w)
  ∨ ∃ payload,
      Marshal (heap w) body = Returned payload
      ∧ sent (dashscope.Chat m messages opts w).1
        = sent w ++ [postRequest
                       (options.APIURL (dashscope.config (dashscope.client m)))
                       (bearer_headers
                          (options.APIKey (dashscope.config (dashscope.client m))))
                       payload].
Proof.
  intros config body. unfold dashscope.Chat. fold config. subst body.
  destruct (options.Streaming config); run.
  - match goal with
    | |- context [requester.PostStream ?r ?u ?h ?b w] =>
        destruct (PostStream_cases r u h b w) as [[e ->]|(p & res & Hm & -> & _)]
    end; [left; simpl; by split|].
    right. exists p. split; [done|].
    destruct res as [resp| |]; [|done..].
    match goal with
    | |- sent (dashscope.scanLoop ?cb ?sc ?fc ?role ?w').1 = _ =>
        by destruct (scanLoop_frame cb sc fc role w') as [_ ->]
    end.
  - match goal with
    | |- context [requester.Post ?r ?u ?h ?b w] =>
        destruct (Post_cases r u h b w) as [[e ->]|(p & res & Hm & -> & _)]
    end; [left; simpl; by split|].
    right. exists p. split; [done|]. by destruct res.
Qed.

Lemma generic_Chat_request m messages opts w :
  let config := options.apply opts options.NewRequestConfig in
  (is_Ok (generic.Chat m messages opts w).2 = false
   ∧ sent (generic.Chat m messages opts w).1 = sent w)
  ∨ ∃ payload,
      Marshal (heap (generic.Chat m messages opts w).1)
        (generic.requestBody m messages config) = Returned payload
      ∧ sent (generic.Chat m messages opts w).1
        = sent w ++ [postRequest
                       (options.APIURL (generic.config (generic.client m)))
                       (bearer_headers
                          (options.APIKey (generic.config (generic.client m))))
                       payload].
Proof.
  intros config. rewrite generic_Chat_heap. unfold generic.Chat. fold config.
  destruct (adaptThinking_frame messages config w) as (Hsent & _ & _). run.
  destruct (generic.adaptThinking messages config w) as [w1 [[]|e|msg]];
    cbn [fst snd] in *; [|left; simpl; by split..].
  match goal with
  | |- context [requester.Post ?r ?u ?h ?b w1] =>
      destruct (Post_cases r u h b w1) as [[e ->]|(p & res & Hm & -> & _)]
  end; [left; simpl; by split|].
  right. exists p. split; [done|]. rewrite <- Hsent. by destruct res.
Qed.

Lemma openai_Chat_request m messages opts w :
  let config := options.apply opts options.NewRequestConfig in
  (is_Ok (openai.Chat m messages opts w).2 = false
   ∧ sent (openai.Chat m messages opts w).1 = sent w)
  ∨ ∃ payload,
      Marshal (heap w) (openai.requestBody m messages config) = Returned payload
      ∧ sent (openai.Chat m messages opts w).1
        = sent w ++ [postRequest
                       (options.APIURL (openai.config (openai.client m)))
                       (bearer_headers
                          (options.APIKey (openai.config (openai.client m))))
                       payload].
Proof.
  intros config. unfold openai.Chat. fold config. run.
  match goal with
  | |- context [requester.Post ?r ?u ?h ?b w] =>
      destruct (Post_cases r u h b w) as [[e ->]|(p & res & Hm & -> & _)]
  end; [left; simpl; by split|].
  right. exists p. split; [done|]. by destruct res.
Qed.

Lemma sends_once_intro {A} (w : World) (run : World * result A) :
  (is_Ok run.2 = false ∧ sent run.1 = sent w)
  ∨ (∃ req, sent run.1 = sent w ++ [req]) →
  sends_once w run.
Proof.
  intros [[Hr Hs]|[req Hs]]; unfold sends_once.
  - rewrite (requests_none _ _ Hs), Hs, app_nil_r, Hr.
    split; [done|]. split; [simpl; lia|done].
  - rewrite (requests_one _ _ _ Hs), Hs. split; [done|]. split; [simpl; lia|done].
Qed.

Lemma dashscope_sends_once m messages opts w :
  sends_once w (dashscope.Chat m messages opts w).
Proof.
  apply sends_once_intro.
  destruct (dashscope_Chat_request m messages opts w) as [?|(p & _ & ?)];
    by eauto.
Qed.

Lemma generic_sends_once m messages opts w :
  sends_once w (generic.Chat m messages opts w).
Proof.
  apply sends_once_intro.
  destruct (generic_Chat_request m messages opts w) as [?|(p & _ & ?)];
    by eauto.
Qed.

Lemma openai_sends_once m messages opts w :
  sends_once w (openai.Chat m messages opts w).
Proof.
  apply sends_once_intro.
  destruct (openai_Chat_request m messages opts w) as [?|(p & _ & ?)];
    by eauto.
Qed.

(** X9: a call of Chat, of any of the three adapters, hands at most one
    request to the HTTP client, and exactly one when it returns a response:
    nothing is sent twice, and no response comes without a request. *)
Theorem adapters_send_at_most_once (d : dashscope.modelImpl)
    (g : generic.modelImpl) (o : openai.modelImpl) (messages : addr)
    (opts : list options.Option) (w : World) :
  sends_once w (dashscope.Chat d messages opts w)
  ∧ sends_once w (generic.Chat g messages opts w)
  ∧ sends_once w (openai.Chat o messages opts w).
Proof.
  split; [|split];
    [apply dashscope_sends_once|apply generic_sends_once|apply openai_sends_once].
Qed.

End wire.

(** ** The fields of a request *)

Section wire_fields.
Context `{GoEnv}.

Lemma dashscope_requests (P : http.Request → Prop) m messages opts w :
  let config := options.apply opts options.NewRequestConfig in
  (∀ payload,
      Marshal (heap w)
        (if options.Streaming config
         then dashscope.streamBody (dashscope.requestBody m messages config)
         else dashscope.requestBody m messages config) = Returned payload →
      P (postRequest (options.APIURL (dashscope.config (dashscope.client m)))
           (bearer_headers (options.APIKey (dashscope.config (dashscope.client m))))
           payload)) →
  Forall P (requests w (dashscope.Chat m messages opts w).1).
Proof.
  intros config HP.
  destruct (dashscope_Chat_request m messages opts w) as [[_ Hs]|(p & Hm & Hs)].
  - by rewrite (requests_none _ _ Hs).
  - rewrite (requests_one _ _ _ Hs). constructor; [by apply HP|done].
Qed.

Lemma generic_requests (P : http.Request → Prop) m messages opts w :
  let config := options.apply opts options.NewRequestConfig in
  (∀ payload,
      Marshal (heap (generic.Chat m messages opts w).1)
        (generic.requestBody m messages config) = Returned payload →
      P (postRequest (options.APIURL (generic.config (generic.client m)))
           (bearer_headers (options.APIKey (generic.config (generic.client m))))
           payload)) →
  Forall P (requests w (generic.Chat m messages opts w).1).
Proof.
  intros config HP.
  destruct (generic_Chat_request m messages opts w) as [[_ Hs]|(p & Hm & Hs)].
  - by rewrite (requests_none _ _ Hs).
  - rewrite (requests_one _ _ _ Hs). constructor; [by apply HP|done].
Qed.

Lemma openai_requests (P : http.Request → Prop) m messages opts w :
  let config := options.apply opts options.NewRequestConfig in
  (∀ payload,
      Marshal (heap w) (openai.requestBody m messages config) = Returned payload →
      P (postRequest (options.APIURL (openai.config (openai.client m)))
           (bearer_headers (options.APIKey (openai.config (openai.client m))))
           payload)) →
  Forall P (requests w (openai.Chat m messages opts w).1).
Proof.
  intros config HP.
  destruct (openai_Chat_request m messages opts w) as [[_ Hs]|(p & Hm & Hs)].
  - by rewrite (requests_none _ _ Hs).
  - rewrite (requests_one _ _ _ Hs). constructor; [by apply HP|done].
Qed.

Lemma dashscope_body_model m messages config :
  (if options.Streaming config
   then dashscope.streamBody (dashscope.requestBody m messages config)
   else dashscope.requestBody m messages config) !! "model"
  = Some (VString (dashscope.name m)).
Proof. lookup_body. Qed.

Lemma dashscope_body_messages m messages config :
  (if options.Streaming config
   then dashscope.streamBody (dashscope.requestBody m messages config)
   else dashscope.requestBody m messages config) !! "messages"
  = Some (VMessages messages).
Proof. lookup_body. Qed.

Lemma generic_body_model m messages config :
  generic.requestBody m messages config !! "model"
  = Some (VString (generic.name m)).
Proof. lookup_body. Qed.

Lemma openai_body_model m messages config :
  openai.requestBody m messages config !! "model"
  = Some (VString (openai.name m)).
Proof. lookup_body. Qed.

Lemma openai_body_messages m messages config :
  openai.requestBody m messages config !! "messages"
  = Some (VMessages messages).
Proof. lookup_body. Qed.

Lemma dashscope_Chat_carries m messages opts w :
  Forall (carries (options.APIURL (dashscope.config (dashscope.client m)))
            (options.APIKey (dashscope.config (dashscope.client m)))
            (dashscope.name m) (deref (heap w) messages))
    (requests w (dashscope.Chat m messages opts w).1).
Proof.
  apply dashscope_requests. intros p Hm. unfold carries, postRequest. simpl.
  rewrite !(Marshal_lookup _ _ _ _ Hm).
  by rewrite dashscope_body_model, dashscope_body_messages.
Qed.

Lemma generic_Chat_carries m messages opts w :
  Forall (carries (options.APIURL (generic.config (generic.client m)))
            (options.APIKey (generic.config (generic.client m)))
            (generic.name m)
            (deref (heap (generic.Chat m messages opts w).1) messages))
    (requests w (generic.Chat m messages opts w).1).
Proof.
  apply generic_requests. intros p Hm. unfold carries, postRequest. simpl.
  rewrite !(Marshal_lookup _ _ _ _ Hm).
  by rewrite generic_body_model, generic_requestBody_messages.
Qed.

Lemma openai_Chat_carries m messages opts w :
  Forall (carries (options.APIURL (openai.config (openai.client m)))
            (options.APIKey (openai.config (openai.client m)))
            (openai.name m) (deref (heap w) messages))
    (requests w (openai.Chat m messages opts w).1).
Proof.
  apply openai_requests. intros p Hm. unfold carries, postRequest. simpl.
  rewrite !(Marshal_lookup _ _ _ _ Hm).
  by rewrite openai_body_model, openai_body_messages.
Qed.

(** X10: every request a call of Chat sends is a POST to the URL of the
    client, with the bearer header of its key and the JSON content type, and
    carries the name of the model and the messages of the call, whatever the
    extra parameters say under these two names. The messages are those of the
    slice of the caller when the body is encoded: for generic, after the
    thinking adaptation. *)
Theorem request_line_and_mandatory_fields (d : dashscope.modelImpl)
    (g : generic.modelImpl) (o : openai.modelImpl) (messages : addr)
    (opts : list options.Option) (w : World) :
  Forall (carries (options.APIURL (dashscope.config (dashscope.client d)))
            (options.APIKey (dashscope.config (dashscope.client d)))
            (dashscope.name d) (deref (heap w) messages))
    (requests w (dashscope.Chat d messages opts w).1)
  ∧ Forall (carries (options.APIURL (generic.config (generic.client g)))
              (options.APIKey (generic.config (generic.client g)))
              (generic.name g)
              (deref (heap (generic.Chat g messages opts w).1) messages))
      (requests w (generic.Chat g messages opts w).1)
  ∧ Forall (carries (options.APIURL (openai.config (openai.client o)))
              (options.APIKey (openai.config (openai.client o)))
              (openai.name o) (deref (heap w) messages))
      (requests w (openai.Chat o messages opts w).1).
Proof.
  split; [|split];
    [apply dashscope_Chat_carries|apply generic_Chat_carries
    |apply openai_Chat_carries].
Qed.

Lemma dashscope_body_temperature m messages config :
  (if options.Streaming config
   then dashscope.streamBody (dashscope.requestBody m messages config)
   else dashscope.requestBody m messages config) !! "temperature"
  = match options.Temperature config with
    | Some f => Some (VFloat32 f)
    | None => options.Parameters config !! "temperature"
    end.
Proof. lookup_body. Qed.

Lemma generic_body_temperature m messages config :
  generic.requestBody m messages config !! "temperature"
  = match options.Temperature config with
    | Some f => Some (VFloat32 f)
    | None => options.Parameters config !! "temperature"
    end.
Proof. lookup_body. Qed.

Lemma openai_body_temperature m messages config :
  openai.requestBody m messages config !! "temperature"
  = match options.Temperature config with
    | Some f => Some (VFloat32 f)
    | None => options.Parameters config !! "temperature"
    end.
Proof. lookup_body. Qed.

Lemma openai_body_max_tokens m messages config :
  openai.requestBody m messages config !! "max_tokens"
  = match options.MaxTokens config with
    | Some n => Some (VInt n)
    | None => options.Parameters config !! "max_tokens"
    end.
Proof. lookup_body. Qed.

Lemma openai_body_top_p m messages config :
  openai.requestBody m messages config !! "top_p"
  = match options.TopP config with
    | Some f => Some (VFloat32 f)
    | None => options.Parameters config !! "top_p"
    end.
Proof. lookup_body. Qed.

Lemma dashscope_body_other m messages config k :
  k ∉ ["enable_thinking"; "model"; "messages"; "temperature"; "stream";
       "stream_options"] →
  (if options.Streaming config
   then dashscope.streamBody (dashscope.requestBody m messages config)
   else dashscope.requestBody m messages config) !! k
  = options.Parameters config !! k.
Proof.
  intros Hk. repeat (apply not_elem_of_cons in Hk as [? Hk]). lookup_body.
Qed.

Lemma generic_body_other m messages config k :
  k ∉ ["model"; "messages"; "temperature"] →
  generic.requestBody m messages config !! k = options.Parameters config !! k.
Proof.
  intros Hk. repeat (apply not_elem_of_cons in Hk as [? Hk]). lookup_body.
Qed.

Lemma openai_body_other m messages config k :
  k ∉ ["model"; "messages"; "temperature"; "max_tokens"; "top_p"; "stream"] →
  openai.requestBody m messages config !! k = options.Parameters config !! k.
Proof.
  intros Hk. repeat (apply not_elem_of_cons in Hk as [? Hk]). lookup_body.
Qed.

(** The field of an option of type float32 in a request that was encoded. *)
Lemma payload_float32 h body payload k (o : option float32)
    (params : gmap string any) :
  Marshal h body = Returned payload →
  body !! k = match o with Some f => Some (VFloat32 f) | None => params !! k end →
  payload !! k
  = match o with
    | Some f => Some (VFloat32 f)
    | None => params !! k ≫= marshal_value h
    end.
Proof.
  intros Hm Hk. destruct o as [f|].
  - destruct (Marshal_value _ _ _ _ _ Hm Hk) as (j & Hj & ->).
    cbn [marshal_value] in Hj. by destruct (float32_finite f).
  - by rewrite (Marshal_lookup _ _ _ _ Hm), Hk.
Qed.

(** X11: the temperature option, when it is set, is the field temperature of
    the request of each adapter. The options for the maximal number of tokens
    and for top-p reach the request of openai only: in a request of dashscope
    or of generic the fields max_tokens and top_p are what the extra
    parameters hold under these names, whether or not the options are set. *)
Theorem sampling_options_on_the_wire (d : dashscope.modelImpl)
    (g : generic.modelImpl) (o : openai.modelImpl) (messages : addr)
    (opts : list options.Option) (w : World) :
  let config := options.apply opts options.NewRequestConfig in
  let temperature (h : list (list spec.Message)) (req : http.Request) :=
    http.Payload req !! "temperature"
    = match options.Temperature config with
      | Some f => Some (VFloat32 f)
      | None => options.Parameters config !! "temperature" ≫= marshal_value h
      end in
  Forall (λ req, temperature (heap w) req
                 ∧ passes (heap w) (options.Parameters config) "max_tokens" req
                 ∧ passes (heap w) (options.Parameters config) "top_p" req)
    (requests w (dashscope.Chat d messages opts w).1)
  ∧ Forall (λ req,
              let h := heap (generic.Chat g messages opts w).1 in
              temperature h req
              ∧ passes h (options.Parameters config) "max_tokens" req
              ∧ passes h (options.Parameters config) "top_p" req)
      (requests w (generic.Chat g messages opts w).1)
  ∧ Forall (λ req,
              temperature (heap w) req
              ∧ http.Payload req !! "max_tokens"
                = match options.MaxTokens config with
                  | Some n => Some (VInt n)
                  | None => options.Parameters config !! "max_tokens"
                            ≫= marshal_value (heap w)
                  end
              ∧ http.Payload req !! "top_p"
                = match options.TopP config with
                  | Some f => Some (VFloat32 f)
                  | None => options.Parameters config !! "top_p"
                            ≫= marshal_value (heap w)
                  end)
      (requests w (openai.Chat o messages opts w).1).
Proof.
  intros config temperature. subst temperature. split; [|split].
  - apply dashscope_requests. intros p Hm. unfold passes, postRequest. simpl.
    split; [|split].
    + apply (payload_float32 _ _ _ _ _ _ Hm), dashscope_body_temperature.
    + rewrite (Marshal_lookup _ _ _ _ Hm), dashscope_body_other; [done|].
      not_listed.
    + rewrite (Marshal_lookup _ _ _ _ Hm), dashscope_body_other; [done|].
      not_listed.
  - apply generic_requests. intros p Hm. unfold passes, postRequest. simpl.
    split; [|split].
    + apply (payload_float32 _ _ _ _ _ _ Hm), generic_body_temperature.
    + rewrite (Marshal_lookup _ _ _ _ Hm), generic_body_other; [done|].
      not_listed.
    + rewrite (Marshal_lookup _ _ _ _ Hm), generic_body_other; [done|].
      not_listed.
  - apply openai_requests. intros p Hm. unfold postRequest. simpl.
    split; [|split].
    + apply (payload_float32 _ _ _ _ _ _ Hm), openai_body_temperature.
    + rewrite (Marshal_lookup _ _ _ _ Hm), openai_body_max_tokens.
      by destruct (options.MaxTokens _).
    + apply (payload_float32 _ _ _ _ _ _ Hm), openai_body_top_p.
Qed.

(** X12: an extra parameter whose name is none of the names an adapter
    writes itself reaches the request as it is, and a name that the extra
    parameters do not hold is no field of the request. *)
Theorem extra_parameters_pass_through (d : dashscope.modelImpl)
    (g : generic.modelImpl) (o : openai.modelImpl) (messages : addr)
    (opts : list options.Option) (w : World) (k : string) :
  let config := options.apply opts options.NewRequestConfig in
  (k ∉ ["enable_thinking"; "model"; "messages"; "temperature"; "stream";
        "stream_options"] →
   Forall (passes (heap w) (options.Parameters config) k)
     (requests w (dashscope.Chat d messages opts w).1))
  ∧ (k ∉ ["model"; "messages"; "temperature"] →
     Forall (passes (heap (generic.Chat g messages opts w).1)
               (options.Parameters config) k)
       (requests w (generic.Chat g messages opts w).1))
  ∧ (k ∉ ["model"; "messages"; "temperature"; "max_tokens"; "top_p"; "stream"] →
     Forall (passes (heap w) (options.Parameters config) k)
       (requests w (openai.Chat o messages opts w).1)).
Proof.
  intros config. split; [|split]; intros Hk.
  - apply dashscope_requests. intros p Hm. unfold passes, postRequest. simpl.
    by rewrite (Marshal_lookup _ _ _ _ Hm), dashscope_body_other.
  - apply generic_requests. intros p Hm. unfold passes, postRequest. simpl.
    by rewrite (Marshal_lookup _ _ _ _ Hm), generic_body_other.
  - apply openai_requests. intros p Hm. unfold passes, postRequest. simpl.
    by rewrite (Marshal_lookup _ _ _ _ Hm), openai_body_other.
Qed.

End wire_fields.

(** ** A body that does not encode *)

Section not_encoded.
Context `{GoEnv}.

Lemma Post_not_encoded r url headers body w e :
  Marshal (heap w) body = Failed e →
  requester.Post r url headers body w
  = (w, Err (ErrorfWrap "requester: failed to marshal request body: %w" e))
  ∧ requester.PostStream r url headers body w
    = (w, Err (ErrorfWrap "requester: failed to marshal request body: %w" e)).
Proof.
  intros Hm. unfold requester.Post, requester.PostStream, requester.send. run.
  by rewrite Hm.
Qed.

Lemma rangeLoop_Ok messages l i w :
  (∀ j msg, l !! j = Some msg → is_Some (deref (heap w) messages !! (i + j))) →
  (generic.rangeLoop messages i l w).2 = Ok tt.
Proof.
  revert i. induction l as [|msg l IH]; intros i Hl; [done|].
  cbn [generic.rangeLoop]. destruct (String.eqb _ _).
  - unfold generic.appendContent.
    destruct (Hl 0 msg eq_refl) as [x Hx]. rewrite Nat.add_0_r in Hx.
    by rewrite Hx.
  - apply IH. intros j msg' Hj. specialize (Hl (S j) msg' Hj).
    by rewrite Nat.add_succ_r in Hl.
Qed.

(** The thinking adaptation always comes to its end: the index it writes at
    is the index of a message of the slice. *)
Lemma adaptThinking_Ok messages config w :
  (generic.adaptThinking messages config w).2 = Ok tt.
Proof.
  unfold generic.adaptThinking, alloc. run.
  destruct (options.Thinking config) as [[]|]; [done| |done].
  cbn [heap set_heap]. rewrite deref_alloc. apply rangeLoop_Ok.
  cbn [heap set_heap Nat.add]. intros j msg Hj. unfold deref in *.
  destruct (heap w !! messages) as [l|] eqn:Hl; [|done].
  rewrite lookup_app_l by by eapply lookup_lt_Some.
  rewrite Hl. by eexists.
Qed.

(** X13: a temperature that is not a finite number cannot be encoded: the
    call of each adapter fails with the error of the requester around the
    error of the encoder, and no request is sent. *)
Theorem non_finite_temperature_not_sent (d : dashscope.modelImpl)
    (g : generic.modelImpl) (o : openai.modelImpl) (messages : addr)
    (opts : list options.Option) (w : World) (f : float32) :
  let failed (run : World * result spec.Response) :=
    (∃ e, run.2
          = Err (ErrorfWrap "requester: failed to marshal request body: %w" e))
    ∧ sent run.1 = sent w in
  options.Temperature (options.apply opts options.NewRequestConfig) = Some f →
  float32_finite f = false →
  failed (dashscope.Chat d messages opts w)
  ∧ failed (generic.Chat g messages opts w)
  ∧ failed (openai.Chat o messages opts w).
Proof.
  intros failed Ht Hf. subst failed. cbn beta.
  assert (∀ h, marshal_value h (VFloat32 f) = None) as Hv.
  { intros h. cbn [marshal_value]. by rewrite Hf. }
  split; [|split].
  - unfold dashscope.Chat.
    pose proof (dashscope_body_temperature d messages
                  (options.apply opts options.NewRequestConfig)) as Hk.
    rewrite Ht in Hk.
    destruct (options.Streaming _); run;
      match goal with
      | |- context [requester.PostStream ?r ?u ?hd ?b w] =>
          destruct (Post_not_encoded r u hd b w _ (Marshal_fails _ _ _ _ Hk (Hv _)))
            as [_ ->]
      | |- context [requester.Post ?r ?u ?hd ?b w] =>
          destruct (Post_not_encoded r u hd b w _ (Marshal_fails _ _ _ _ Hk (Hv _)))
            as [-> _]
      end; by eauto.
  - unfold generic.Chat. run.
    pose proof (adaptThinking_Ok messages
                  (options.apply opts options.NewRequestConfig) w) as Hok.
    destruct (adaptThinking_frame messages
                (options.apply opts options.NewRequestConfig) w) as (Hs & _ & _).
    destruct (generic.adaptThinking _ _ w) as [w1 r]. cbn [fst snd] in *.
    subst r.
    pose proof (generic_body_temperature g messages
                  (options.apply opts options.NewRequestConfig)) as Hk.
    rewrite Ht in Hk.
    match goal with
    | |- context [requester.Post ?r ?u ?hd ?b w1] =>
        destruct (Post_not_encoded r u hd b w1 _ (Marshal_fails _ _ _ _ Hk (Hv _)))
          as [-> _]
    end. by eauto.
  - unfold openai.Chat. run.
    pose proof (openai_body_temperature o messages
                  (options.apply opts options.NewRequestConfig)) as Hk.
    rewrite Ht in Hk.
    match goal with
    | |- context [requester.Post ?r ?u ?hd ?b w] =>
        destruct (Post_not_encoded r u hd b w _ (Marshal_fails _ _ _ _ Hk (Hv _)))
          as [-> _]
    end. by eauto.
Qed.

End not_encoded.

Lemma non_finite_temperature_not_sent_witness :
  let failed (run : World * result spec.Response) :=
    (∃ e, run.2
          = Err (ErrorfWrap "requester: failed to marshal request body: %w" e))
    ∧ sent run.1 = sent sampleWorld in
  failed (dashscope.Chat (H := sampleEnv) (sampleDashscope sampleClient) 0
            [options.WithTemperature NaN] sampleWorld)
  ∧ failed (generic.Chat (H := sampleEnv) (sampleGeneric sampleClient) 0
              [options.WithTemperature NaN] sampleWorld)
  ∧ failed (openai.Chat (H := sampleEnv) (sampleOpenAI sampleClient) 0
              [options.WithTemperature NaN] sampleWorld).
Proof.
  apply (non_finite_temperature_not_sent (H := sampleEnv)
           (sampleDashscope sampleClient) (sampleGeneric sampleClient)
           (sampleOpenAI sampleClient) 0 [options.WithTemperature NaN]
           sampleWorld NaN); reflexivity.
Defined.

(** ** The result of a stream and what the callback was given *)

Section stream_guarantees.
Context `{GoEnv}.

Lemma fragment_not_empty (c : dashscopeChunk) (x : string) :
  fragment c = Some x → x ≠ "".
Proof.
  unfold fragment. destruct (chunk_Choices c) as [|choice ?]; [done|].
  destruct (String.eqb_spec (delta_Content (Delta choice)) ""); [done|].
  by intros [= <-].
Qed.

(** Whatever the lines are, a loop that ends with a response has added to the
    content the fragments it gave to the callback, and nothing else. *)
Lemma scanLoop_result cb sc :
  ∀ fc role w resp,
    (dashscope.scanLoop cb sc fc role w).2 = Ok resp →
    ∃ frs,
      spec.Content (spec.Message_ resp) = fc +:+ concat_strings frs
      ∧ delivered (dashscope.scanLoop cb sc fc role w).1
        = delivered w ++ given cb frs
      ∧ Forall (λ x, x ≠ "") frs
      ∧ spec.ReasoningContent (spec.Message_ resp) = ""
      ∧ spec.RawResponse resp = "".
Proof.
  induction sc as [e|line e sc IH]; intros fc role w resp.
  - simpl. unfold dashscope.finish. run. destruct e; [done|].
    intros [= <-]. exists []. simpl.
    by rewrite string_append_nil_r, given_nil, app_nil_r.
  - destruct (classify line) as [| | |c] eqn:Hk.
    + rewrite scanLoop_non_data by done.
      intros (frs & Hc & Hd & Hrest)%IH. by exists frs.
    + rewrite scanLoop_done by done. unfold dashscope.finish. run.
      destruct e; [done|]. intros [= <-]. exists []. simpl.
      by rewrite string_append_nil_r, given_nil, app_nil_r.
    + rewrite scanLoop_malformed by done.
      intros (frs & Hc & Hd & Hrest)%IH. by exists frs.
    + rewrite (scanLoop_chunk _ _ _ _ _ _ _ c) by done.
      destruct (fragment c) as [x|] eqn:Hx;
        [|intros (frs & Hc & Hd & Hrest)%IH; by exists frs].
      pose proof (fragment_not_empty _ _ Hx) as Hne.
      destruct cb as [callback|].
      * destruct (callback (delivered w) x); [done|].
        intros (frs & Hc & Hd & Hfrs & Hr & Hraw)%IH.
        exists (x :: frs). cbn [concat_strings foldr given] in *.
        rewrite Hc, Hd, string_append_assoc.
        cbn [delivered log_delivered log_consumed].
        rewrite <- (assoc_L (++)). by auto.
      * intros (frs & Hc & Hd & Hfrs & Hr & Hraw)%IH.
        exists (x :: frs). cbn [concat_strings foldr given] in *.
        rewrite Hc, Hd, string_append_assoc. by auto.
Qed.

(** X14: the response of a streaming call of dashscope's Chat, whatever the
    stream was made of: its content is the concatenation of the fragments the
    call gave to the callback, in that order, none of them empty; it has no
    reasoning content and no raw response. *)
Theorem stream_result_is_what_sink_saw (m : dashscope.modelImpl)
    (messages : addr) (opts : list options.Option) (w : World)
    (resp : spec.Response) :
  let config := options.apply opts options.NewRequestConfig in
  options.Streaming config = true →
  (dashscope.Chat m messages opts w).2 = Ok resp →
  ∃ frs,
    spec.Content (spec.Message_ resp) = concat_strings frs
    ∧ delivered (dashscope.Chat m messages opts w).1
      = delivered w ++ given (options.StreamCallback_ config) frs
    ∧ Forall (λ x, x ≠ "") frs
    ∧ spec.ReasoningContent (spec.Message_ resp) = ""
    ∧ spec.RawResponse resp = "".
Proof.
  intros config Hs. unfold dashscope.Chat. fold config. rewrite Hs. run.
  match goal with
  | |- context [requester.PostStream ?r ?u ?h ?b w] =>
      destruct (PostStream_cases r u h b w) as [[e ->]|(p & res & _ & -> & _)]
  end; [done|].
  destruct res as [hresp| |]; [|done..].
  intros (frs & Hc & Hd & Hfrs)%scanLoop_result.
  exists frs. rewrite append_nil_l in Hc. by rewrite Hc, Hd.
Qed.

(** X15: a stream that ends without the terminal marker. When the scanner
    reports no error, the call returns the content aggregated so far, as it
    would at the marker; when the scanner reports an error, the call returns
    that error, wrapped, and no response, although the callback has been
    given every fragment. *)
Theorem stream_end_without_marker (m : dashscope.modelImpl) (messages : addr)
    (opts : list options.Option) (w : World) (resp : http.Response)
    (lines : list string) (e : option error) (cs : list dashscopeChunk) :
  let config := options.apply opts options.NewRequestConfig in
  options.Streaming config = true →
  (dashscope_PostStream m messages opts w).2 = Ok resp →
  reads (http.Lines (http.Body_ resp)) lines (bufio.Exhausted e) →
  Carries lines cs →
  accepts (options.StreamCallback_ config) (delivered w) (fragments cs) →
  (dashscope.Chat m messages opts w).2
  = match e with
    | None =>
        Ok {| spec.Message_ :=
                {| spec.role := foldl chunk_role "assistant" cs;
                   spec.Content := concat_strings (fragments cs);
                   spec.ReasoningContent := "" |};
              spec.RawResponse := "" |}
    | Some err => Err (ErrorfWrap "dashscope: stream scan error: %w" err)
    end
  ∧ delivered (dashscope.Chat m messages opts w).1
    = delivered w ++ given (options.StreamCallback_ config) (fragments cs)
  ∧ consumed (dashscope.Chat m messages opts w).1 = consumed w ++ lines.
Proof.
  intros config Hs Hp Hreads Hc Hacc.
  destruct (dashscope_Chat_streaming m messages opts w resp Hs Hp)
    as (-> & Hcons & Hdel).
  fold config. rewrite (scanLoop_carries _ _ _ _ Hreads cs) by by rewrite ?Hdel.
  cbn [dashscope.scanLoop]. unfold dashscope.finish. run.
  rewrite append_nil_l.
  destruct e; cbn [fst snd consumed delivered advance]; by rewrite Hcons, Hdel.
Qed.

(** X16: the stream callback is called by dashscope's Chat in a streaming
    call only. A call of dashscope's Chat without the streaming option, and
    every call of generic's Chat and of openai's Chat, gives nothing to the
    callback and takes no line from a stream, whichever options are set; nor
    does a streaming call whose request fails. *)
Theorem sink_untouched_without_stream (d : dashscope.modelImpl)
    (g : generic.modelImpl) (o : openai.modelImpl) (messages : addr)
    (opts : list options.Option) (w : World) :
  let config := options.apply opts options.NewRequestConfig in
  let untouched (run : World * result spec.Response) :=
    delivered run.1 = delivered w ∧ consumed run.1 = consumed w in
  (options.Streaming config = false
   ∨ is_Ok (dashscope_PostStream d messages opts w).2 = false →
   untouched (dashscope.Chat d messages opts w))
  ∧ untouched (generic.Chat g messages opts w)
  ∧ untouched (openai.Chat o messages opts w).
Proof.
  intros config untouched. subst untouched. cbn beta. split; [|split].
  - unfold dashscope.Chat, dashscope_PostStream. fold config.
    intros [Hs|Hp].
    + rewrite Hs. run.
      match goal with
      | |- context [requester.Post ?r ?u ?h ?b w] =>
          destruct (Post_cases r u h b w) as [[e ->]|(p & res & _ & -> & _)]
      end; [done|]. by destruct res.
    + destruct (options.Streaming config); run.
      * match goal with
        | H : context [requester.PostStream ?r ?u ?h ?b w] |- _ =>
            destruct (PostStream_cases r u h b w)
              as [[e He]|(p & res & _ & He & _)]
        end; rewrite He in *; [done|]. by destruct res.
      * match goal with
        | |- context [requester.Post ?r ?u ?h ?b w] =>
            destruct (Post_cases r u h b w) as [[e ->]|(p & res & _ & -> & _)]
        end; [done|]. by destruct res.
  - unfold generic.Chat. fold config. run.
    destruct (adaptThinking_frame messages config w) as (_ & Hc & Hd).
    destruct (generic.adaptThinking messages config w) as [w1 [[]|e|msg]];
      cbn [fst snd] in *; [|done..].
    match goal with
    | |- context [requester.Post ?r ?u ?h ?b w1] =>
        destruct (Post_cases r u h b w1) as [[e ->]|(p & res & _ & -> & _)]
    end; [done|]. by destruct res.
  - unfold openai.Chat. fold config. run.
    match goal with
    | |- context [requester.Post ?r ?u ?h ?b w] =>
        destruct (Post_cases r u h b w) as [[e ->]|(p & res & _ & -> & _)]
    end; [done|]. by destruct res.
Qed.

End stream_guarantees.

Lemma stream_result_is_what_sink_saw_witness :
  ∃ frs,
    "Hello" = concat_strings frs
    ∧ delivered (dashscope.Chat (H := sampleEnv) (sampleDashscope sampleClient) 0
                   [streamingWith (Some acceptAll)] sampleWorld).1
      = [] ++ given (Some acceptAll) frs
    ∧ Forall (λ x, x ≠ "") frs
    ∧ "" = ""
    ∧ "" = "".
Proof.
  apply (stream_result_is_what_sink_saw (H := sampleEnv)
           (sampleDashscope sampleClient) 0 [streamingWith (Some acceptAll)]
           sampleWorld
           {| spec.Message_ := {| spec.role := "assistant";
                                  spec.Content := "Hello";
                                  spec.ReasoningContent := "" |};
              spec.RawResponse := "" |}).
  - reflexivity.
  - vm_compute. reflexivity.
Defined.

Lemma stream_end_without_marker_witness :
  let run := dashscope.Chat (H := sampleEnv) (sampleDashscope brokenClient) 0
               [streamingWith (Some acceptAll)] sampleWorld in
  run.2 = Err (ErrorfWrap "dashscope: stream scan error: %w"
                 (External "unexpected EOF"))
  ∧ delivered run.1 = ["Hel"; "lo"]
  ∧ consumed run.1 = take 4 sampleStream.
Proof.
  apply (stream_end_without_marker (H := sampleEnv) (sampleDashscope brokenClient)
           0 [streamingWith (Some acceptAll)] sampleWorld brokenResponse
           (take 4 sampleStream) (Some (External "unexpected EOF"))
           [contentChunk "Hel"; contentChunk "lo"]).
  - reflexivity.
  - vm_compute. reflexivity.
  - apply (sample_reads 4 _ (take 4 sampleStream)).
  - apply Carries_chunk; [reflexivity|].
    apply Carries_non_data; [reflexivity|].
    apply Carries_malformed; [reflexivity|].
    apply Carries_chunk; [reflexivity|].
    apply Carries_nil.
  - intros callback [= <-] k x _. reflexivity.
Defined.

(** ** Calls of generic's Chat one after the other *)

Section marker.
Context `{GoEnv}.

Lemma addContent_nil (msg : spec.Message) : generic.addContent "" msg = msg.
Proof. destruct msg. unfold generic.addContent. simpl. by rewrite string_append_nil_r. Qed.

Lemma addContent_addContent (s t : string) (msg : spec.Message) :
  generic.addContent t (generic.addContent s msg) = generic.addContent (s +:+ t) msg.
Proof. unfold generic.addContent. simpl. by rewrite string_append_assoc. Qed.

(** The heap after one call with thinking switched off. *)
Lemma generic_Chat_no_think_heap m messages opts w pre sys post :
  options.Thinking (options.apply opts options.NewRequestConfig) = Some false →
  heap w !! messages = Some (pre ++ sys :: post) →
  Forall (λ msg, spec.role msg ≠ spec.RoleSystem) pre →
  spec.role sys = spec.RoleSystem →
  heap (generic.Chat m messages opts w).1
  = <[messages := pre ++ generic.addContent generic.noThink sys :: post]> (heap w)
    ++ [pre ++ sys :: post].
Proof.
  intros Ht Hm Hpre Hsys.
  by rewrite generic_Chat_heap, (adaptThinking_no_think _ _ _ pre sys post).
Qed.

Lemma calls_succ {A} (k : nat) (call : M A) (w : World) :
  calls (S k) call w = calls k call (call w).1.
Proof. unfold calls. by rewrite Nat.iter_succ_r. Qed.

(** X17: generic's Chat called [k] times with thinking switched off, on one
    slice of messages: the first message of role system has the marker
    appended [k] times, whatever the calls returned; the other messages are
    as they were. *)
Theorem no_think_marker_accumulates (m : generic.modelImpl) (messages : addr)
    (opts : list options.Option) (pre post : list spec.Message)
    (sys : spec.Message) (k : nat) (w : World) :
  options.Thinking (options.apply opts options.NewRequestConfig) = Some false →
  heap w !! messages = Some (pre ++ sys :: post) →
  Forall (λ msg, spec.role msg ≠ spec.RoleSystem) pre →
  spec.role sys = spec.RoleSystem →
  deref (heap (calls k (generic.Chat m messages opts) w)) messages
  = pre ++ generic.addContent (concat_strings (replicate k generic.noThink)) sys
    :: post.
Proof.
  intros Ht Hm Hpre Hsys. revert sys w Hm Hsys.
  induction k as [|k IH]; intros sys w Hm Hsys.
  - unfold calls, deref. simpl. by rewrite Hm, addContent_nil.
  - rewrite calls_succ.
    rewrite (IH (generic.addContent generic.noThink sys)).
    + cbn [replicate concat_strings foldr]. by rewrite addContent_addContent.
    + rewrite (generic_Chat_no_think_heap _ _ _ _ pre sys post) by done.
      pose proof (lookup_lt_Some _ _ _ Hm) as Hlt.
      rewrite lookup_app_l by by rewrite length_insert.
      by rewrite list_lookup_insert_eq.
    + done.
Qed.

End marker.

Lemma no_think_marker_accumulates_witness :
  deref (heap (calls 2 (generic.Chat (H := sampleEnv) (sampleGeneric sampleClient)
                          0 [options.WithThinking false]) sampleWorld)) 0
  = [spec.NewSystemMessage
       ("You are a helpful assistant." +:+ LF +:+ "/no_think" +:+ LF +:+ "/no_think");
     spec.NewUserMessage "hi"].
Proof.
  apply (no_think_marker_accumulates (H := sampleEnv) (sampleGeneric sampleClient)
           0 [options.WithThinking false] [] [spec.NewUserMessage "hi"]
           (spec.NewSystemMessage "You are a helpful assistant.") 2 sampleWorld).
  - reflexivity.
  - reflexivity.
  - constructor.
  - reflexivity.
Defined.

(** ** Request options one after the other *)

Section option_laws.
Context `{GoEnv}.

Lemma apply_snoc (opts : list options.Option) (opt : options.Option)
    (config : options.RequestConfig) :
  options.apply (opts ++ [opt]) config = opt (options.apply opts config).
Proof. unfold options.apply. by rewrite foldl_app. Qed.

(** X18: the map of extra parameters after a list of options and one more.
    WithParameters writes its entries over the entries of the same names and
    keeps the others, so that two of them in a row are one with the union of
    the two maps, the later map first; WithParameter is WithParameters with
    a single entry; and WithThinking, WithTemperature and the other options
    leave the map as it is. *)
Theorem extra_parameters_merge (opts : list options.Option)
    (params params' : gmap string any) (key : string) (v : any)
    (config : options.RequestConfig) (k : string) :
  options.Parameters (options.apply (opts ++ [options.WithParameters params]) config)
    !! k
  = match params !! k with
    | Some x => Some x
    | None => options.Parameters (options.apply opts config) !! k
    end
  ∧ options.WithParameters params' (options.WithParameters params config)
    = options.WithParameters (params' ∪ params) config
  ∧ options.WithParameter key v config
    = options.WithParameters {[key := v]} config
  ∧ (∀ opt,
       opt ∈ [options.WithThinking true; options.WithThinking false;
              options.WithStreaming]
       ∨ (∃ x, opt = options.WithModel x) ∨ (∃ x, opt = options.WithTemperature x)
       ∨ (∃ x, opt = options.WithMaxTokens x) ∨ (∃ x, opt = options.WithTopP x) →
       options.Parameters (options.apply (opts ++ [opt]) config)
       = options.Parameters (options.apply opts config)).
Proof.
  split; [|split; [|split]].
  - rewrite apply_snoc. unfold options.WithParameters, options.set_Parameters.
    cbn [options.Parameters]. rewrite lookup_union.
    by destruct (params !! k), (options.Parameters _ !! k).
  - unfold options.WithParameters, options.set_Parameters. simpl.
    by rewrite (assoc_L (∪)).
  - unfold options.WithParameter, options.WithParameters, options.set_Parameters.
    by rewrite insert_union_singleton_l.
  - intros opt Hopt. rewrite apply_snoc.
    destruct Hopt as [Hin|[[x ->]|[[x ->]|[[x ->]|[x ->]]]]]; [|done..].
    repeat (apply elem_of_cons in Hin as [->|Hin]; [done|]).
    by apply elem_of_nil in Hin.
Qed.

End option_laws.

(** ** The stateless calls *)

Section stateless_calls.
Context `{GoEnv}.
Variable WithStreamCallback : options.StreamCallback → options.Option.

(** A resolution that fails leaves the cache as it is. *)
Lemma GetClient_Err cfg st e :
  (llm.GetClient cfg st).2 = Err e → llm.GetClient cfg st = (st, Err e).
Proof.
  unfold llm.GetClient. destruct (llm.clientCache st !! _); [done|].
  destruct (llm.construct cfg); [done| |done]. by intros [= ->].
Qed.

(** The address a resolution returns is the address of a client. *)
Lemma GetClient_resolves cfg st p :
  cache_wf st →
  (llm.GetClient cfg st).2 = Ok p →
  is_Some (llm.clients (llm.GetClient cfg st).1 !! p).
Proof.
  intros Hwf Hp. apply lookup_lt_is_Some.
  destruct (GetClient_wf cfg st Hwf) as [Hlt _].
  by apply (Hlt (llm.cacheKey cfg)), GetClient_Ok_cached.
Qed.

Lemma rangeLoop_heap_other messages l i w a :
  a ≠ messages →
  heap (generic.rangeLoop messages i l w).1 !! a = heap w !! a.
Proof.
  intros Ha. revert i. induction l as [|msg l IH]; intros i; [done|].
  cbn [generic.rangeLoop]. destruct (String.eqb _ _); [|apply IH].
  unfold generic.appendContent. destruct (_ !! i); [|done].
  cbn [fst heap set_heap]. by rewrite list_lookup_insert_ne.
Qed.

(** A call through the interface writes no array but the one of its
    messages, and frees none. *)
Lemma Model_Chat_heap_other model messages opts w a :
  a ≠ messages →
  a < length (heap w) →
  heap (chat.Model_Chat model messages opts w).1 !! a = heap w !! a.
Proof.
  intros Ha Hlt. destruct model as [m|m|m]; cbn [chat.Model_Chat].
  - by rewrite dashscope_Chat_heap.
  - rewrite generic_Chat_heap. unfold generic.adaptThinking, alloc. run.
    destruct (options.Thinking _) as [[]|]; cbn [fst heap set_heap];
      rewrite ?rangeLoop_heap_other by done; cbn [heap set_heap];
      by rewrite lookup_app_l.
  - by rewrite openai_Chat_heap.
Qed.

Lemma generic_Chat_no_panic m messages opts w :
  is_Panic (generic.Chat m messages opts w).2 = false.
Proof.
  unfold generic.Chat. run.
  pose proof (adaptThinking_Ok messages
                (options.apply opts options.NewRequestConfig) w) as Hok.
  destruct (generic.adaptThinking _ _ w) as [w1 r]. cbn [snd] in Hok. subst r.
  match goal with
  | |- context [requester.Post ?r ?u ?h ?b w1] =>
      destruct (Post_cases r u h b w1) as [[e ->]|(p & res & _ & -> & Hp)]
  end; [done|].
  destruct res as [raw| |]; [|done..]. unfold generic.parseResponse.
  destruct (Unmarshal_apiResp raw) as [[choices]|]; [|done]. simpl.
  by destruct choices.
Qed.

Lemma openai_Chat_no_panic m messages opts w :
  is_Panic (openai.Chat m messages opts w).2 = false.
Proof.
  unfold openai.Chat. run.
  match goal with
  | |- context [requester.Post ?r ?u ?h ?b w] =>
      destruct (Post_cases r u h b w) as [[e ->]|(p & res & _ & -> & Hp)]
  end; [done|].
  destruct res as [raw| |]; [|done..]. unfold openai.parseResponse.
  by destruct (Unmarshal_apiResp raw).
Qed.

Lemma Model_Chat_no_panic model messages opts w :
  is_Panic (chat.Model_Chat model messages opts w).2 = false.
Proof.
  destruct model; cbn [chat.Model_Chat];
    [apply dashscope_Chat_no_panic|apply generic_Chat_no_panic
    |apply openai_Chat_no_panic].
Qed.

(** X19: when the client of a configuration cannot be resolved, the
    stateless calls return the error of the resolution inside an error that
    names the provider; they send nothing, and the cache is as before. *)
Theorem stateless_calls_without_client (messages : addr) (userPrompt : string)
    (cfg : llm.Config) (st : llm.Cache) (w : World) (e : error) :
  let wrapped :=
    ErrorfWrap ("failed to get client for provider '" +:+ llm.Provider cfg
                +:+ "': %w") e in
  (llm.GetClient cfg st).2 = Err e →
  chat.ChatMessages WithStreamCallback messages cfg st w = (st, w, Err wrapped)
  ∧ (chat.Chat WithStreamCallback userPrompt cfg st w).2 = Err wrapped
  ∧ (chat.ChatText WithStreamCallback userPrompt cfg st w).2 = Err wrapped
  ∧ (chat.ChatText WithStreamCallback userPrompt cfg st w).1.1 = st
  ∧ sent (chat.ChatText WithStreamCallback userPrompt cfg st w).1.2 = sent w.
Proof.
  intros wrapped He%GetClient_Err.
  unfold chat.ChatText, chat.Chat, chat.ChatMessages. by rewrite He.
Qed.

(** X20: the stateless calls and the arrays of messages. ChatMessages writes
    no array but the one of the messages it is given; Chat, which builds its
    messages itself, writes no array that was there before the call. This
    holds for each provider, generic with thinking switched off included. *)
Theorem stateless_calls_keep_other_slices (messages : addr)
    (userPrompt : string) (cfg : llm.Config) (st : llm.Cache) (w : World)
    (a : addr) :
  a < length (heap w) →
  (a ≠ messages →
   heap (chat.ChatMessages WithStreamCallback messages cfg st w).1.2 !! a
   = heap w !! a)
  ∧ heap (chat.Chat WithStreamCallback userPrompt cfg st w).1.2 !! a = heap w !! a
  ∧ heap (chat.ChatText WithStreamCallback userPrompt cfg st w).1.2 !! a
    = heap w !! a.
Proof.
  intros Hlt.
  assert (∀ messages w, a ≠ messages → a < length (heap w) →
            heap (chat.ChatMessages WithStreamCallback messages cfg st w).1.2 !! a
            = heap w !! a) as Hcm.
  { clear. intros messages w Ha Hlt. unfold chat.ChatMessages, chat.clientAt.
    destruct (llm.GetClient cfg st) as [st' [p|e|msg]]; [|done..].
    destruct (llm.clients st' !! p) as [client|]; [|done].
    pose proof (Model_Chat_heap_other
                  (chat.Client_Model client (llm.Model cfg)) messages
                  (chat.requestOpts WithStreamCallback cfg) w a Ha Hlt) as Hh.
    by destruct (chat.Model_Chat _ _ _ w). }
  assert (heap (chat.Chat WithStreamCallback userPrompt cfg st w).1.2 !! a
          = heap w !! a) as Hc.
  { unfold chat.Chat. rewrite Hcm.
    - cbn [heap set_heap]. by rewrite lookup_app_l.
    - lia.
    - cbn [heap set_heap]. rewrite length_app. lia. }
  split; [intros Ha; by apply Hcm|]. split; [done|].
  unfold chat.ChatText.
  by destruct (chat.Chat WithStreamCallback userPrompt cfg st w) as [[st' w'] r].
Qed.

(** What a call through the interface sends. *)
Lemma Model_Chat_carries client name messages opts w :
  let run := chat.Model_Chat (chat.Client_Model client name) messages opts w in
  Forall (carries (options.APIURL (clientConfig client))
            (options.APIKey (clientConfig client)) name
            (deref (heap run.1) messages))
    (requests w run.1)
  ∧ sends_once w run.
Proof.
  destruct client as [c|c|c];
    cbn [chat.Client_Model chat.Model_Chat clientConfig].
  - split; [|apply dashscope_sends_once].
    rewrite dashscope_Chat_heap.
    apply (dashscope_Chat_carries (dashscope.Model c name)).
  - split; [|apply generic_sends_once].
    apply (generic_Chat_carries (generic.Model c name)).
  - split; [|apply openai_sends_once].
    rewrite openai_Chat_heap.
    apply (openai_Chat_carries (openai.Model c name)).
Qed.

(** X21: with a client that the cache resolves, every request ChatMessages
    sends goes to the URL of that client with its key, names the model of
    the configuration, and carries the messages of the caller as they are
    when the call returns; the call sends at most one request, and one when
    it returns a response. *)
Theorem ChatMessages_request (messages : addr) (cfg : llm.Config)
    (st : llm.Cache) (w : World) (p : nat) (client : llm.Client) :
  let run := chat.ChatMessages WithStreamCallback messages cfg st w in
  (llm.GetClient cfg st).2 = Ok p →
  llm.clients (llm.GetClient cfg st).1 !! p = Some client →
  Forall (carries (options.APIURL (clientConfig client))
            (options.APIKey (clientConfig client)) (llm.Model cfg)
            (deref (heap run.1.2) messages))
    (requests w run.1.2)
  ∧ sends_once w (run.1.2, run.2)
  ∧ run.1.1 = (llm.GetClient cfg st).1.
Proof.
  intros run Hp Hc. subst run. unfold chat.ChatMessages, chat.clientAt.
  destruct (llm.GetClient cfg st) as [st' r]. cbn [fst snd] in *. subst r.
  rewrite Hc.
  pose proof (Model_Chat_carries client (llm.Model cfg) messages
                (chat.requestOpts WithStreamCallback cfg) w) as [Hreq Honce].
  by destruct (chat.Model_Chat _ _ _ w).
Qed.

End stateless_calls.

Lemma stateless_calls_without_client_witness :
  let cfg := triple "dashscope" "" "" in
  let wrapped :=
    ErrorfWrap "failed to get client for provider 'dashscope': %w"
      (Errorf "dashscope: API key is required, use llm.WithAPIKey() option") in
  chat.ChatMessages (H := sampleEnv) sampleWithStreamCallback 0 cfg llm.emptyCache
    sampleWorld
  = (llm.emptyCache, sampleWorld, Err wrapped)
  ∧ (chat.Chat (H := sampleEnv) sampleWithStreamCallback "hi" cfg llm.emptyCache
       sampleWorld).2 = Err wrapped
  ∧ (chat.ChatText (H := sampleEnv) sampleWithStreamCallback "hi" cfg
       llm.emptyCache sampleWorld).2 = Err wrapped
  ∧ (chat.ChatText (H := sampleEnv) sampleWithStreamCallback "hi" cfg
       llm.emptyCache sampleWorld).1.1 = llm.emptyCache
  ∧ sent (chat.ChatText (H := sampleEnv) sampleWithStreamCallback "hi" cfg
            llm.emptyCache sampleWorld).1.2 = [].
Proof.
  apply (stateless_calls_without_client (H := sampleEnv) sampleWithStreamCallback
           0 "hi" (triple "dashscope" "" "") llm.emptyCache sampleWorld
           (Errorf "dashscope: API key is required, use llm.WithAPIKey() option")).
  reflexivity.
Defined.

Lemma stateless_calls_keep_other_slices_witness :
  heap (chat.Chat (H := sampleEnv) sampleWithStreamCallback "hi"
          (sampleLLMConfig "generic" (Some false)) llm.emptyCache sampleWorld).1.2
    !! 0
  = Some sampleMessages.
Proof.
  apply (stateless_calls_keep_other_slices (H := sampleEnv)
           sampleWithStreamCallback 0 "hi" (sampleLLMConfig "generic" (Some false))
           llm.emptyCache sampleWorld 0).
  simpl. lia.
Defined.

Lemma ChatMessages_request_witness :
  let cfg := sampleLLMConfig "openai" None in
  let run := chat.ChatMessages (H := sampleEnv) sampleWithStreamCallback 0 cfg
               llm.emptyCache sampleWorld in
  Forall (carries "http://localhost/v1/chat" "sk-test" "qwen-plus"
            (deref (heap run.1.2) 0))
    (requests sampleWorld run.1.2)
  ∧ sends_once sampleWorld (run.1.2, run.2)
  ∧ run.1.1 = (llm.GetClient (H := sampleEnv) cfg llm.emptyCache).1.
Proof.
  apply (ChatMessages_request (H := sampleEnv) sampleWithStreamCallback 0
           (sampleLLMConfig "openai" None) llm.emptyCache sampleWorld 0
           (llm.OpenAIClient
              {| openai.requester_ := {| requester.HTTPClient := sampleClient |};
                 openai.config := sampleConfig sampleClient |})).
  - reflexivity.
  - reflexivity.
Defined.

(** ** The stateful client *)

Section stateful_client.
Context `{GoEnv}.
Variable WithStreamCallback : options.StreamCallback → options.Option.
Variable Unmarshal_messages : string → returns (list spec.Message).
Variable Marshal_messages : list spec.Message → returns string.

Lemma first_system_split (l : list spec.Message) :
  Forall (λ msg, spec.role msg ≠ spec.RoleSystem) l
  ∨ ∃ pre sys post,
      l = pre ++ sys :: post
      ∧ Forall (λ msg, spec.role msg ≠ spec.RoleSystem) pre
      ∧ spec.role sys = spec.RoleSystem.
Proof.
  induction l as [|msg l IH]; [by left|].
  destruct (String.eqb_spec (spec.role msg) spec.RoleSystem) as [Hs|Hs].
  - right. by exists [], msg, l.
  - destruct IH as [Hl|(pre & sys & post & -> & Hpre & Hsys)].
    + left. by constructor.
    + right. exists (msg :: pre), sys, post. split; [done|].
      split; [by constructor|done].
Qed.

Lemma markFirstSystem_no_system (l : list spec.Message) :
  Forall (λ msg, spec.role msg ≠ spec.RoleSystem) l → markFirstSystem l = l.
Proof.
  induction 1 as [|msg l Hmsg _ IH]; [done|]. cbn [markFirstSystem].
  apply String.eqb_neq in Hmsg. by rewrite Hmsg, IH.
Qed.

Lemma markFirstSystem_first_system (pre post : list spec.Message)
    (sys : spec.Message) :
  Forall (λ msg, spec.role msg ≠ spec.RoleSystem) pre →
  spec.role sys = spec.RoleSystem →
  markFirstSystem (pre ++ sys :: post)
  = pre ++ generic.addContent generic.noThink sys :: post.
Proof.
  intros Hpre Hsys. induction Hpre as [|msg pre Hmsg _ IH].
  - cbn [app markFirstSystem]. by rewrite Hsys, String.eqb_refl.
  - cbn [app markFirstSystem]. apply String.eqb_neq in Hmsg.
    by rewrite Hmsg, IH.
Qed.

Lemma markFirstSystem_snoc (l : list spec.Message) (msg : spec.Message) :
  spec.role msg ≠ spec.RoleSystem →
  markFirstSystem (l ++ [msg]) = markFirstSystem l ++ [msg].
Proof.
  intros Hmsg. induction l as [|x l IH].
  - cbn [app markFirstSystem]. apply String.eqb_neq in Hmsg. by rewrite Hmsg.
  - cbn [app markFirstSystem]. destruct (String.eqb _ _); [done|]. by rewrite IH.
Qed.

Lemma written_snoc (client : llm.Client) (opts : list options.Option)
    (l : list spec.Message) (msg : spec.Message) :
  spec.role msg ≠ spec.RoleSystem →
  written client opts (l ++ [msg]) = written client opts l ++ [msg].
Proof.
  intros Hmsg. unfold written. destruct client; [done| |done].
  destruct (options.Thinking _) as [[]|]; [done| |done].
  by apply markFirstSystem_snoc.
Qed.

Lemma written_keeps (client : llm.Client) (opts : list options.Option)
    (l : list spec.Message) :
  keepsMessages client = true → written client opts l = l.
Proof. by destruct client. Qed.

(** The slice of the messages after the thinking adaptation. *)
Lemma adaptThinking_messages messages config w l :
  heap w !! messages = Some l →
  heap (generic.adaptThinking messages config w).1 !! messages
  = Some match options.Thinking config with
         | Some false => markFirstSystem l
         | _ => l
         end.
Proof.
  intros Hl. pose proof (lookup_lt_Some _ _ _ Hl) as Hlt.
  destruct (decide (options.Thinking config = Some false)) as [Ht|Ht].
  - rewrite Ht. destruct (first_system_split l)
      as [Hno|(pre & sys & post & -> & Hpre & Hsys)].
    + rewrite markFirstSystem_no_system by done.
      unfold generic.adaptThinking, alloc. run. rewrite Ht. cbn [heap set_heap].
      rewrite deref_alloc. unfold deref at 1. rewrite Hl. cbn [default].
      rewrite rangeLoop_no_system by done. cbn [fst heap set_heap].
      by rewrite lookup_app_l.
    + rewrite (adaptThinking_no_think _ _ _ pre sys post) by done.
      cbn [fst heap set_heap].
      rewrite lookup_app_l by by rewrite length_insert.
      rewrite list_lookup_insert_eq by done.
      by rewrite markFirstSystem_first_system.
  - rewrite adaptThinking_other by done. cbn [fst heap set_heap].
    rewrite lookup_app_l by done. rewrite Hl.
    by destruct (options.Thinking config) as [[]|].
Qed.

(** The slice of the messages after a call through the interface. *)
Lemma Model_Chat_messages client name messages opts w l :
  heap w !! messages = Some l →
  heap (chat.Model_Chat (chat.Client_Model client name) messages opts w).1
    !! messages
  = Some (written client opts l).
Proof.
  intros Hl. destruct client as [c|c|c];
    cbn [chat.Client_Model chat.Model_Chat written].
  - by rewrite dashscope_Chat_heap.
  - rewrite generic_Chat_heap. by apply adaptThinking_messages.
  - by rewrite openai_Chat_heap.
Qed.

(** What [Send] and [SendStream] leave in the history, by the configuration
    of the call. *)
Lemma record_history (c : client.Client) (userPrompt : string)
    (tempConfig : option llm.Config) (w : World) :
  let cfg := match tempConfig with Some temp => temp | None => client.config c end in
  let run :=
    (client.appendHistory c (spec.NewUserMessage userPrompt);;
     client.record c
       (client.invoke WithStreamCallback c (client.history c) tempConfig)) w in
  client.history c < length (heap w) →
  deref (heap run.1) (client.history c)
  = turn (written (client.client c) (chat.requestOpts WithStreamCallback cfg)
            (deref (heap w) (client.history c)))
      userPrompt run.2
  ∧ is_Panic run.2 = false.
Proof.
  intros cfg run Hlt. subst run.
  unfold client.record, client.appendHistory, client.invoke, client.dropLast.
  fold cfg. run. cbn [fst snd].
  set (old := deref (heap w) (client.history c)).
  set (w1 := set_heap _ w).
  assert (heap w1 !! client.history c
          = Some (old ++ [spec.NewUserMessage userPrompt])) as Hw1.
  { subst w1. cbn [heap set_heap]. by rewrite list_lookup_insert_eq. }
  pose proof (Model_Chat_messages (client.client c) (llm.Model cfg)
                (client.history c) (chat.requestOpts WithStreamCallback cfg)
                w1 _ Hw1) as Hw2.
  rewrite written_snoc in Hw2 by done.
  pose proof (Model_Chat_no_panic
                (chat.Client_Model (client.client c) (llm.Model cfg))
                (client.history c) (chat.requestOpts WithStreamCallback cfg) w1)
    as Hpanic.
  destruct (chat.Model_Chat _ _ _ w1) as [w2 [resp|e|msg]];
    cbn [fst snd] in *; [| |done].
  - split; [|done]. cbn [fst heap set_heap turn].
    assert (deref (heap w2) (client.history c)
            = written (client.client c)
                (chat.requestOpts WithStreamCallback cfg) old
              ++ [spec.NewUserMessage userPrompt]) as Hd.
    { unfold deref. by rewrite Hw2. }
    rewrite Hd. unfold deref.
    rewrite list_lookup_insert_eq by by eapply lookup_lt_Some.
    cbn [default from_option id]. by rewrite <- (assoc_L (++)).
  - assert (deref (heap w2) (client.history c)
            = written (client.client c)
                (chat.requestOpts WithStreamCallback cfg) old
              ++ [spec.NewUserMessage userPrompt]) as Hd.
    { unfold deref. by rewrite Hw2. }
    rewrite !Hd, length_app. cbn [length].
    replace (0 <? length (written (client.client c)
                            (chat.requestOpts WithStreamCallback cfg) old) + 1)
      with true by (symmetry; apply Nat.ltb_lt; lia).
    split; [|done]. cbn [fst snd heap set_heap turn]. unfold deref.
    rewrite list_lookup_insert_eq by by eapply lookup_lt_Some.
    cbn [default from_option id]. rewrite Nat.add_sub. by rewrite take_app_length.
Qed.

(** X22: the history after Send and after SendStream. A turn that is
    answered leaves the prompt and the message of the answer behind the
    earlier messages; a turn that fails leaves neither. The earlier messages
    are as the adapter left them: untouched by dashscope and by openai, and
    with the marker on the first system message once more by generic when
    thinking is switched off, also when the turn fails. Neither call ends in
    a panic, so that SendText, which is Send with the error replaced by a
    fixed text, always returns a text. *)
Theorem Send_records_the_turn (c : client.Client) (userPrompt : string)
    (callback : option options.StreamCallback) (w : World) :
  let old := deref (heap w) (client.history c) in
  let after (cfg : llm.Config) (run : World * result spec.Response) :=
    deref (heap run.1) (client.history c)
    = turn (written (client.client c) (chat.requestOpts WithStreamCallback cfg) old)
        userPrompt run.2
    ∧ is_Panic run.2 = false in
  client.history c < length (heap w) →
  after (client.config c) (client.Send WithStreamCallback c userPrompt w)
  ∧ after (client.withCallback (client.config c) callback)
      (client.SendStream WithStreamCallback c userPrompt callback w)
  ∧ (keepsMessages (client.client c) = true →
     ∀ opts, written (client.client c) opts old = old)
  ∧ client.SendText WithStreamCallback c userPrompt w
    = ((client.Send WithStreamCallback c userPrompt w).1,
       Ok match (client.Send WithStreamCallback c userPrompt w).2 with
          | Ok resp => spec.Content (spec.Message_ resp)
          | _ => "对话错误，请联系管理员"
          end).
Proof.
  intros old after Hlt. subst after. cbn beta. split; [|split; [|split]].
  - apply (record_history c userPrompt None w Hlt).
  - apply (record_history c userPrompt
             (Some (client.withCallback (client.config c) callback)) w Hlt).
  - intros Hk opts. by apply written_keeps.
  - destruct (record_history c userPrompt None w Hlt) as [_ Hp].
    unfold client.SendText. fold (client.Send WithStreamCallback c userPrompt) in Hp.
    by destruct (client.Send WithStreamCallback c userPrompt w) as [w' [resp|e|msg]].
Qed.

Lemma sends_once_from {A} (w w1 : World) (run : World * result A) :
  sent w1 = sent w → sends_once w1 run → sends_once w run.
Proof. unfold sends_once, requests. by intros ->. Qed.

(** A call through the interface on a slice made for it. *)
Lemma fresh_call client name opts w w1 messages l :
  let run := chat.Model_Chat (chat.Client_Model client name) messages opts w1 in
  fresh_slice w w1 messages l →
  (∀ a, a < length (heap w) → heap run.1 !! a = heap w !! a)
  ∧ Forall (carries (options.APIURL (clientConfig client))
              (options.APIKey (clientConfig client)) name (written client opts l))
      (requests w run.1)
  ∧ sends_once w run
  ∧ is_Panic run.2 = false
  ∧ heap run.1 !! messages = Some (written client opts l).
Proof.
  intros run (Hsent & Hl & Hge & Hold). subst run.
  pose proof (lookup_lt_Some _ _ _ Hl) as Hlt.
  pose proof (Model_Chat_messages client name messages opts w1 l Hl) as Hm.
  destruct (Model_Chat_carries client name messages opts w1) as [Hc Honce].
  cbn zeta in Hc. unfold deref in Hc. rewrite Hm in Hc.
  cbn [default from_option id] in Hc.
  split; [|split; [|split; [|split]]].
  - intros a Ha. rewrite Model_Chat_heap_other; [by apply Hold|lia|].
    specialize (Hold a Ha). apply lookup_lt_is_Some.
    rewrite Hold. apply lookup_lt_is_Some. done.
  - unfold requests in *. by rewrite <- Hsent.
  - by apply (sends_once_from w w1).
  - apply Model_Chat_no_panic.
  - done.
Qed.

Lemma SendNoHistory_fresh (c : client.Client) (userPrompt : string) (w : World) :
  ∃ w1 messages,
    client.SendNoHistory WithStreamCallback c userPrompt w
    = chat.Model_Chat
        (chat.Client_Model (client.client c) (llm.Model (client.config c)))
        messages (chat.requestOpts WithStreamCallback (client.config c)) w1
    ∧ fresh_slice w w1 messages
        (deref (heap w) (client.history c) ++ [spec.NewUserMessage userPrompt]).
Proof.
  unfold client.SendNoHistory, client.invoke, alloc. run.
  destruct (deref (heap w) (client.history c)) as [|msg l] eqn:Hd;
    cbn [length Nat.ltb Nat.leb fst snd heap set_heap].
  - eexists _, _. split; [reflexivity|]. unfold fresh_slice.
    cbn [heap set_heap sent]. split; [done|].
    split; [by rewrite list_lookup_middle|]. split; [done|].
    intros a Ha. by rewrite lookup_app_l.
  - eexists _, _. split; [reflexivity|]. unfold fresh_slice.
    cbn [heap set_heap sent]. split; [done|].
    split; [by rewrite list_lookup_middle|].
    split; [rewrite length_app; lia|].
    intros a Ha. rewrite !lookup_app_l; [done|done|].
    rewrite length_app. lia.
Qed.

Lemma SendStreamNoHistory_fresh (c : client.Client) (userPrompt : string)
    (callback : option options.StreamCallback) (w : World) :
  ∃ w1 messages,
    client.SendStreamNoHistory WithStreamCallback c userPrompt callback w
    = chat.Model_Chat
        (chat.Client_Model (client.client c) (llm.Model (client.config c)))
        messages
        (chat.requestOpts WithStreamCallback
           (client.withCallback (client.config c) callback)) w1
    ∧ fresh_slice w w1 messages
        (chat.singleTurn (llm.SystemPrompt (client.config c)) userPrompt).
Proof.
  unfold client.SendStreamNoHistory, client.invoke, alloc. run.
  eexists _, _. split; [reflexivity|]. unfold fresh_slice.
  cbn [heap set_heap sent]. split; [done|].
  split; [by rewrite list_lookup_middle|]. split; [done|].
  intros a Ha. by rewrite lookup_app_l.
Qed.

(** The messages [SendByMemory] starts from: those of the memory, or the
    system prompt when the memory holds none. *)
Lemma SendByMemory_cases (c : client.Client) (userPrompt memoryJSON : string)
    (w : World) :
  let run :=
    client.SendByMemory WithStreamCallback Unmarshal_messages Marshal_messages c
      userPrompt memoryJSON w in
  (∃ e, (memoryJSON =? "")%string = false
        ∧ Unmarshal_messages memoryJSON = Failed e
        ∧ run = (w, Ok (memoryJSON,
                        Failed (ErrorfWrap "failed to parse memory json: %w" e))))
  ∨ ∃ decoded w1 messages,
      (if (memoryJSON =? "")%string then Returned []
       else Unmarshal_messages memoryJSON) = Returned decoded
      ∧ fresh_slice w w1 messages
          (match decoded with
           | [] => client.systemHistory (client.config c)
           | _ => decoded
           end ++ [spec.NewUserMessage userPrompt])
      ∧ let call :=
          chat.Model_Chat
            (chat.Client_Model (client.client c) (llm.Model (client.config c)))
            messages (chat.requestOpts WithStreamCallback (client.config c)) w1 in
        run.1 = call.1
        ∧ run.2
          = match call.2 with
            | Ok resp =>
                match Marshal_messages (deref (heap call.1) messages
                                        ++ [spec.Message_ resp]) with
                | Returned newMemory => Ok (newMemory, Returned resp)
                | Failed err =>
                    Ok (memoryJSON,
                        Failed (ErrorfWrap "failed to marshal new memory: %w"
                                  err))
                end
            | Err err => Ok (memoryJSON, Failed err)
            | Panic msg => Panic msg
            end.
Proof.
  intros run. subst run. unfold client.SendByMemory, client.invoke.
  destruct (memoryJSON =? "")%string eqn:Hempty.
  - right. exists [].
    match goal with
    | |- context [chat.Model_Chat _ ?a _ ?w1] => exists w1, a
    end.
    split; [done|]. split.
    + unfold fresh_slice. cbn [heap set_heap sent]. split; [done|].
      split; [|split; [reflexivity|intros a Ha; by rewrite lookup_app_l]].
      rewrite list_lookup_middle by done. unfold client.systemHistory.
      cbn [length Nat.eqb andb]. by destruct (negb _).
    + cbn zeta. destruct (chat.Model_Chat _ _ _ _) as [w' [resp|e|msg]];
        [|done..]. cbn [fst snd]. by destruct (Marshal_messages _).
  - destruct (Unmarshal_messages memoryJSON) as [decoded|e] eqn:Hu.
    + right. exists decoded.
      match goal with
      | |- context [chat.Model_Chat _ ?a _ ?w1] => exists w1, a
      end.
      split; [done|]. split.
      * unfold fresh_slice. cbn [heap set_heap sent]. split; [done|].
        split; [|split; [reflexivity|intros a Ha; by rewrite lookup_app_l]].
        rewrite list_lookup_middle by done. unfold client.systemHistory.
        destruct decoded; [|done]. cbn [length Nat.eqb andb app].
        by destruct (negb _).
      * cbn zeta. destruct (chat.Model_Chat _ _ _ _) as [w' [resp|e|msg]];
          [|done..]. cbn [fst snd]. by destruct (Marshal_messages _).
    + left. by exists e.
Qed.

(** X23: the calls that are made outside the history, SendNoHistory,
    SendStreamNoHistory and SendByMemory, write no array of messages that was
    there before the call, whichever the provider and whatever the outcome:
    the history of the client, in particular, is as it was. *)
Theorem calls_outside_history_keep_the_heap (c : client.Client)
    (userPrompt memoryJSON : string) (callback : option options.StreamCallback)
    (w : World) (a : addr) :
  a < length (heap w) →
  heap (client.SendNoHistory WithStreamCallback c userPrompt w).1 !! a
  = heap w !! a
  ∧ heap (client.SendStreamNoHistory WithStreamCallback c userPrompt callback w).1
      !! a
    = heap w !! a
  ∧ heap (client.SendByMemory WithStreamCallback Unmarshal_messages
            Marshal_messages c userPrompt memoryJSON w).1 !! a
    = heap w !! a.
Proof.
  intros Ha. split; [|split].
  - destruct (SendNoHistory_fresh c userPrompt w) as (w1 & m & -> & Hf).
    by apply (fresh_call _ _ _ _ _ _ _ Hf).
  - destruct (SendStreamNoHistory_fresh c userPrompt callback w)
      as (w1 & m & -> & Hf).
    by apply (fresh_call _ _ _ _ _ _ _ Hf).
  - destruct (SendByMemory_cases c userPrompt memoryJSON w)
      as [(e & _ & _ & ->)|(decoded & w1 & m & _ & Hf & -> & _)]; [done|].
    by apply (fresh_call _ _ _ _ _ _ _ Hf).
Qed.

(** X24: what the two calls without history send. SendNoHistory sends the
    history followed by the prompt; SendStreamNoHistory sends the system
    prompt, when there is one, and the prompt, and nothing of the history.
    Each request names the model of the configuration and goes to the URL of
    the client with its key; each call sends at most one request, and never
    ends in a panic. For generic with thinking switched off, the marker is on
    the first system message of what is sent. *)
Theorem requests_outside_history (c : client.Client) (userPrompt : string)
    (callback : option options.StreamCallback) (w : World) :
  let sends (opts : list options.Option) (l : list spec.Message)
      (run : World * result spec.Response) :=
    Forall (carries (options.APIURL (clientConfig (client.client c)))
              (options.APIKey (clientConfig (client.client c)))
              (llm.Model (client.config c)) (written (client.client c) opts l))
      (requests w run.1)
    ∧ sends_once w run
    ∧ is_Panic run.2 = false in
  sends (chat.requestOpts WithStreamCallback (client.config c))
    (deref (heap w) (client.history c) ++ [spec.NewUserMessage userPrompt])
    (client.SendNoHistory WithStreamCallback c userPrompt w)
  ∧ sends (chat.requestOpts WithStreamCallback
             (client.withCallback (client.config c) callback))
      (chat.singleTurn (llm.SystemPrompt (client.config c)) userPrompt)
      (client.SendStreamNoHistory WithStreamCallback c userPrompt callback w).
Proof.
  intros sends. subst sends. cbn beta. split.
  - destruct (SendNoHistory_fresh c userPrompt w) as (w1 & m & -> & Hf).
    destruct (fresh_call (client.client c) (llm.Model (client.config c))
                (chat.requestOpts WithStreamCallback (client.config c))
                _ _ _ _ Hf) as (_ & Hc & Ho & Hp & _). done.
  - destruct (SendStreamNoHistory_fresh c userPrompt callback w)
      as (w1 & m & -> & Hf).
    destruct (fresh_call (client.client c) (llm.Model (client.config c))
                (chat.requestOpts WithStreamCallback
                   (client.withCallback (client.config c) callback))
                _ _ _ _ Hf) as (_ & Hc & Ho & Hp & _). done.
Qed.

(** X25: the memory SendByMemory returns. With an error, of the decoder, of
    the call or of the encoder, it is the memory that was passed in. With a
    response, it is the encoding of the messages the call started from (those
    of the memory, or the system prompt when the memory holds none), as the
    adapter left them, followed by the prompt and by the message of the
    response. A memory that does not decode is refused before anything is
    sent, and the call never ends in a panic. *)
Theorem SendByMemory_memory (c : client.Client) (userPrompt memoryJSON : string)
    (w : World) :
  let run :=
    client.SendByMemory WithStreamCallback Unmarshal_messages Marshal_messages c
      userPrompt memoryJSON w in
  (∀ memory e, run.2 = Ok (memory, Failed e) → memory = memoryJSON)
  ∧ (∀ memory resp,
       run.2 = Ok (memory, Returned resp) →
       ∃ decoded,
         (if (memoryJSON =? "")%string then Returned []
          else Unmarshal_messages memoryJSON) = Returned decoded
         ∧ Marshal_messages
             (written (client.client c)
                (chat.requestOpts WithStreamCallback (client.config c))
                (match decoded with
                 | [] => client.systemHistory (client.config c)
                 | _ => decoded
                 end) ++ [spec.NewUserMessage userPrompt; spec.Message_ resp])
           = Returned memory)
  ∧ (∀ e, (memoryJSON =? "")%string = false →
          Unmarshal_messages memoryJSON = Failed e →
          run = (w, Ok (memoryJSON,
                        Failed (ErrorfWrap "failed to parse memory json: %w" e))))
  ∧ is_Panic run.2 = false.
Proof.
  intros run.
  destruct (SendByMemory_cases c userPrompt memoryJSON w)
    as [(e & Hne & Hu & Hrun)|(decoded & w1 & m & Hdec & Hf & Hw & Hr)];
    fold run in Hrun || fold run in Hw, Hr.
  - rewrite Hrun. cbn [snd]. split; [by intros ? ? [= <- _]|].
    split; [done|]. split; [|done]. intros e' _ He'. congruence.
  - cbn zeta in Hw, Hr.
    destruct (fresh_call (client.client c) (llm.Model (client.config c))
                (chat.requestOpts WithStreamCallback (client.config c))
                _ _ _ _ Hf) as (_ & _ & _ & Hp & Hm).
    cbn zeta in Hp, Hm. rewrite Hr. clear Hr Hw.
    destruct (chat.Model_Chat _ _ _ w1) as [w' [resp|e|msg]];
      cbn [fst snd] in *; [| |done].
    + unfold deref. rewrite Hm. cbn [default from_option id].
      rewrite written_snoc by done. rewrite <- (assoc_L (++)). cbn [app].
      destruct (Marshal_messages _) as [newMemory|err] eqn:Hmar.
      * split; [done|]. split; [|split; [|done]].
        -- intros memory resp' [= <- <-]. by exists decoded.
        -- intros e Hne Hu. by rewrite Hne, Hu in Hdec.
      * split; [by intros ? ? [= <- _]|]. split; [done|].
        split; [|done]. intros e Hne Hu. by rewrite Hne, Hu in Hdec.
    + split; [by intros ? ? [= <- _]|]. split; [done|].
      split; [|done]. intros e' Hne Hu. by rewrite Hne, Hu in Hdec.
Qed.

(** X26: the history a client starts with, and ResetHistory. New returns the
    error of the resolution as it is, and otherwise a client with the
    configuration, the resolved provider client, and a history of its own
    that holds the system prompt, or nothing when the prompt is empty.
    ResetHistory puts the history back to that, whatever it held, and writes
    no other array. *)
Theorem New_and_ResetHistory (cfg : llm.Config) (st : llm.Cache) (w : World) :
  let run := client.New cfg st w in
  cache_wf st →
  run.1.1 = (llm.GetClient cfg st).1
  ∧ match (llm.GetClient cfg st).2 with
    | Ok p =>
        ∃ c, run.2 = Ok c
             ∧ client.config c = cfg
             ∧ llm.clients run.1.1 !! p = Some (client.client c)
             ∧ client.history c = length (heap w)
             ∧ heap run.1.2 = heap w ++ [client.systemHistory cfg]
             ∧ sent run.1.2 = sent w
    | Err e => run = (st, w, Err e)
    | Panic msg => run.2 = Panic msg
    end
  ∧ ∀ c w',
      client.history c < length (heap w') →
      heap (client.ResetHistory c w').1
      = <[client.history c := client.systemHistory (client.config c)]> (heap w')
      ∧ deref (heap (client.ResetHistory c w').1) (client.history c)
        = client.systemHistory (client.config c).
Proof.
  intros run Hwf. subst run. unfold client.New, chat.clientAt.
  pose proof (GetClient_resolves cfg st) as Hres.
  pose proof (GetClient_Err cfg st) as Herr.
  destruct (llm.GetClient cfg st) as [st' [p|e|msg]]; cbn [fst snd] in *.
  - destruct (Hres p Hwf eq_refl) as [providerClient Hp]. rewrite Hp.
    split; [done|]. split; [by eexists|].
    intros c w' Hlt. split; [done|]. unfold client.ResetHistory, deref. run.
    cbn [fst heap set_heap]. by rewrite list_lookup_insert_eq.
  - injection (Herr e eq_refl) as ->. split; [done|]. split; [done|].
    intros c w' Hlt. split; [done|]. unfold client.ResetHistory, deref. run.
    cbn [fst heap set_heap]. by rewrite list_lookup_insert_eq.
  - split; [done|]. split; [done|].
    intros c w' Hlt. split; [done|]. unfold client.ResetHistory, deref. run.
    cbn [fst heap set_heap]. by rewrite list_lookup_insert_eq.
Qed.

End stateful_client.

Lemma Send_records_the_turn_witness :
  let c := sampleStateful "generic" (Some false) (sampleGenericClient sampleClient) in
  deref (heap (client.Send (H := sampleEnv) sampleWithStreamCallback c "again"
                 sampleWorld).1) 0
  = [spec.NewSystemMessage ("You are a helpful assistant." +:+ LF +:+ "/no_think");
     spec.NewUserMessage "hi"; spec.NewUserMessage "again";
     spec.NewAssistantMessage "Final answer"].
Proof.
  pose proof (Send_records_the_turn (H := sampleEnv) sampleWithStreamCallback
                (sampleStateful "generic" (Some false)
                   (sampleGenericClient sampleClient))
                "again" None sampleWorld) as Hthm.
  destruct Hthm as [[Hsend _] _]; [simpl; lia|].
  refine (eq_trans Hsend _). vm_compute. reflexivity.
Defined.

Lemma calls_outside_history_keep_the_heap_witness :
  let c := sampleStateful "generic" (Some false) (sampleGenericClient sampleClient) in
  heap (client.SendNoHistory (H := sampleEnv) sampleWithStreamCallback c "again"
          sampleWorld).1 !! 0
  = Some sampleMessages
  ∧ heap (client.SendStreamNoHistory (H := sampleEnv) sampleWithStreamCallback c
            "again" (Some acceptAll) sampleWorld).1 !! 0
    = Some sampleMessages
  ∧ heap (client.SendByMemory (H := sampleEnv) sampleWithStreamCallback
            sampleUnmarshal sampleMarshal c "again" "[system,hi,answer]"
            sampleWorld).1 !! 0
    = Some sampleMessages.
Proof.
  apply (calls_outside_history_keep_the_heap (H := sampleEnv)
           sampleWithStreamCallback sampleUnmarshal sampleMarshal
           (sampleStateful "generic" (Some false) (sampleGenericClient sampleClient))
           "again" "[system,hi,answer]" (Some acceptAll) sampleWorld 0).
  simpl. lia.
Defined.

Lemma New_and_ResetHistory_witness :
  let cfg := sampleLLMConfig "dashscope" None in
  let run := client.New (H := sampleEnv) cfg llm.emptyCache sampleWorld in
  ∃ c, run.2 = Ok c
       ∧ client.config c = cfg
       ∧ llm.clients run.1.1 !! 0 = Some (client.client c)
       ∧ client.history c = 1
       ∧ heap run.1.2
         = [sampleMessages; [spec.NewSystemMessage "You are a helpful assistant."]]
       ∧ sent run.1.2 = [].
Proof.
  exact (proj1 (proj2 (New_and_ResetHistory (H := sampleEnv)
                         (sampleLLMConfig "dashscope" None) llm.emptyCache
                         sampleWorld cache_wf_empty))).
Defined.
